(** * teambuild: financial metrics, profile extraction and competitor lookup

    A shallow embedding of [finance.py], [company.py], [minimax_helper.py],
    [memo.py] and the input functions of [main.py], with the properties
    their specification states about them and further properties of the
    code.

    - [Py] models the parts of the Python runtime the two files lean on:
      exceptions, [str.strip], [str.find], slicing, [str()] and [repr()] of
      decoded JSON values, truthiness, [dict.get].
    - [Finance] embeds [calculate_burn], [calculate_runway],
      [simulate_downside] and [analyze_financials], generically over the
      arithmetic of the number type: exact rationals ([Q]), floats without
      rounding ([xfloat]: a rational, an infinity or NaN) and the kernel's
      binary64 floats. A frame holds, as [pd.read_csv] returns it, numbers,
      NaN for a blank cell, and texts.
    - [Company] embeds [extract_company_profile], [_parse_profile_json],
      [_ensure_competitors_list] and [find_competitors], over a world that
      answers the two outside calls and over the JSON decoder.
    - [Json] is a decoder for the examples.
    - [Minimax] embeds [_build_api_url], [chat_completion] and
      [call_minimax], over the environment variables and the endpoint, with
      the requests sent as state.
    - [Memo] embeds [_format_user_prompt] and [generate_memo], over the
      files of the working directory.
    - [Main] embeds [load_startup_description] and [load_benchmarks], over
      the terminal and the disk.
    - [PyFacts], [TextFacts], [FinanceFacts] and [CompanyFacts] hold the
      proofs; general statements about numbers are over [Q] and [xfloat].
      [FinanceMore], [CompanyMore], [MinimaxFacts], [MemoFacts] and
      [MainFacts] hold the further properties.

    Characters are [ascii], read as the code points 0..255. *)

From Stdlib Require Import ZArith QArith Qfield Lqa Lia Bool List String Ascii.
From Stdlib Require Import DecimalString PrimFloat Uint63.
Import ListNotations.

Set Warnings "-register-all".


Open Scope string_scope.

(* ================================================================== *)
(** * The Python runtime, as far as the two files use it *)

Module Py.

(** Exceptions, by class, with their message. [RequestException] stands for
    the whole [requests] hierarchy ([ConnectionError], [Timeout],
    [HTTPError], ...), which is what [except requests.RequestException]
    catches. *)
Inductive exn : Type :=
| ValueError (msg : string)
| FileNotFoundError (msg : string)
| RuntimeError (msg : string)
| RequestException (msg : string)
| JSONDecodeError (msg : string)
| AttributeError (msg : string)
| TypeError (msg : string)
| KeyError (msg : string)
| IndexError (msg : string).

(** A call either raises or returns. *)
Definition result (A : Type) : Type := (exn + A)%type.

Definition ret {A} (a : A) : result A := inr a.
Definition raise {A} (e : exn) : result A := inl e.
Definition bind {A B} (m : result A) (k : A -> result B) : result B :=
  match m with
  | inl e => inl e
  | inr a => k a
  end.

Notation "x <- m ;; k" := (bind m (fun x => k))
  (at level 61, m at next level, right associativity).

(** ** Strings *)

(** The double quote, which a string literal of this file cannot hold,
    and the line feed. *)
Definition dq : string := String (ascii_of_nat 34) "".
Definition nl : string := String (ascii_of_nat 10) "".

(** [quoted s] is [s] between double quotes, as it stands in a JSON text. *)
Definition quoted (s : string) : string := dq ++ s ++ dq.

(** [str.isspace] on one character, which is also what [\s] matches in a
    [str] pattern: TAB, LF, VT, FF, CR, FS, GS, RS, US, SPACE, NEL, NBSP. *)
Definition isspace (c : ascii) : bool :=
  let n := nat_of_ascii c in
  (((9 <=? n) && (n <=? 13)) || ((28 <=? n) && (n <=? 32))
   || (n =? 133) || (n =? 160))%nat.

Fixpoint lstrip (s : string) : string :=
  match s with
  | "" => ""
  | String c r => if isspace c then lstrip r else s
  end.

Fixpoint rstrip (s : string) : string :=
  match s with
  | "" => ""
  | String c r =>
      match rstrip r with
      | "" => if isspace c then "" else String c ""
      | r' => String c r'
      end
  end.

(** [s.strip()] *)
Definition strip (s : string) : string := rstrip (lstrip s).

(** [bool(s)] for a string: non-empty. *)
Definition nonempty (s : string) : bool :=
  match s with
  | "" => false
  | String _ _ => true
  end.

(** [s[n:]] *)
Fixpoint drop (n : nat) (s : string) : string :=
  match n, s with
  | O, _ => s
  | S _, "" => ""
  | S n', String _ r => drop n' r
  end.

(** [s[:n]] *)
Fixpoint take (n : nat) (s : string) : string :=
  match n, s with
  | O, _ => ""
  | S _, "" => ""
  | S n', String c r => String c (take n' r)
  end.

(** [s[i:j]] for [0 <= i], [0 <= j]. *)
Definition slice (i j : nat) (s : string) : string :=
  take (j - i)%nat (drop i s).

(** [s.find(sub)]: the first index of [sub] in [s], or [-1]. *)
Definition find (sub s : string) : Z :=
  match index 0 sub s with
  | Some i => Z.of_nat i
  | None => (-1)%Z
  end.

(** [sub in s] *)
Definition contains (sub s : string) : bool :=
  match index 0 sub s with
  | Some _ => true
  | None => false
  end.

(** [sep.join(parts)] *)
Fixpoint join (sep : string) (parts : list string) : string :=
  match parts with
  | [] => ""
  | [p] => p
  | p :: rest => p ++ sep ++ join sep rest
  end.

(** [str(n)] for an [int]. *)
Definition str_of_int (n : Z) : string := NilZero.string_of_int (Z.to_int n).

(** ** [repr] of a string

    The quote is the single quote unless the string holds one and no
    double quote. The quote and the backslash are escaped, TAB, LF and CR
    are written [\t], [\n], [\r], and the other characters that are not
    printable (controls, DEL, 0x80..0xa0 and the soft hyphen 0xad) are
    written [\xNN]. *)

Definition hex_digit (n : nat) : ascii :=
  if (n <? 10)%nat then ascii_of_nat (48 + n) else ascii_of_nat (87 + n).

Definition hex_escape (c : ascii) : string :=
  let n := nat_of_ascii c in
  String "\" (String "x" (String (hex_digit (n / 16)%nat)
                             (String (hex_digit (n mod 16)%nat) ""))).

Definition printable (c : ascii) : bool :=
  let n := nat_of_ascii c in
  (((32 <=? n) && (n <? 127)) || ((161 <=? n) && negb (n =? 173)))%nat.

Definition repr_char (quote c : ascii) : string :=
  if (c =? quote)%char || (c =? "\")%char then String "\" (String c "")
  else if (c =? ascii_of_nat 9)%char then "\t"
  else if (c =? ascii_of_nat 10)%char then "\n"
  else if (c =? ascii_of_nat 13)%char then "\r"
  else if printable c then String c ""
  else hex_escape c.

Fixpoint repr_chars (quote : ascii) (s : string) : string :=
  match s with
  | "" => ""
  | String c r => repr_char quote c ++ repr_chars quote r
  end.

Definition repr_quote (s : string) : ascii :=
  if contains "'" s && negb (contains dq s) then ascii_of_nat 34 else "'"%char.

Definition repr_str (s : string) : string :=
  let quote := repr_quote s in
  String quote (repr_chars quote s ++ String quote "").

(** ** Decoded JSON values

    What [json.loads] and [Response.json()] hand to the code: [None],
    [bool], [int], [float], [str], [list], [dict]. A [float] is carried by
    its [repr] (the shortest decimal form that reads back as the same
    binary64 value: [1.5], [0.0], [-0.0], [1e+22], [nan], [inf]), which
    identifies it. A [dict] keeps its members in insertion order. *)
Inductive json : Type :=
| JNull
| JBool (b : bool)
| JInt (n : Z)
| JFloat (repr : string)
| JStr (s : string)
| JArr (items : list json)
| JObj (members : list (string * json)).

(** [repr(v)] *)
Fixpoint repr (v : json) : string :=
  match v with
  | JNull => "None"
  | JBool true => "True"
  | JBool false => "False"
  | JInt n => str_of_int n
  | JFloat r => r
  | JStr s => repr_str s
  | JArr items => "[" ++ join ", " (map repr items) ++ "]"
  | JObj members =>
      "{" ++ join ", " (map (fun kv => let '(k, x) := kv in
                                      repr_str k ++ ": " ++ repr x) members)
          ++ "}"
  end.

(** [str(v)]: a string is itself, everything else is its [repr]. *)
Definition str (v : json) : string :=
  match v with
  | JStr s => s
  | _ => repr v
  end.

(** [type(v).__name__] *)
Definition type_name (v : json) : string :=
  match v with
  | JNull => "NoneType"
  | JBool _ => "bool"
  | JInt _ => "int"
  | JFloat _ => "float"
  | JStr _ => "str"
  | JArr _ => "list"
  | JObj _ => "dict"
  end.

(** [bool(v)]: [None], [False], zero, and the empty string, list and dict
    are falsy. *)
Definition truthy (v : json) : bool :=
  match v with
  | JNull => false
  | JBool b => b
  | JInt n => negb (n =? 0)%Z
  | JFloat r => negb ((r =? "0.0") || (r =? "-0.0"))
  | JStr s => nonempty s
  | JArr items => match items with [] => false | _ :: _ => true end
  | JObj members => match members with [] => false | _ :: _ => true end
  end.

(** [a or b] *)
Definition py_or (a b : json) : json := if truthy a then a else b.

(** [v is None] *)
Definition is_none (v : json) : bool :=
  match v with
  | JNull => true
  | _ => false
  end.

Fixpoint lookup (k : string) (members : list (string * json)) : option json :=
  match members with
  | [] => None
  | (k', v) :: rest => if (k' =? k) then Some v else lookup k rest
  end.

(** [d.get(k)]: [None] when the key is absent. *)
Definition dict_get (members : list (string * json)) (k : string) : json :=
  match lookup k members with
  | Some v => v
  | None => JNull
  end.

(** [v.get(k)] on any value: only a [dict] has the method. *)
Definition get (v : json) (k : string) : result json :=
  match v with
  | JObj members => ret (dict_get members k)
  | _ => raise (AttributeError ("'" ++ type_name v ++ "' object has no attribute 'get'"))
  end.

(** [for item in v]: the items of a list, the characters of a string, the
    keys of a dict; nothing else among the decoded values is iterable. *)
Fixpoint chars (s : string) : list json :=
  match s with
  | "" => []
  | String c r => JStr (String c "") :: chars r
  end.

Definition iterate (v : json) : result (list json) :=
  match v with
  | JArr items => ret items
  | JStr s => ret (chars s)
  | JObj members => ret (map (fun kv => JStr (fst kv)) members)
  | _ => raise (TypeError ("'" ++ type_name v ++ "' object is not iterable"))
  end.

End Py.

(* ================================================================== *)
(** * finance.py *)

Module Finance.
Import Py.

(** The arithmetic the file uses on [float]: conversion of an [int]
    literal or count, [+], [*], [/], [<] and [==]. *)
Class Number (F : Type) : Type := {
  of_int : Z -> F;
  add : F -> F -> F;
  mul : F -> F -> F;
  div : F -> F -> F;
  ltb : F -> F -> bool;
  eqb : F -> F -> bool
}.

(** Exact arithmetic. *)
#[export] Instance Q_number : Number Q := {
  of_int := inject_Z;
  add := Qplus;
  mul := Qmult;
  div := Qdiv;
  ltb := fun x y => negb (Qle_bool y x);
  eqb := Qeq_bool
}.

(** [float(n)] for an [int] below 2^63 in magnitude. *)
Definition float_of_Z (z : Z) : float :=
  if (z <? 0)%Z then PrimFloat.opp (PrimFloat.of_uint63 (Uint63.of_Z (- z)))
  else PrimFloat.of_uint63 (Uint63.of_Z z).

(** Binary64 arithmetic, as Python's [float] has it. *)
#[export] Instance float_number : Number float := {
  of_int := float_of_Z;
  add := PrimFloat.add;
  mul := PrimFloat.mul;
  div := PrimFloat.div;
  ltb := PrimFloat.ltb;
  eqb := PrimFloat.eqb
}.

(** ** Floats without rounding

    The values of a [float] with the rounding left out: an exact rational,
    one of the two infinities, or NaN, which is what [pd.read_csv] makes of
    a blank cell. The operations follow IEEE 754 on the infinities and on
    NaN: NaN makes every result NaN and every comparison false. A zero has
    no sign here; the code never divides by one. *)
Inductive xfloat : Type :=
| Fin (q : Q)
| Inf (negative : bool)
| NaN.

(** The sign of a rational that is not zero: [true] for a negative one. *)
Definition sign_of (q : Q) : option bool :=
  if Qeq_bool q 0 then None else Some (negb (Qle_bool 0 q)).

Definition xadd (a b : xfloat) : xfloat :=
  match a, b with
  | NaN, _ | _, NaN => NaN
  | Fin p, Fin q => Fin (p + q)
  | Fin _, Inf s | Inf s, Fin _ => Inf s
  | Inf s, Inf t => if Bool.eqb s t then Inf s else NaN
  end.

Definition xmul (a b : xfloat) : xfloat :=
  match a, b with
  | NaN, _ | _, NaN => NaN
  | Fin p, Fin q => Fin (p * q)
  | Fin p, Inf s | Inf s, Fin p =>
      match sign_of p with
      | None => NaN
      | Some t => Inf (xorb s t)
      end
  | Inf s, Inf t => Inf (xorb s t)
  end.

Definition xdiv (a b : xfloat) : xfloat :=
  match a, b with
  | NaN, _ | _, NaN => NaN
  | Fin p, Fin q =>
      match sign_of q with
      | Some _ => Fin (p / q)
      | None =>
          match sign_of p with
          | None => NaN
          | Some t => Inf t
          end
      end
  | Fin _, Inf _ => Fin 0
  | Inf s, Fin q =>
      match sign_of q with
      | None => Inf s
      | Some t => Inf (xorb s t)
      end
  | Inf _, Inf _ => NaN
  end.

Definition xltb (a b : xfloat) : bool :=
  match a, b with
  | NaN, _ | _, NaN => false
  | Fin p, Fin q => negb (Qle_bool q p)
  | Fin _, Inf s => negb s
  | Inf s, Fin _ => s
  | Inf s, Inf t => s && negb t
  end.

Definition xeqb (a b : xfloat) : bool :=
  match a, b with
  | Fin p, Fin q => Qeq_bool p q
  | Inf s, Inf t => Bool.eqb s t
  | _, _ => false
  end.

#[export] Instance xfloat_number : Number xfloat := {
  of_int := fun z => Fin (inject_Z z);
  add := xadd;
  mul := xmul;
  div := xdiv;
  ltb := xltb;
  eqb := xeqb
}.

(** What a data frame asks of its numbers besides: the NaN of a blank
    cell, and the test for it. *)
Class Floating (F : Type) : Type := {
  floating_number :: Number F;
  nan : F;
  isnan : F -> bool
}.

#[export] Instance xfloat_floating : Floating xfloat := {
  floating_number := xfloat_number;
  nan := NaN;
  isnan := fun x => match x with NaN => true | _ => false end
}.

#[export] Instance float_floating : Floating float := {
  floating_number := float_number;
  nan := PrimFloat.nan;
  isnan := PrimFloat.is_nan
}.

(** The result of [analyze_financials]: a dict with these four keys. *)
Record FinancialMetrics (F : Type) : Type := {
  burn : F;
  runway : F;
  downside_burn : F;
  runway_at_downside : F
}.
Arguments burn {F} _.
Arguments runway {F} _.
Arguments downside_burn {F} _.
Arguments runway_at_downside {F} _.

(** A cell of a frame that [pd.read_csv] returns: a number, NaN for a
    blank, or, in a column where some cell is no number, the text of the
    cell. *)
Inductive cell (F : Type) : Type :=
| Num (x : F)
| Text (s : string).
Arguments Num {F} x.
Arguments Text {F} s.

(** A data frame: its named columns, in file order, each with one cell per
    row. *)
Definition DataFrame (F : Type) : Type := list (string * list (cell F)).

(** What [pd.read_csv] does with a path: the three ways of failing that
    [analyze_financials] tells apart, or a frame. *)
Inductive read_csv_outcome (F : Type) : Type :=
| ReadFileNotFound
| ReadEmptyData
| ReadOtherError (e : string)
| ReadFrame (df : DataFrame F).
Arguments ReadFileNotFound {F}.
Arguments ReadEmptyData {F}.
Arguments ReadOtherError {F} e.
Arguments ReadFrame {F} df.

Section Metrics.

Context {F : Type} {num : Number F}.

(** The sum of a list of numbers, from 0. *)
Definition sum (values : list F) : F := fold_left add values (of_int 0).

Definition calculate_runway (cash_balance monthly_burn : F) : result F :=
  if ltb cash_balance (of_int 0) then
    raise (ValueError "cash_balance must be non-negative")
  else if ltb monthly_burn (of_int 0) then
    raise (ValueError "monthly_burn must be non-negative")
  else if eqb monthly_burn (of_int 0) then
    ret (of_int 0)
  else
    ret (div cash_balance monthly_burn).

Definition simulate_downside (monthly_burn increase_percent : F) : result F :=
  if ltb monthly_burn (of_int 0) then
    raise (ValueError "monthly_burn must be non-negative")
  else if ltb increase_percent (of_int 0) then
    raise (ValueError "increase_percent must be non-negative")
  else
    ret (mul monthly_burn (add (of_int 1) (div increase_percent (of_int 100)))).

End Metrics.

Section Frames.

Context {F : Type} {fl : Floating F}.

(** Two things the libraries do with text. [Series.mean()] on a column
    that holds text raises a [TypeError], whose wording depends on the
    cells and on the version of pandas. [float(s)] on a [str] gives the
    number that [s] spells, or raises a [ValueError]. *)
Variable mean_error : list (cell F) -> string.
Variable float_of_text : string -> result F.

(** [df.columns] *)
Definition columns (df : DataFrame F) : list string := map fst df.

(** [len(df)] *)
Definition nrows (df : DataFrame F) : nat :=
  match df with
  | [] => 0
  | (_, cells) :: _ => List.length cells
  end.

(** [df.empty]: an axis of length 0. *)
Definition empty (df : DataFrame F) : bool :=
  match df with
  | [] => true
  | _ :: _ => (nrows df =? 0)%nat
  end.

(** [df[name]] *)
Fixpoint getitem (df : DataFrame F) (name : string) : result (list (cell F)) :=
  match df with
  | [] => raise (KeyError name)
  | (n, cells) :: rest => if (n =? name) then ret cells else getitem rest name
  end.

(** The numbers of a column of numbers; none for a column with text. *)
Fixpoint numbers (cells : list (cell F)) : option (list F) :=
  match cells with
  | [] => Some []
  | Num x :: rest =>
      match numbers rest with
      | Some values => Some (x :: values)
      | None => None
      end
  | Text _ :: _ => None
  end.

(** The mean as pandas takes it on numbers: NaN is skipped, and the mean
    of nothing is NaN. *)
Definition nanmean (values : list F) : F :=
  match filter (fun x => negb (isnan x)) values with
  | [] => nan
  | (_ :: _) as present =>
      div (sum present) (of_int (Z.of_nat (List.length present)))
  end.

(** [series.mean()] *)
Definition mean (cells : list (cell F)) : result F :=
  match numbers cells with
  | Some values => ret (nanmean values)
  | None => raise (TypeError (mean_error cells))
  end.

(** [series.iloc[-1]] *)
Fixpoint iloc_last (cells : list (cell F)) : result (cell F) :=
  match cells with
  | [] => raise (IndexError "single positional indexer is out-of-bounds")
  | [x] => ret x
  | _ :: rest => iloc_last rest
  end.

(** [float(x)] for a cell. *)
Definition to_float (x : cell F) : result F :=
  match x with
  | Num v => ret v
  | Text s => float_of_text s
  end.

Definition required : list string := ["month"; "expenses"; "cash_balance"].

(** [required - set(df.columns)]; the order in which a set prints is not
    fixed by the language, [required]'s is taken. *)
Definition missing_columns (df : DataFrame F) : list string :=
  filter (fun r => negb (existsb (String.eqb r) (columns df))) required.

Definition set_repr (names : list string) : string :=
  "{" ++ join ", " (map repr_str names) ++ "}".

Definition calculate_burn (df : DataFrame F) : result F :=
  if empty df then raise (ValueError "DataFrame is empty or None")
  else
    match missing_columns df with
    | (_ :: _) as missing =>
        raise (ValueError ("DataFrame missing required columns: " ++ set_repr missing))
    | [] =>
        expenses <- getitem df "expenses" ;;
        mean expenses
    end.

(** [analyze_financials(csv_path)], over what [pd.read_csv] does. *)
Definition analyze_financials
    (read_csv : string -> read_csv_outcome F) (csv_path : string)
    : result (FinancialMetrics F) :=
  df <- match read_csv csv_path with
        | ReadFileNotFound =>
            raise (FileNotFoundError ("CSV file not found: " ++ csv_path))
        | ReadEmptyData => raise (ValueError ("CSV file is empty: " ++ csv_path))
        | ReadOtherError e => raise (ValueError ("Failed to read CSV: " ++ e))
        | ReadFrame df => ret df
        end ;;
  if empty df then raise (ValueError "CSV contains no data")
  else
    match missing_columns df with
    | (_ :: _) as missing =>
        raise (ValueError ("CSV missing required columns: " ++ set_repr missing))
    | [] =>
        burn <- calculate_burn df ;;
        balances <- getitem df "cash_balance" ;;
        last <- iloc_last balances ;;
        cash_balance <- to_float last ;;
        runway <- calculate_runway cash_balance burn ;;
        downside_burn <- simulate_downside burn (of_int 20) ;;
        runway_at_downside <- calculate_runway cash_balance downside_burn ;;
        ret {| burn := burn;
               runway := runway;
               downside_burn := downside_burn;
               runway_at_downside := runway_at_downside |}
    end.

End Frames.

(** ** Describing a frame *)

(** The frame has the three columns the code asks for. *)
Definition has_required_columns {F} (df : DataFrame F) : Prop :=
  forall name, In name required -> In name (columns df).

(** Every column has one cell per row. *)
Definition rectangular {F} (df : DataFrame F) : Prop :=
  forall name cells, In (name, cells) df -> List.length cells = nrows df.

(** The cells of a column, and the last of them. *)
Definition column {F} (df : DataFrame F) (name : string) : list (cell F) :=
  match getitem df name with
  | inr cells => cells
  | inl _ => []
  end.

Definition last_cell {F} (cells : list (cell F)) : option (cell F) :=
  match iloc_last cells with
  | inr x => Some x
  | inl _ => None
  end.

(** The same value: equal rationals, the same infinity, or NaN twice. *)
Definition same (a b : xfloat) : Prop :=
  match a, b with
  | Fin p, Fin q => p == q
  | Inf s, Inf t => s = t
  | NaN, NaN => True
  | _, _ => False
  end.

(** [a <= b] on floats. *)
Definition xleb (a b : xfloat) : bool := xltb a b || xeqb a b.

(** The sum of rationals. *)
Definition total (values : list Q) : Q := fold_right Qplus 0 values.

(** [float(s)] on texts that spell no number. *)
Definition no_number {F} (s : string) : result F :=
  raise (ValueError ("could not convert string to float: " ++ repr_str s)).

(** ** The sample data of the specification *)

(** Three months at 1000, the balance ending at 10000. *)
Definition sample_frame : DataFrame xfloat :=
  [("month", [Text "2024-01"; Text "2024-02"; Text "2024-03"]);
   ("expenses", [Num (Fin 1000); Num (Fin 1000); Num (Fin 1000)]);
   ("cash_balance", [Num (Fin 12000); Num (Fin 11000); Num (Fin 10000)])].

(** The same file, read into binary64 cells. *)
Definition sample_frame_binary64 : DataFrame float :=
  [("month", [Text "2024-01"; Text "2024-02"; Text "2024-03"]);
   ("expenses", [Num 1000%float; Num 1000%float; Num 1000%float]);
   ("cash_balance", [Num 12000%float; Num 11000%float; Num 10000%float])].

(** One month, and an overdrawn account. *)
Definition overdrawn_frame : DataFrame xfloat :=
  [("month", [Text "2024-01"]); ("expenses", [Num (Fin 1000)]);
   ("cash_balance", [Num (Fin (-5))])].

(** A month without an expense: the cell is blank. *)
Definition blank_expense_frame : DataFrame xfloat :=
  [("month", [Text "2024-01"; Text "2024-02"; Text "2024-03"]);
   ("expenses", [Num (Fin 1000); Num NaN; Num (Fin 3000)]);
   ("cash_balance", [Num (Fin 900); Num (Fin 600); Num (Fin 300)])].

Definition blank_expense_frame_binary64 : DataFrame float :=
  [("month", [Text "2024-01"; Text "2024-02"; Text "2024-03"]);
   ("expenses", [Num 1000%float; Num PrimFloat.nan; Num 3000%float]);
   ("cash_balance", [Num 900%float; Num 600%float; Num 300%float])].

(** The last balance is blank. *)
Definition blank_balance_frame : DataFrame xfloat :=
  [("month", [Text "2024-01"; Text "2024-02"]);
   ("expenses", [Num (Fin 1000); Num (Fin 2000)]);
   ("cash_balance", [Num (Fin 3000); Num NaN])].


(** An expense that is no number. *)
Definition text_expense_frame : DataFrame xfloat :=
  [("month", [Text "2024-01"; Text "2024-02"]);
   ("expenses", [Text "1000"; Text "n/a"]);
   ("cash_balance", [Num (Fin 3000); Num (Fin 2000)])].

End Finance.

(* ================================================================== *)
(** * company.py *)

Module Company.
Import Py.

(** ** The outside world

    The file reaches outside through [chat_completion] (the language-model
    call of [minimax_helper]) and [requests.get]. A computation threads the
    trace of the calls it has made, so that "no call is made" is a
    statement about its trace. *)

Inductive call : Type :=
| ChatCompletion (system_prompt user_prompt : string)
| RequestsGet (url : string) (params : list (string * string)) (timeout : Z).

Definition IO (A : Type) : Type := list call -> list call * result A.

Definition io_ret {A} (a : A) : IO A := fun trace => (trace, ret a).

Definition io_bind {A B} (m : IO A) (k : A -> IO B) : IO B :=
  fun trace =>
    match m trace with
    | (trace', inl e) => (trace', inl e)
    | (trace', inr a) => k a trace'
    end.

(** A pure call inside a computation. *)
Definition lift {A} (r : result A) : IO A := fun trace => (trace, r).

(** [try: m / except: ...] hands the outcome of [m] to the handler. *)
Definition attempt {A} (m : IO A) : IO (result A) :=
  fun trace => let '(trace', r) := m trace in (trace', ret r).

Notation "x <~ m ;; k" := (io_bind m (fun x => k))
  (at level 61, m at next level, right associativity).

(** An HTTP response, as far as the code looks at it: the status line,
    the URL it answers, and what [response.json()] does. On a body that is
    not JSON it raises the decoding error of requests, which is a
    [json.JSONDecodeError], here [JSONDecodeError], unless simplejson is
    installed: requests then derives its error from the class of
    simplejson, and it is a [RequestException] that is no
    [json.JSONDecodeError]. *)
Record Response : Type := {
  status_code : Z;
  reason : string;
  url : string;
  json_body : result json
}.

(** The world: what the language model answers and what the registry
    endpoint does. *)
Record World : Type := {
  chat_completion_answer : string -> string -> result string;
  requests_get_answer : string -> list (string * string) -> Z -> result Response
}.

Definition chat_completion (w : World) (system_prompt user_prompt : string)
    : IO string :=
  fun trace =>
    ((trace ++ [ChatCompletion system_prompt user_prompt])%list,
     chat_completion_answer w system_prompt user_prompt).

Definition requests_get (w : World) (url : string)
    (params : list (string * string)) (timeout : Z) : IO Response :=
  fun trace =>
    ((trace ++ [RequestsGet url params timeout])%list,
     requests_get_answer w url params timeout).

(** [response.raise_for_status()]: [HTTPError], a [RequestException], on a
    status from 400 to 599. *)
Definition raise_for_status (r : Response) : result unit :=
  if ((400 <=? status_code r) && (status_code r <? 500))%Z then
    raise (RequestException (str_of_int (status_code r) ++ " Client Error: "
                             ++ reason r ++ " for url: " ++ url r))
  else if ((500 <=? status_code r) && (status_code r <? 600))%Z then
    raise (RequestException (str_of_int (status_code r) ++ " Server Error: "
                             ++ reason r ++ " for url: " ++ url r))
  else ret tt.

(** ** The profile *)

Definition SYSTEM_PROMPT : string :=
  "You are a startup analyst. Analyze the startup description provided and extract structured information.

Return ONLY valid JSON with exactly these keys (use null if information is not mentioned):
- business_model: string (e.g., SaaS, marketplace, fintech, e-commerce, hardware, etc.)
- customer_type: string (" ++ quoted "B2B" ++ " or " ++ quoted "B2C" ++ " only, or null)
- stage: string (" ++ quoted "pre-seed" ++ " or " ++ quoted "seed" ++ " only, or null)
- milestone: string (what they want to achieve next, or null)
- mentioned_competitors: array of strings (company names if mentioned, or empty array [])

Do not include any other text, markdown, or explanation. Output only the raw JSON object.".

(** The dict the extractor returns. The first four values are whatever the
    decoded object holds under the key. *)
Record CompanyProfile : Type := {
  business_model : json;
  customer_type : json;
  stage : json;
  milestone : json;
  mentioned_competitors : list string
}.

(** ** The pattern for a fenced block

    [re.search] with three backquotes, an optional [json], [\s*], the
    group [([\s\S]*?)], [\s*] and three backquotes. The matcher below
    tries the alternatives in the order the backtracking engine does: a
    greedy item first with one more character, a lazy item first with none. *)

Definition fence : string := "```".

(** [\s*] and the closing fence, at the head of [s]. *)
Fixpoint blanks_then_fence (s : string) : bool :=
  match s with
  | "" => false
  | String c r =>
      if isspace c then blanks_then_fence r || prefix fence s
      else prefix fence s
  end.

(** The lazy group and what follows it; the result is the group. *)
Fixpoint lazy_group (s : string) : option string :=
  if blanks_then_fence s then Some ""
  else
    match s with
    | "" => None
    | String c r => option_map (String c) (lazy_group r)
    end.

(** [\s*], greedy, and what follows it. *)
Fixpoint blanks_then_group (s : string) : option string :=
  match s with
  | "" => lazy_group ""
  | String c r =>
      if isspace c then
        match blanks_then_group r with
        | Some g => Some g
        | None => lazy_group s
        end
      else lazy_group s
  end.

(** [(?:json)?], greedy, and what follows it. *)
Definition after_open (s : string) : option string :=
  match (if prefix "json" s then blanks_then_group (drop 4 s) else None) with
  | Some g => Some g
  | None => blanks_then_group s
  end.

(** The pattern at the head of [s]. *)
Definition match_here (s : string) : option string :=
  if prefix fence s then after_open (drop 3 s) else None.

(** [re.search(pattern, s)], as [group(1)] of the leftmost match. *)
Fixpoint search_code_block (s : string) : option string :=
  match match_here s with
  | Some g => Some g
  | None =>
      match s with
      | "" => None
      | String _ r => search_code_block r
      end
  end.

(** ** The brace loop

    [for i in range(start, len(text))], run over the characters from
    [start] on: the index at which the depth comes back to 0. *)
Fixpoint closing_brace (rest : string) (i : nat) (depth : Z) : option nat :=
  match rest with
  | "" => None
  | String c r =>
      if (c =? "{")%char then closing_brace r (S i) (depth + 1)
      else if (c =? "}")%char then
        let depth := (depth - 1)%Z in
        if (depth =? 0)%Z then Some i else closing_brace r (S i) depth
      else closing_brace r (S i) depth
  end.

(** The first two steps of [_parse_profile_json]: the stripped contents of
    the fenced block when the pattern is found, and the span from the
    first opening brace to the brace that closes it when the loop finds
    one. *)
Definition unfence (text : string) : string :=
  match search_code_block text with
  | Some group1 => strip group1
  | None => text
  end.

Definition brace_span (text : string) : string :=
  let start := find "{" text in
  if negb (start =? -1)%Z then
    match closing_brace (drop (Z.to_nat start) text) (Z.to_nat start) 0 with
    | Some i => slice (Z.to_nat start) (i + 1) text
    | None => text
    end
  else text.

(** The text handed to [json.loads]. *)
Definition json_text (response : string) : string :=
  brace_span (unfence (strip response)).

(** The character does not occur in the text. *)
Fixpoint lacks (c : ascii) (s : string) : bool :=
  match s with
  | "" => true
  | String c' r => negb (c' =? c)%char && lacks c r
  end.

(** The text of an object, as far as the brace loop sees it: it starts
    with an opening brace, which its last character closes. *)
Definition object_text (s : string) : bool :=
  prefix "{" s
  && match closing_brace s 0 0 with
     | Some i => (S i =? String.length s)%nat
     | None => false
     end.

(** [_ensure_competitors_list(value)] *)
Definition _ensure_competitors_list (value : json) : list string :=
  match value with
  | JNull => []
  | JArr items => map (fun item => strip (str item)) (filter truthy items)
  | _ => [strip (str value)]
  end.

Section Decoder.

(** [json.loads], Python's decoder. *)
Variable json_loads : string -> result json.

Definition _parse_profile_json (response : string) : result CompanyProfile :=
  let text := json_text response in
  data <- match json_loads text with
          | inl (JSONDecodeError e) =>
              raise (ValueError ("Failed to parse MiniMax response as JSON: " ++ e
                                 ++ ". Raw response: " ++ take 500 response))
          | inl other => raise other
          | inr data => ret data
          end ;;
  match data with
  | JObj members =>
      ret {| business_model := dict_get members "business_model";
             customer_type := dict_get members "customer_type";
             stage := dict_get members "stage";
             milestone := dict_get members "milestone";
             mentioned_competitors :=
               _ensure_competitors_list (dict_get members "mentioned_competitors") |}
  | _ =>
      raise (ValueError ("MiniMax response was not a JSON object: " ++ type_name data))
  end.

Definition extract_company_profile (w : World) (startup_description : string)
    : IO CompanyProfile :=
  if negb (nonempty startup_description)
     || negb (nonempty (strip startup_description)) then
    io_ret {| business_model := JNull;
              customer_type := JNull;
              stage := JNull;
              milestone := JNull;
              mentioned_competitors := [] |}
  else
    response <~ chat_completion w SYSTEM_PROMPT (strip startup_description) ;;
    lift (_parse_profile_json response).

End Decoder.

(** ** The competitor lookup *)

(** The loop over [companies], from the names collected so far. *)
Fixpoint collect_names (companies : list json) (names : list string)
    : list string :=
  match companies with
  | [] => names
  | item :: rest =>
      let company :=
        match item with
        | JObj members => dict_get members "company"
        | _ => JNull
        end in
      match company with
      | JObj fields =>
          let name := dict_get fields "name" in
          let names :=
            if negb (is_none name) && nonempty (strip (str name))
            then (names ++ [strip (str name)])%list
            else names in
          if (10 <=? List.length names)%nat then names
          else collect_names rest names
      | _ => collect_names rest names
      end
  end.

Definition registry_url : string :=
  "https://api.opencorporates.com/v0.4/companies/search".

Definition find_competitors (w : World) (business_model keywords : string)
    : IO (list string) :=
  if negb (nonempty keywords) || negb (nonempty (strip keywords)) then io_ret []
  else
    let url := registry_url in
    let params := [("q", strip keywords)] in
    got <~ attempt (response <~ requests_get w url params 10 ;;
                    _ <~ lift (raise_for_status response) ;;
                    io_ret response) ;;
    match got with
    | inl (RequestException _) => io_ret []
    | inl other => lift (raise other)
    | inr response =>
        match json_body response with
        | inl (JSONDecodeError _) => io_ret []
        | inl other => lift (raise other)
        | inr data =>
            results <~ lift (get data "results") ;;
            found <~ lift (get (py_or results (JObj [])) "companies") ;;
            companies <~ lift (iterate (py_or found (JArr []))) ;;
            io_ret (firstn 10 (collect_names companies []))
        end
    end.

(** ** Describing values and worlds *)

(** The text is made of blanks only (it may be empty). *)
Fixpoint only_whitespace (s : string) : bool :=
  match s with
  | "" => true
  | String c r => isspace c && only_whitespace r
  end.

(** The value is not a string made of blanks only, and a float has a
    [repr] with a character that is not a blank. *)
Definition no_blank_text (v : json) : bool :=
  match v with
  | JStr s => negb (nonempty s) || nonempty (strip s)
  | JFloat r => nonempty (strip r)
  | _ => true
  end.

(** The profile of the short circuit. *)
Definition empty_profile : CompanyProfile :=
  {| business_model := JNull;
     customer_type := JNull;
     stage := JNull;
     milestone := JNull;
     mentioned_competitors := [] |}.

(** The values the data model declares for [customer_type] and [stage]. *)
Definition customer_type_declared (v : json) : bool :=
  match v with
  | JNull => true
  | JStr s => (s =? "B2B") || (s =? "B2C")
  | _ => false
  end.

Definition stage_declared (v : json) : bool :=
  match v with
  | JNull => true
  | JStr s => (s =? "pre-seed") || (s =? "seed")
  | _ => false
  end.

(** The name an entry of the registry contributes, if any: its [company]
    is an object whose [name] is not null and not empty once stripped. *)
Definition accepted_name (item : json) : option string :=
  match item with
  | JObj members =>
      match dict_get members "company" with
      | JObj fields =>
          let name := dict_get fields "name" in
          if negb (is_none name) && nonempty (strip (str name))
          then Some (strip (str name))
          else None
      | _ => None
      end
  | _ => None
  end.

Fixpoint accepted_names (companies : list json) : list string :=
  match companies with
  | [] => []
  | item :: rest =>
      match accepted_name item with
      | Some name => name :: accepted_names rest
      | None => accepted_names rest
      end
  end.

(** The members of [v or {}] when that is an object, and the items of
    [v or []] when that is a list: an absent or falsy [v] counts as empty. *)
Definition members_of (v : json) : option (list (string * json)) :=
  match py_or v (JObj []) with
  | JObj members => Some members
  | _ => None
  end.

Definition items_of (v : json) : option (list json) :=
  match py_or v (JArr []) with
  | JArr items => Some items
  | _ => None
  end.

(** A world whose model gives one answer and whose registry gives one. *)
Definition world_of (answer : result string) (registry : result Response)
    : World :=
  {| chat_completion_answer := fun _ _ => answer;
     requests_get_answer := fun _ _ _ => registry |}.

(** The registry's documented shape. *)
Definition registry_entry (name : json) : json :=
  JObj [("company", JObj [("name", name)])].

Definition registry_body (companies : list json) : json :=
  JObj [("results", JObj [("companies", JArr companies)])].

(** A response of the registry with this status and this decoded body. *)
Definition registry_response (status : Z) (reason : string) (body : result json)
    : Response :=
  {| status_code := status;
     reason := reason;
     url := "https://api.opencorporates.com/v0.4/companies/search?q=SaaS";
     json_body := body |}.

(** Twelve entries with a name, two of them the same, and three without. *)
Definition sample_companies : list json :=
  [registry_entry (JStr "Acme Ltd");
   registry_entry JNull;
   registry_entry (JStr " Globex ");
   JObj [("company", JNull)];
   registry_entry (JStr "Initech");
   registry_entry (JStr "  ");
   registry_entry (JStr "Umbrella");
   registry_entry (JStr "Hooli");
   registry_entry (JStr "Acme Ltd");
   registry_entry (JStr "Stark");
   registry_entry (JStr "Wayne");
   registry_entry (JStr "Wonka");
   registry_entry (JStr "Tyrell");
   registry_entry (JStr "Cyberdyne");
   registry_entry (JStr "Soylent")].

(** The one call the lookup makes. *)
Definition registry_call (keywords : string) : call :=
  RequestsGet registry_url [("q", strip keywords)] 10.

(** The profile [_parse_profile_json] builds from the members of the
    decoded object. *)
Definition profile_of (members : list (string * json)) : CompanyProfile :=
  {| business_model := dict_get members "business_model";
     customer_type := dict_get members "customer_type";
     stage := dict_get members "stage";
     milestone := dict_get members "milestone";
     mentioned_competitors :=
       _ensure_competitors_list (dict_get members "mentioned_competitors") |}.

(** The text handed to the decoder if the brace loop ran only when no
    fenced block was found, as the specification words it. *)
Definition json_text_as_specified (response : string) : string :=
  let text := strip response in
  match search_code_block text with
  | Some group1 => strip group1
  | None => brace_span text
  end.

(** Sample answers of the model. *)
Definition sample_object : string :=
  "{" ++ quoted "business_model" ++ ": " ++ quoted "SaaS" ++ ", "
      ++ quoted "customer_type" ++ ": " ++ quoted "B2B" ++ ", "
      ++ quoted "stage" ++ ": " ++ quoted "seed" ++ ", "
      ++ quoted "milestone" ++ ": null, "
      ++ quoted "mentioned_competitors" ++ ": ["
      ++ quoted "Acme" ++ ", " ++ quoted "" ++ ", " ++ quoted "Globex" ++ "]}".

Definition sample_fenced : string :=
  "Here you go:" ++ nl ++ fence ++ "json" ++ nl ++ sample_object ++ nl
  ++ fence ++ nl.

Definition sample_embedded : string :=
  "Sure! " ++ sample_object ++ " Hope this helps.".

(** A fenced block with a remark behind the object. *)
Definition sample_fenced_remark : string :=
  fence ++ "json" ++ nl ++ "{" ++ quoted "stage" ++ ": " ++ quoted "seed"
  ++ "} as requested" ++ nl ++ fence.

(** An answer outside the declared enumerations. *)
Definition sample_undeclared : string :=
  "{" ++ quoted "business_model" ++ ": " ++ quoted "GovTech" ++ ", "
      ++ quoted "customer_type" ++ ": " ++ quoted "B2G" ++ ", "
      ++ quoted "stage" ++ ": " ++ quoted "series-a" ++ "}".

End Company.

(* ================================================================== *)
(** * A decoder to run the examples

    [company.py] takes [json.loads] from Python's library, and the
    embedding takes it as a parameter. The examples need one: this reads
    the part of JSON they are written in (objects, arrays, strings without
    escapes, integers, [null], [true], [false]) as [json.loads] does, a
    later member replacing an earlier one of the same key, and refuses
    every other text. The message of a refusal is the library's when the
    text does not start with a value, and is abbreviated otherwise. *)

Module Json.
Import Py.

Definition is_blank (c : ascii) : bool :=
  let n := nat_of_ascii c in
  ((n =? 32) || (n =? 9) || (n =? 10) || (n =? 13))%nat.

Fixpoint skip_blanks (s : string) : string :=
  match s with
  | "" => ""
  | String c r => if is_blank c then skip_blanks r else s
  end.

Definition is_digit (c : ascii) : bool :=
  let n := nat_of_ascii c in ((48 <=? n) && (n <=? 57))%nat.

(** The characters of a string up to its closing quote. *)
Fixpoint scan_string (s : string) : option (string * string) :=
  match s with
  | "" => None
  | String c r =>
      if (nat_of_ascii c =? 34)%nat then Some ("", r)
      else if (nat_of_ascii c =? 92)%nat || (nat_of_ascii c <? 32)%nat then None
      else
        match scan_string r with
        | Some (body, rest) => Some (String c body, rest)
        | None => None
        end
  end.

Fixpoint scan_digits (s : string) : string * string :=
  match s with
  | "" => ("", "")
  | String c r =>
      if is_digit c then let '(digits, rest) := scan_digits r in (String c digits, rest)
      else ("", s)
  end.

Definition starts_fraction (s : string) : bool :=
  match s with
  | String c _ => (c =? ".")%char || (c =? "e")%char || (c =? "E")%char
  | "" => false
  end.

(** An integer: an optional sign, then 0 or digits that do not start with
    0, and no fraction or exponent behind. *)
Definition scan_int (s : string) : option (Z * string) :=
  let '(negative, unsigned) :=
    match s with
    | String "-" r => (true, r)
    | _ => (false, s)
    end in
  let '(digits, rest) := scan_digits unsigned in
  match digits with
  | "" => None
  | String "0" (String _ _) => None
  | _ =>
      if starts_fraction rest then None
      else
        match NilZero.uint_of_string digits with
        | Some u =>
            let n := Z.of_N (N.of_uint u) in
            Some (if negative then (- n)%Z else n, rest)
        | None => None
        end
  end.

(** [d[k] = v] *)
Fixpoint dict_set (members : list (string * json)) (k : string) (v : json)
    : list (string * json) :=
  match members with
  | [] => [(k, v)]
  | (k', v') :: rest =>
      if (k' =? k) then (k', v) :: rest else (k', v') :: dict_set rest k v
  end.

Fixpoint parse_value (fuel : nat) (s : string) : option (json * string) :=
  match fuel with
  | O => None
  | S fuel =>
      match s with
      | "" => None
      | String c r =>
          if (c =? "{")%char then
            match skip_blanks r with
            | String "}" rest => Some (JObj [], rest)
            | inside => parse_members fuel inside []
            end
          else if (c =? "[")%char then
            match skip_blanks r with
            | String "]" rest => Some (JArr [], rest)
            | inside => parse_items fuel inside []
            end
          else if (nat_of_ascii c =? 34)%nat then
            match scan_string r with
            | Some (body, rest) => Some (JStr body, rest)
            | None => None
            end
          else if prefix "null" s then Some (JNull, drop 4 s)
          else if prefix "true" s then Some (JBool true, drop 4 s)
          else if prefix "false" s then Some (JBool false, drop 5 s)
          else
            match scan_int s with
            | Some (n, rest) => Some (JInt n, rest)
            | None => None
            end
      end
  end
with parse_items (fuel : nat) (s : string) (done : list json)
    : option (json * string) :=
  match fuel with
  | O => None
  | S fuel =>
      match parse_value fuel s with
      | None => None
      | Some (v, rest) =>
          match skip_blanks rest with
          | String "," more => parse_items fuel (skip_blanks more) (done ++ [v])
          | String "]" after => Some (JArr (done ++ [v]), after)
          | _ => None
          end
      end
  end
with parse_members (fuel : nat) (s : string) (done : list (string * json))
    : option (json * string) :=
  match fuel with
  | O => None
  | S fuel =>
      match s with
      | String c r =>
          if (nat_of_ascii c =? 34)%nat then
            match scan_string r with
            | None => None
            | Some (key, rest) =>
                match skip_blanks rest with
                | String ":" more =>
                    match parse_value fuel (skip_blanks more) with
                    | None => None
                    | Some (v, rest) =>
                        match skip_blanks rest with
                        | String "," next =>
                            parse_members fuel (skip_blanks next) (dict_set done key v)
                        | String "}" after => Some (JObj (dict_set done key v), after)
                        | _ => None
                        end
                    end
                | _ => None
                end
            end
          else None
      | "" => None
      end
  end.

Definition json_loads (text : string) : result json :=
  let start := skip_blanks text in
  match parse_value (2 * String.length text + 2) start with
  | Some (v, rest) =>
      match skip_blanks rest with
      | "" => ret v
      | _ => raise (JSONDecodeError "Extra data")
      end
  | None =>
      match text with
      | String c _ =>
          if (c =? "{")%char || (c =? "[")%char || (nat_of_ascii c =? 34)%nat
             || (c =? "-")%char || is_digit c || is_blank c
          then raise (JSONDecodeError "Invalid JSON")
          else raise (JSONDecodeError "Expecting value: line 1 column 1 (char 0)")
      | "" => raise (JSONDecodeError "Expecting value: line 1 column 1 (char 0)")
      end
  end.

End Json.

(* ================================================================== *)
(** * minimax_helper.py *)

Module Minimax.
Import Py.

Definition MINIMAX_BASE_URL : string :=
  "https://api.minimax.io/v1/text/chatcompletion_v2".
Definition DEFAULT_MODEL : string := "MiniMax-M2".

(** [os.getenv]: the value of a variable, if it is set. *)
Definition Env : Type := string -> option string.

(** [not v] for what [os.getenv] returns, and [v or default]. *)
Definition unset (v : option string) : bool :=
  match v with
  | None => true
  | Some s => negb (nonempty s)
  end.

Definition or_default (v : option string) (default : string) : string :=
  match v with
  | Some s => if nonempty s then s else default
  | None => default
  end.

(** The response to the POST, as far as the code looks at it. *)
Record Reply : Type := {
  status_code : Z;
  reason : string;
  url : string;
  text : string;
  json_body : result json
}.

(** What [requests.post] is called with. *)
Record Post : Type := {
  post_url : string;
  headers : list (string * string);
  payload : json;
  timeout : Z
}.

(** What [requests.post] does: it returns a response, or raises a
    [RequestException] [e], given by [str(e)] and [e.response]. *)
Inductive post_outcome : Type :=
| Replied (r : Reply)
| Failed (message : string) (attached : option Reply).

(** A computation that threads the requests sent so far. *)
Definition Net (A : Type) : Type := list Post -> list Post * result A.

Definition net_ret {A} (a : A) : Net A := fun sent => (sent, ret a).

Definition net_bind {A B} (m : Net A) (k : A -> Net B) : Net B :=
  fun sent =>
    match m sent with
    | (sent', inl e) => (sent', inl e)
    | (sent', inr a) => k a sent'
    end.

Definition net_lift {A} (r : result A) : Net A := fun sent => (sent, r).

Notation "x <~ m ;; k" := (net_bind m (fun x => k))
  (at level 61, m at next level, right associativity).

(** [v[key]] and [v[0]] on a decoded value. *)
Definition subscript_key (v : json) (key : string) : result json :=
  match v with
  | JObj members =>
      match lookup key members with
      | Some x => ret x
      | None => raise (KeyError (repr_str key))
      end
  | JArr _ => raise (TypeError "list indices must be integers or slices, not str")
  | JStr _ => raise (TypeError "string indices must be integers, not 'str'")
  | _ => raise (TypeError ("'" ++ type_name v ++ "' object is not subscriptable"))
  end.

Definition subscript_first (v : json) : result json :=
  match v with
  | JArr (x :: _) => ret x
  | JArr [] => raise (IndexError "list index out of range")
  | JStr (String c _) => ret (JStr (String c ""))
  | JStr "" => raise (IndexError "string index out of range")
  | JObj _ => raise (KeyError "0")
  | _ => raise (TypeError ("'" ++ type_name v ++ "' object is not subscriptable"))
  end.

(** [d.get(key, default)] on any value: only a [dict] has the method. *)
Definition get_default (v : json) (key : string) (default : json) : result json :=
  match v with
  | JObj members =>
      match lookup key members with
      | Some x => ret x
      | None => ret default
      end
  | _ => raise (AttributeError ("'" ++ type_name v ++ "' object has no attribute 'get'"))
  end.

(** [response.raise_for_status()]: the message of the [HTTPError], if any. *)
Definition http_error (r : Reply) : option string :=
  if ((400 <=? status_code r) && (status_code r <? 500))%Z then
    Some (str_of_int (status_code r) ++ " Client Error: "
          ++ reason r ++ " for url: " ++ url r)
  else if ((500 <=? status_code r) && (status_code r <? 600))%Z then
    Some (str_of_int (status_code r) ++ " Server Error: "
          ++ reason r ++ " for url: " ++ url r)
  else None.

Definition _build_api_url (env : Env) : result string :=
  match env "MINIMAX_GROUP_ID" with
  | Some group_id =>
      if nonempty group_id then
        ret (MINIMAX_BASE_URL ++ "?GroupId=" ++ strip group_id)
      else raise (ValueError "MINIMAX_GROUP_ID is not set. Add it to your .env file.")
  | None => raise (ValueError "MINIMAX_GROUP_ID is not set. Add it to your .env file.")
  end.

(** The handler of [except RequestException as e]: the message taken from
    the body of [e.response] when there is one, [str(e)] being [shown]. *)
Definition error_message (attached : Reply) (shown : string) : string :=
  let fallback := if nonempty (text attached) then text attached else shown in
  match (err_body <- json_body attached ;;
         error <- get_default err_body "error" (JObj []) ;;
         get_default error "message" (JStr shown)) with
  | inr msg => str msg
  | inl _ => fallback
  end.

Definition on_request_exception {A} (shown : string) (attached : option Reply)
    : result A :=
  match attached with
  | Some r => raise (RuntimeError ("MiniMax API error: " ++ error_message r shown))
  | None => raise (RuntimeError ("MiniMax API request failed: " ++ shown))
  end.

(** [result["choices"][0]["message"]["content"]] *)
Definition content_path (result : json) : Py.result json :=
  choices <- subscript_key result "choices" ;;
  first <- subscript_first choices ;;
  message <- subscript_key first "message" ;;
  subscript_key message "content".

Section Calls.

(** The environment of the process and the endpoint. *)
Variable env : Env.
Variable requests_post : Post -> post_outcome.

Definition chat_completion (system_prompt user_prompt : string)
    (model : option string) : Net string :=
  match env "MINIMAX_API_KEY" with
  | None => net_lift (raise (ValueError "MINIMAX_API_KEY is not set. Add it to your .env file."))
  | Some api_key =>
      if negb (nonempty api_key) then
        net_lift (raise (ValueError "MINIMAX_API_KEY is not set. Add it to your .env file."))
      else
        api_url <~ net_lift (_build_api_url env) ;;
        let model_name := or_default model DEFAULT_MODEL in
        let headers := [("Authorization", "Bearer " ++ strip api_key);
                        ("Content-Type", "application/json")] in
        let payload :=
          JObj [("model", JStr model_name);
                ("messages",
                 JArr [JObj [("role", JStr "system"); ("content", JStr system_prompt)];
                       JObj [("role", JStr "user"); ("content", JStr user_prompt)]]);
                ("temperature", JFloat "0.7");
                ("max_tokens", JInt 2000)] in
        let request := {| post_url := api_url; headers := headers;
                          payload := payload; timeout := 60 |} in
        response <~ (fun sent =>
                       ((sent ++ [request])%list,
                        match requests_post request with
                        | Failed shown attached => on_request_exception shown attached
                        | Replied r =>
                            match http_error r with
                            | Some shown => on_request_exception shown (Some r)
                            | None => ret r
                            end
                        end)) ;;
        result <~ net_lift (json_body response) ;;
        content <~ net_lift
                     match content_path result with
                     | inl (KeyError _) | inl (IndexError _) | inl (TypeError _) =>
                         raise (RuntimeError "MiniMax API returned unexpected response structure.")
                     | inl other => raise other
                     | inr content => ret content
                     end ;;
        match content with
        | JNull => net_lift (raise (RuntimeError "MiniMax API response missing message content."))
        | JStr s => net_ret (strip s)
        | _ => net_lift (raise (AttributeError ("'" ++ type_name content
                                               ++ "' object has no attribute 'strip'")))
        end
  end.

(** [call_minimax]: another name for [chat_completion]. *)
Definition call_minimax (system_prompt user_prompt : string)
    (model : option string) : Net string :=
  chat_completion system_prompt user_prompt model.

End Calls.

(** ** Describing replies *)

(** The content of a body of the documented shape: an object whose
    [choices] is a list that starts with an object whose [message] is an
    object with a [content]. *)
Definition content_of (body : json) : option json :=
  match body with
  | JObj members =>
      match lookup "choices" members with
      | Some (JArr (JObj first :: _)) =>
          match lookup "message" first with
          | Some (JObj message) => lookup "content" message
          | _ => None
          end
      | _ => None
      end
  | _ => None
  end.

(** An environment with these two credentials. *)
Definition env_of (api_key group_id : option string) : Env :=
  fun name =>
    if name =? "MINIMAX_API_KEY" then api_key
    else if name =? "MINIMAX_GROUP_ID" then group_id
    else None.

(** A body of the documented shape around a content. *)
Definition completion_body (content : json) : json :=
  JObj [("choices", JArr [JObj [("message", JObj [("role", JStr "assistant");
                                                   ("content", content)])]])].

Definition reply_of (status : Z) (reason text : string) (body : result json)
    : Reply :=
  {| status_code := status;
     reason := reason;
     url := "https://api.minimax.io/v1/text/chatcompletion_v2?GroupId=g1";
     text := text;
     json_body := body |}.

(** The exceptions the subscripts are guarded against. *)
Definition structure_error (e : exn) : bool :=
  match e with
  | KeyError _ | IndexError _ | TypeError _ => true
  | _ => false
  end.

(** The request for a key, a group, two prompts and a model name. *)
Definition request_for (api_key group_id system_prompt user_prompt : string)
    (model : option string) : Post :=
  {| post_url := MINIMAX_BASE_URL ++ "?GroupId=" ++ strip group_id;
     headers := [("Authorization", "Bearer " ++ strip api_key);
                 ("Content-Type", "application/json")];
     payload :=
       JObj [("model", JStr (or_default model DEFAULT_MODEL));
             ("messages",
              JArr [JObj [("role", JStr "system"); ("content", JStr system_prompt)];
                    JObj [("role", JStr "user"); ("content", JStr user_prompt)]]);
             ("temperature", JFloat "0.7");
             ("max_tokens", JInt 2000)];
     timeout := 60 |}.

(** What a call makes of the outcome of its POST, read by the shape of
    the body. *)
Definition outcome_of (o : post_outcome) : result string :=
  match o with
  | Failed shown attached => on_request_exception shown attached
  | Replied r =>
      match http_error r with
      | Some shown => on_request_exception shown (Some r)
      | None =>
          match json_body r with
          | inl e => raise e
          | inr body =>
              match content_of body with
              | None =>
                  raise (RuntimeError "MiniMax API returned unexpected response structure.")
              | Some JNull =>
                  raise (RuntimeError "MiniMax API response missing message content.")
              | Some (JStr s) => ret (strip s)
              | Some content =>
                  raise (AttributeError ("'" ++ type_name content
                                         ++ "' object has no attribute 'strip'"))
              end
          end
      end
  end.

(** The world of the company module when its model is this endpoint. *)
Definition minimax_world (env : Env) (requests_post : Post -> post_outcome)
    (requests_get : string -> list (string * string) -> Z
                    -> result Company.Response) : Company.World :=
  {| Company.chat_completion_answer :=
       fun system_prompt user_prompt =>
         snd (chat_completion env requests_post system_prompt user_prompt None []);
     Company.requests_get_answer := requests_get |}.

End Minimax.

(* ================================================================== *)
(** * memo.py *)

Module Memo.
Import Py Minimax.

Definition SYSTEM_PROMPT : string :=
  "You are an expert VC analyst. Generate a concise financial diligence memo "
  ++ "analyzing whether this startup's financials align with their stage and business model. "
  ++ "Be specific and data-driven.".

(** A [dict] with string keys, in the order of its items. *)
Definition dict : Type := list (string * json).

(** [d.get(key, default)] *)
Definition get_or (d : dict) (key : string) (default : json) : json :=
  match lookup key d with
  | Some v => v
  | None => default
  end.

(** [isinstance(v, dict)] *)
Definition is_dict (v : json) : bool :=
  match v with
  | JObj _ => true
  | _ => false
  end.

(** The loop over [benchmark_data.items()], from the lines so far. *)
Fixpoint append_benchmarks (items : dict) (lines : list string) : list string :=
  match items with
  | [] => lines
  | (key, values) :: rest =>
      append_benchmarks rest
        (if is_dict values then
           List.app lines ["- **" ++ key ++ "**: " ++ str values]
         else
           List.app lines ["- **" ++ key ++ "**: " ++ str values])
  end.

(** The files of the working directory, by name. *)
Definition Files : Type := string -> option string.

(** The files when [path] holds [content]. *)
Definition written (files : Files) (path content : string) : Files :=
  fun name => if (name =? path) then Some content else files name.

(** What [f.write(content)] and the closing of the file do, once [open]
    has emptied the file: all of the text is in the file, or an exception
    is raised (a text that cannot be encoded, a full disk) and the file
    holds what reached it before. *)
Inductive write_outcome : Type :=
| Written
| WriteFailed (e : exn) (remains : string).

Section Prompt.

(** The dash of the four numbered lines is U+2013, which is none of the
    characters of [ascii]; the lines are built around it. *)
Variable en_dash : string.

(** The list [lines] at the end of [_format_user_prompt]. *)
Definition prompt_lines (company_profile financial_metrics benchmark_data : dict)
    : list string :=
  let lines :=
    ["## Company profile";
     "- Business model: " ++ str (get_or company_profile "business_model" (JStr "N/A"));
     "- Customer type: " ++ str (get_or company_profile "customer_type" (JStr "N/A"));
     "- Stage: " ++ str (get_or company_profile "stage" (JStr "N/A"));
     "- Milestone: " ++ str (get_or company_profile "milestone" (JStr "N/A"));
     "- Mentioned competitors: "
       ++ str (py_or (get_or company_profile "mentioned_competitors" (JArr []))
                 (JStr "None"));
     "";
     "## Financial metrics";
     "- Monthly burn: " ++ str (get_or financial_metrics "burn" (JStr "N/A"));
     "- Runway (months): " ++ str (get_or financial_metrics "runway" (JStr "N/A"));
     "- Downside scenario burn: "
       ++ str (get_or financial_metrics "downside_burn" (JStr "N/A"));
     "- Runway at downside (months): "
       ++ str (get_or financial_metrics "runway_at_downside" (JStr "N/A"));
     "";
     "## Relevant benchmark ranges"] in
  let lines := append_benchmarks benchmark_data lines in
  List.app lines
   ["";
    "---";
    "Please analyze and cover:";
    "1. **Burn assessment** " ++ en_dash
      ++ " How does current burn compare to benchmarks for this stage/model?";
    "2. **Runway adequacy** " ++ en_dash
      ++ " Is runway sufficient relative to targets and milestones?";
    "3. **Capital efficiency** " ++ en_dash
      ++ " Efficiency vs. peers (burn per employee / benchmarks if relevant).";
    "4. **Milestone alignment** " ++ en_dash
      ++ " Can they reach the stated milestone with current runway?";
    "";
    "Return the memo in markdown format."].

Definition _format_user_prompt
    (company_profile financial_metrics benchmark_data : dict) : string :=
  join nl (prompt_lines company_profile financial_metrics benchmark_data).

(** The environment, the endpoint, and the file system: what
    [open(path, mode)] does before anything is written (it returns, or
    raises, as for a directory that cannot be written to, and then leaves
    the files as they are), and what writing to the opened file does. *)
Variable env : Env.
Variable requests_post : Post -> post_outcome.
Variable open_file : string -> string -> result unit.
Variable write_file : string -> string -> write_outcome.

(** A computation on the requests sent and the files. *)
Definition generate_memo
    (company_profile financial_metrics benchmark_data : dict)
    (sent : list Post) (files : Files)
    : list Post * Files * result string :=
  let user_prompt :=
    _format_user_prompt company_profile financial_metrics benchmark_data in
  match call_minimax env requests_post SYSTEM_PROMPT user_prompt None sent with
  | (sent', inl e) => (sent', files, raise e)
  | (sent', inr memo) =>
      match open_file "diligence_memo.md" "w" with
      | inl e => (sent', files, raise e)
      | inr _ =>
          let files := written files "diligence_memo.md" "" in
          match write_file "diligence_memo.md" memo with
          | Written => (sent', written files "diligence_memo.md" memo, ret memo)
          | WriteFailed e remains =>
              (sent', written files "diligence_memo.md" remains, raise e)
          end
      end
  end.

End Prompt.

(** ** Describing prompts *)

(** The line of one benchmark. *)
Definition benchmark_line (item : string * json) : string :=
  "- **" ++ fst item ++ "**: " ++ str (snd item).

(** The keys read from the profile and from the metrics. *)
Definition profile_keys : list string :=
  ["business_model"; "customer_type"; "stage"; "milestone"; "mentioned_competitors"].

Definition metric_keys : list string :=
  ["burn"; "runway"; "downside_burn"; "runway_at_downside"].

Definition sample_profile : dict :=
  [("business_model", JStr "SaaS"); ("customer_type", JStr "B2B");
   ("stage", JStr "seed"); ("milestone", JNull);
   ("mentioned_competitors", JArr [])].

Definition sample_metrics : dict :=
  [("burn", JFloat "1000.0"); ("runway", JFloat "10.0");
   ("downside_burn", JFloat "1200.0");
   ("runway_at_downside", JFloat "8.333333333333334")].

Definition sample_benchmarks : dict :=
  [("seed", JObj [("runway_months", JArr [JInt 12; JInt 18])]);
   ("note", JStr "medians")].

End Memo.

(* ================================================================== *)
(** * main.py: reading the inputs *)

Module Main.
Import Py.

Definition BENCHMARKS_PATH : string := "benchmarks.json".

(** What a function of the script raises: an exception of the other
    modules, the [EOFError] of [input] at the end of the input, or an
    [OSError] of the file system. *)
Inductive raised : Type :=
| Exn (e : exn)
| EOFError
| OSError (msg : string).

(** The terminal: the lines still to be read and the text printed. *)
Record Console : Type := {
  stdin : list string;
  stdout : string
}.

(** The files, as far as the script asks: [Path.exists], [Path.is_file],
    [Path.read_text], and [json.load] on the opened file. Each of them
    answers or raises; [Path.exists] and [Path.is_file] raise an [OSError]
    on a name that the file system refuses, as one that is too long. *)
Record Disk : Type := {
  path_exists : string -> raised + bool;
  is_file : string -> raised + bool;
  read_text : string -> raised + string;
  json_load : string -> raised + json
}.

Definition Run (A : Type) : Type := Console -> Console * (raised + A).

Definition run_ret {A} (a : A) : Run A := fun c => (c, inr a).

Definition run_raise {A} (e : exn) : Run A := fun c => (c, inl (Exn e)).

Definition run_bind {A B} (m : Run A) (k : A -> Run B) : Run B :=
  fun c =>
    match m c with
    | (c', inl e) => (c', inl e)
    | (c', inr a) => k a c'
    end.

(** A call of the file system inside a computation. *)
Definition run_of {A} (r : raised + A) : Run A := fun c => (c, r).

Notation "x <~ m ;; k" := (run_bind m (fun x => k))
  (at level 61, m at next level, right associativity).

(** [print(s)] *)
Definition print (s : string) : Run unit :=
  fun c => ({| stdin := stdin c; stdout := stdout c ++ s ++ nl |}, inr tt).

(** [input(prompt)]: the prompt is printed, a line is read. *)
Definition input (prompt : string) : Run string :=
  fun c =>
    match stdin c with
    | [] => ({| stdin := []; stdout := stdout c ++ prompt |}, inl EOFError)
    | line :: rest => ({| stdin := rest; stdout := stdout c ++ prompt |}, inr line)
    end.

(** The loop [while True: line = input().strip() ...] over the lines still
    to be read, from the lines collected so far. *)
Fixpoint further_lines (pending : list string) (lines : list string)
    : list string * (raised + list string) :=
  match pending with
  | [] => ([], inl EOFError)
  | raw :: rest =>
      let line := strip raw in
      if negb (nonempty line) then (rest, inr lines)
      else further_lines rest (lines ++ [line])%list
  end.

Definition load_startup_description (disk : Disk) : Run string :=
  _ <~ print (nl ++ "Enter startup description:") ;;
  _ <~ print "  - Type your description and press Enter twice to finish" ;;
  _ <~ print "  - Or enter a file path (e.g. description.txt) to load from file" ;;
  _ <~ print "" ;;
  raw <~ input "Description or file path: " ;;
  let first_line := strip raw in
  if negb (nonempty first_line) then
    run_raise (ValueError "No description or file path provided.")
  else
    there <~ run_of (path_exists disk first_line) ;;
    a_file <~ (if there then run_of (is_file disk first_line)
               else run_ret false) ;;
    if a_file then
      text <~ run_of (read_text disk first_line) ;;
      run_ret (strip text)
    else
      lines <~ (fun c =>
                  let '(rest, r) := further_lines (stdin c) [first_line] in
                  ({| stdin := rest; stdout := stdout c |}, r)) ;;
      run_ret (strip (join nl lines)).

Definition load_benchmarks (disk : Disk) : raised + json :=
  match path_exists disk BENCHMARKS_PATH with
  | inl e => inl e
  | inr false =>
      inl (Exn (FileNotFoundError
                  ("Benchmarks file not found: " ++ BENCHMARKS_PATH)))
  | inr true => json_load disk BENCHMARKS_PATH
  end.

(** ** Describing inputs *)

(** The file system answers that the path is no file: nothing is there,
    or what is there is no regular file. *)
Definition names_no_file (disk : Disk) (path : string) : Prop :=
  path_exists disk path = inr false
  \/ (path_exists disk path = inr true /\ is_file disk path = inr false).

(** A line with a character that is not a blank. *)
Definition written_line (raw : string) : bool := nonempty (strip raw).

(** What the function prints before it returns or raises after the first
    line. *)
Definition banner : string :=
  nl ++ "Enter startup description:" ++ nl
  ++ "  - Type your description and press Enter twice to finish" ++ nl
  ++ "  - Or enter a file path (e.g. description.txt) to load from file" ++ nl
  ++ nl
  ++ "Description or file path: ".

(** A disk with one text file. *)
Definition disk_of (name content : string) : Disk :=
  {| path_exists := fun p => inr (p =? name);
     is_file := fun p => inr (p =? name);
     read_text := fun p => if p =? name then inr content
                           else inl (Exn (FileNotFoundError p));
     json_load := fun p => inl (Exn (FileNotFoundError p)) |}.

(** A disk that refuses every name. *)
Definition refusing_disk : Disk :=
  {| path_exists := fun p => inl (OSError "[Errno 36] File name too long");
     is_file := fun p => inl (OSError "[Errno 36] File name too long");
     read_text := fun p => inl (OSError "[Errno 36] File name too long");
     json_load := fun p => inl (OSError "[Errno 36] File name too long") |}.

End Main.

(* ================================================================== *)
(** * Facts about the string model *)

Module PyFacts.
Import Py.

Lemma lstrip_keeps (c : ascii) (r : string) :
  isspace c = false -> lstrip (String c r) = String c r.
Proof. intros Hc. simpl. now rewrite Hc. Qed.

Lemma lstrip_head (s : string) :
  lstrip s = "" \/ exists c r, lstrip s = String c r /\ isspace c = false.
Proof.
  induction s as [|c r IH]; simpl.
  - now left.
  - destruct (isspace c) eqn:Hc.
    + exact IH.
    + right. now exists c, r.
Qed.

Lemma rstrip_head (c : ascii) (r : string) :
  isspace c = false -> exists r', rstrip (String c r) = String c r'.
Proof.
  intros Hc. simpl. destruct (rstrip r) as [|c' r'].
  - rewrite Hc. now exists "".
  - now exists (String c' r').
Qed.

Lemma rstrip_idempotent (s : string) : rstrip (rstrip s) = rstrip s.
Proof.
  induction s as [|c r IH]; simpl; [reflexivity|].
  destruct (rstrip r) as [|c' r'] eqn:Hr.
  - destruct (isspace c) eqn:Hc; simpl; [reflexivity|]. now rewrite Hc.
  - change (rstrip (String c (String c' r')) = String c (String c' r')).
    simpl in IH |- *. destruct (rstrip r') as [|c'' r''].
    + destruct (isspace c') eqn:Hc'; [discriminate IH|].
      now injection IH as ->.
    + now injection IH as ->.
Qed.

(** A stripped string is stripped: [strip] is idempotent. *)
Lemma strip_idempotent (s : string) : strip (strip s) = strip s.
Proof.
  unfold strip. destruct (lstrip_head s) as [E | (c & r & E & Hc)]; rewrite E.
  - reflexivity.
  - destruct (rstrip_head c r Hc) as [r' E']. rewrite E'.
    rewrite (lstrip_keeps c r' Hc), <- E'. apply rstrip_idempotent.
Qed.

(** A string that starts with a character that is not a blank keeps it. *)
Lemma strip_nonempty (c : ascii) (r : string) :
  isspace c = false -> nonempty (strip (String c r)) = true.
Proof.
  intros Hc. unfold strip. rewrite (lstrip_keeps c r Hc).
  destruct (rstrip_head c r Hc) as [r' ->]. reflexivity.
Qed.

End PyFacts.

(* ================================================================== *)
(** * Facts about the two text steps of the parser *)

Module TextFacts.
Import Py PyFacts Company.

(** ** Texts put together *)

Lemma app_assoc_string (a b c : string) : (a ++ b) ++ c = a ++ (b ++ c).
Proof. induction a as [|x a IH]; simpl; [reflexivity | now rewrite IH]. Qed.

Lemma app_empty_r (a : string) : a ++ "" = a.
Proof. induction a as [|x a IH]; simpl; [reflexivity | now rewrite IH]. Qed.

Lemma length_app (a b : string) :
  String.length (a ++ b) = (String.length a + String.length b)%nat.
Proof. induction a as [|x a IH]; simpl; [reflexivity | now rewrite IH]. Qed.

Lemma drop_app (a b : string) : drop (String.length a) (a ++ b) = b.
Proof. induction a as [|x a IH]; simpl; [now destruct b | exact IH]. Qed.

Lemma take_app (a b : string) : take (String.length a) (a ++ b) = a.
Proof. induction a as [|x a IH]; simpl; [now destruct b | now rewrite IH]. Qed.

Lemma lacks_app (c : ascii) (a b : string) :
  lacks c (a ++ b) = lacks c a && lacks c b.
Proof.
  induction a as [|x a IH]; simpl; [reflexivity|].
  now rewrite IH, andb_assoc.
Qed.

(** ** Stripping a text put together *)

Lemma lstrip_app (a : string) (c : ascii) (r : string) :
  isspace c = false -> lstrip (a ++ String c r) = lstrip a ++ String c r.
Proof.
  intros Hc. induction a as [|x a IH]; simpl.
  - now rewrite Hc.
  - destruct (isspace x); [exact IH | reflexivity].
Qed.

Lemma lstrip_lacks (c : ascii) (s : string) :
  lacks c s = true -> lacks c (lstrip s) = true.
Proof.
  induction s as [|x s IH]; simpl; [reflexivity|].
  intros H. destruct (isspace x); [|exact H].
  apply andb_true_iff in H. now apply IH.
Qed.

Lemma rstrip_app (a b : string) :
  rstrip (a ++ b)
  = match rstrip b with
    | "" => rstrip a
    | String c r => a ++ String c r
    end.
Proof.
  induction a as [|x a IH]; simpl.
  - now destruct (rstrip b).
  - rewrite IH. destruct (rstrip b) as [|c r].
    + reflexivity.
    + now destruct a.
Qed.

Lemma rstrip_lacks (c : ascii) (s : string) :
  lacks c s = true -> lacks c (rstrip s) = true.
Proof.
  induction s as [|x s IH]; simpl; [reflexivity|].
  intros H. apply andb_true_iff in H. destruct H as [Hx Hs].
  specialize (IH Hs). destruct (rstrip s) as [|y r].
  - destruct (isspace x); simpl; [reflexivity | now rewrite Hx].
  - cbn [lacks]. now rewrite Hx.
Qed.

(** ** The brace loop *)

Lemma prefix_char (c x : ascii) (r : string) :
  prefix (String c "") (String x r) = (x =? c)%char.
Proof.
  cbn [prefix]. destruct (ascii_dec c x) as [<- | N].
  - rewrite Ascii.eqb_refl. now destruct r.
  - symmetry. apply Ascii.eqb_neq. congruence.
Qed.

Lemma index_first (pre r : string) :
  lacks "{" pre = true ->
  index 0 "{" (pre ++ String "{" r) = Some (String.length pre).
Proof.
  induction pre as [|x pre IH]; intros H.
  - cbn [append index]. now rewrite prefix_char.
  - simpl in H. apply andb_true_iff in H. destruct H as [Hx Hpre].
    cbn [append index String.length]. rewrite prefix_char.
    apply negb_true_iff in Hx. now rewrite Hx, (IH Hpre).
Qed.

(** The index the loop returns is the place of a closing brace. *)
Lemma closing_brace_place (s : string) (i : nat) (depth : Z) (j : nat) :
  closing_brace s i depth = Some j ->
  exists a b, s = a ++ String "}" b /\ j = (i + String.length a)%nat.
Proof.
  revert i depth. induction s as [|c r IH]; intros i depth H; [discriminate|].
  cbn [closing_brace] in H.
  destruct (c =? "{")%char eqn:Eo.
  - destruct (IH _ _ H) as (a & b & -> & ->).
    exists (String c a), b. split; [reflexivity | simpl; lia].
  - destruct (c =? "}")%char eqn:Ec.
    + destruct (depth - 1 =? 0)%Z.
      * injection H as <-. apply Ascii.eqb_eq in Ec. subst c.
        exists "", r. split; [reflexivity | simpl; lia].
      * destruct (IH _ _ H) as (a & b & -> & ->).
        exists (String c a), b. split; [reflexivity | simpl; lia].
    + destruct (IH _ _ H) as (a & b & -> & ->).
      exists (String c a), b. split; [reflexivity | simpl; lia].
Qed.

(** What follows the closing brace does not matter. *)
Lemma closing_brace_app (s more : string) (i : nat) (depth : Z) (j : nat) :
  closing_brace s i depth = Some j ->
  closing_brace (s ++ more) i depth = Some j.
Proof.
  revert i depth. induction s as [|c r IH]; intros i depth H; [discriminate|].
  cbn [closing_brace append] in H |- *.
  destruct (c =? "{")%char; [now apply IH|].
  destruct (c =? "}")%char; [|now apply IH].
  destruct (depth - 1 =? 0)%Z; [exact H | now apply IH].
Qed.

(** Counting from [k] instead of 0 moves the index by [k]. *)
Lemma closing_brace_from (s : string) (i k : nat) (depth : Z) (j : nat) :
  closing_brace s i depth = Some j ->
  closing_brace s (k + i) depth = Some (k + j)%nat.
Proof.
  revert i depth. induction s as [|c r IH]; intros i depth H; [discriminate|].
  cbn [closing_brace] in H |- *.
  destruct (c =? "{")%char.
  - rewrite <- Nat.add_succ_r. now apply IH.
  - destruct (c =? "}")%char.
    + destruct (depth - 1 =? 0)%Z.
      * now injection H as <-.
      * rewrite <- Nat.add_succ_r. now apply IH.
    + rewrite <- Nat.add_succ_r. now apply IH.
Qed.

(** An object text, taken apart. *)
Lemma object_text_shape (obj : string) :
  object_text obj = true ->
  (exists r, obj = String "{" r)
  /\ (exists a, obj = a ++ "}")
  /\ closing_brace obj 0 0 = Some (String.length obj - 1)%nat.
Proof.
  unfold object_text. intros H. apply andb_true_iff in H. destruct H as [Hp Hc].
  split; [|split].
  - destruct obj as [|c r]; [discriminate|].
    rewrite prefix_char in Hp. apply Ascii.eqb_eq in Hp. subst c.
    now exists r.
  - destruct (closing_brace obj 0 0) as [j|] eqn:Hj; [|discriminate].
    apply Nat.eqb_eq in Hc.
    destruct (closing_brace_place obj 0 0 j Hj) as (a & b & -> & ->).
    rewrite length_app in Hc. simpl in Hc.
    destruct b; [now exists a | simpl in Hc; lia].
  - destruct (closing_brace obj 0 0) as [j|]; [|discriminate].
    apply Nat.eqb_eq in Hc. f_equal. lia.
Qed.

Lemma rstrip_object (obj : string) :
  object_text obj = true -> rstrip obj = obj.
Proof.
  intros H. destruct (object_text_shape obj H) as (_ & [a ->] & _).
  now rewrite rstrip_app.
Qed.

(** The span from the first opening brace to the brace that closes it. *)
Lemma brace_span_object (pre obj post : string) :
  lacks "{" pre = true -> object_text obj = true ->
  brace_span (pre ++ obj ++ post) = obj.
Proof.
  intros Hpre Hobj.
  destruct (object_text_shape obj Hobj) as ([r E] & _ & Hclose).
  unfold brace_span, find.
  assert (Hidx : index 0 "{" (pre ++ obj ++ post) = Some (String.length pre)).
  { rewrite E. cbn [append]. now apply index_first. }
  rewrite Hidx.
  replace (negb (Z.of_nat (String.length pre) =? -1)%Z) with true
    by (symmetry; apply negb_true_iff, Z.eqb_neq; lia).
  rewrite Nat2Z.id, drop_app.
  pose proof (closing_brace_from obj 0 (String.length pre) 0 _ Hclose) as Hfrom.
  rewrite Nat.add_0_r in Hfrom.
  rewrite (closing_brace_app obj post _ _ _ Hfrom).
  unfold slice. rewrite drop_app.
  replace (String.length pre + (String.length obj - 1) + 1 - String.length pre)%nat
    with (String.length obj) by (rewrite E; simpl; lia).
  apply take_app.
Qed.

(** ** The pattern for a fenced block *)

Lemma prefix_fence_other (x : ascii) (r : string) :
  (x =? "`")%char = false -> prefix fence (String x r) = false.
Proof.
  intros H. unfold fence. cbn [prefix].
  destruct (ascii_dec "`" x) as [<- | _]; [discriminate H | reflexivity].
Qed.

Lemma match_here_other (x : ascii) (r : string) :
  (x =? "`")%char = false -> match_here (String x r) = None.
Proof. intros H. unfold match_here. now rewrite prefix_fence_other. Qed.

(** [\s*] and the fence, in closed form: a blank is not a backquote, so
    the run of blanks is taken whole. *)
Lemma blanks_then_fence_lstrip (s : string) :
  blanks_then_fence s = prefix fence (lstrip s).
Proof.
  induction s as [|c r IH]; [reflexivity|].
  cbn [blanks_then_fence lstrip]. destruct (isspace c) eqn:Hc; [|reflexivity].
  rewrite prefix_fence_other, orb_false_r; [exact IH|].
  destruct (c =? "`")%char eqn:E; [|reflexivity].
  apply Ascii.eqb_eq in E. subst c. discriminate Hc.
Qed.

(** No backquote, no match. *)
Lemma search_code_block_none (s : string) :
  lacks "`" s = true -> search_code_block s = None.
Proof.
  induction s as [|x s IH]; intros H; [reflexivity|].
  simpl in H. apply andb_true_iff in H. destruct H as [Hx Hs].
  apply negb_true_iff in Hx.
  cbn [search_code_block]. rewrite (match_here_other x s Hx). now apply IH.
Qed.

(** The search passes over a text without backquotes. *)
Lemma search_code_block_skip (pre s : string) :
  lacks "`" pre = true ->
  search_code_block (pre ++ s) = search_code_block s.
Proof.
  induction pre as [|x pre IH]; intros H; [reflexivity|].
  simpl in H. apply andb_true_iff in H. destruct H as [Hx Hpre].
  apply negb_true_iff in Hx.
  cbn [append search_code_block]. rewrite (match_here_other x _ Hx).
  now apply IH.
Qed.

(** With the closing fence behind a text without backquotes, [\s*] and
    the fence match exactly when the text is made of blanks. *)
Lemma blanks_then_fence_before (u : string) :
  lacks "`" u = true ->
  blanks_then_fence (u ++ nl ++ fence) = negb (nonempty (rstrip u)).
Proof.
  induction u as [|c r IH]; intros Hl; [reflexivity|].
  simpl in Hl. apply andb_true_iff in Hl. destruct Hl as [Hc Hl].
  apply negb_true_iff in Hc.
  cbn [append blanks_then_fence rstrip].
  rewrite (prefix_fence_other c _ Hc), orb_false_r, (IH Hl).
  destruct (rstrip r); destruct (isspace c); reflexivity.
Qed.

(** The lazy group takes the text up to its trailing blanks. *)
Lemma lazy_group_before (u : string) :
  lacks "`" u = true -> lazy_group (u ++ nl ++ fence) = Some (rstrip u).
Proof.
  induction u as [|c r IH]; intros Hl; [reflexivity|].
  pose proof (blanks_then_fence_before (String c r) Hl) as Hb.
  simpl in Hl. apply andb_true_iff in Hl. destruct Hl as [_ Hl].
  cbn [append] in Hb |- *. cbn [lazy_group]. rewrite Hb, (IH Hl).
  cbn [rstrip option_map]. destruct (rstrip r); destruct (isspace c); reflexivity.
Qed.

(** The greedy blanks in front of it take the leading blanks. *)
Lemma blanks_then_group_before (u : string) :
  lacks "`" u = true -> blanks_then_group (u ++ nl ++ fence) = Some (strip u).
Proof.
  unfold strip. induction u as [|c r IH]; intros Hl; [reflexivity|].
  pose proof (lazy_group_before (String c r) Hl) as Hg.
  simpl in Hl. apply andb_true_iff in Hl. destruct Hl as [_ Hl].
  cbn [append] in Hg |- *. cbn [blanks_then_group lstrip].
  destruct (isspace c); [now rewrite (IH Hl) | exact Hg].
Qed.

(** The pattern at an opening fence, tagged [json] or not, and a line
    feed. *)
Lemma match_here_tagged (body g : string) :
  blanks_then_group body = Some g ->
  match_here (fence ++ "json" ++ nl ++ body) = Some g.
Proof.
  intros H.
  change (fence ++ "json" ++ nl ++ body)
    with (String "`" (String "`" (String "`" (String "j" (String "s"
            (String "o" (String "n" (String (ascii_of_nat 10) body)))))))).
  unfold match_here, after_open.
  change (prefix fence _) with true. cbv iota.
  change (drop 3 _) with (String "j" (String "s"
            (String "o" (String "n" (String (ascii_of_nat 10) body))))).
  change (prefix "json" _) with true. cbv iota.
  change (drop 4 _) with (String (ascii_of_nat 10) body).
  cbn [blanks_then_group].
  change (isspace (ascii_of_nat 10)) with true. cbv iota.
  now rewrite H.
Qed.

Lemma match_here_untagged (body g : string) :
  blanks_then_group body = Some g ->
  match_here (fence ++ nl ++ body) = Some g.
Proof.
  intros H.
  change (fence ++ nl ++ body)
    with (String "`" (String "`" (String "`" (String (ascii_of_nat 10) body)))).
  unfold match_here, after_open.
  change (prefix fence _) with true. cbv iota.
  change (drop 3 _) with (String (ascii_of_nat 10) body).
  change (prefix "json" _) with false. cbv iota.
  cbn [blanks_then_group].
  change (isspace (ascii_of_nat 10)) with true. cbv iota.
  now rewrite H.
Qed.

(** The pattern on a block: the group is the contents, stripped. *)
Lemma match_here_block (tag inner : string) :
  tag = "json" \/ tag = "" -> lacks "`" inner = true ->
  match_here (fence ++ tag ++ nl ++ inner ++ nl ++ fence) = Some (strip inner).
Proof.
  intros [-> | ->] Hl.
  - now apply match_here_tagged, blanks_then_group_before.
  - now apply match_here_untagged, blanks_then_group_before.
Qed.

(** A response of leading prose and a block, stripped. *)
Lemma strip_fenced (prose tag inner : string) :
  tag = "json" \/ tag = "" ->
  strip (prose ++ nl ++ fence ++ tag ++ nl ++ inner ++ nl ++ fence ++ nl)
  = lstrip (prose ++ nl) ++ fence ++ tag ++ nl ++ inner ++ nl ++ fence.
Proof.
  intros Htag. unfold strip.
  replace (prose ++ nl ++ fence ++ tag ++ nl ++ inner ++ nl ++ fence ++ nl)
    with ((prose ++ nl)
          ++ String "`" ("``" ++ tag ++ nl ++ inner ++ nl ++ fence ++ nl))
    by (now rewrite app_assoc_string).
  rewrite lstrip_app by reflexivity.
  change (String "`" ("``" ++ tag ++ nl ++ inner ++ nl ++ fence ++ nl))
    with (fence ++ tag ++ nl ++ inner ++ nl ++ fence ++ nl).
  replace (lstrip (prose ++ nl) ++ fence ++ tag ++ nl ++ inner ++ nl ++ fence ++ nl)
    with ((lstrip (prose ++ nl) ++ fence ++ tag ++ nl ++ inner ++ nl)
          ++ fence ++ nl)
    by (now rewrite !app_assoc_string).
  rewrite rstrip_app.
  change (rstrip (fence ++ nl)) with fence. unfold fence at 1.
  now rewrite !app_assoc_string.
Qed.

(** For such a response the decoder is handed what the brace loop keeps of
    the contents of the block. *)
Lemma json_text_fenced (prose tag inner : string) :
  tag = "json" \/ tag = "" ->
  lacks "`" prose = true -> lacks "`" inner = true ->
  json_text (prose ++ nl ++ fence ++ tag ++ nl ++ inner ++ nl ++ fence ++ nl)
  = brace_span (strip inner).
Proof.
  intros Htag Hp Hl. unfold json_text, unfence.
  rewrite (strip_fenced prose tag inner Htag).
  rewrite search_code_block_skip
    by (apply lstrip_lacks; rewrite lacks_app, Hp; reflexivity).
  assert (Hs : search_code_block (fence ++ tag ++ nl ++ inner ++ nl ++ fence)
               = Some (strip inner)).
  { pose proof (match_here_block tag inner Htag Hl) as Hm.
    change (fence ++ tag ++ nl ++ inner ++ nl ++ fence)
      with (String "`" ("``" ++ tag ++ nl ++ inner ++ nl ++ fence)) in Hm |- *.
    cbn [search_code_block]. now rewrite Hm. }
  now rewrite Hs, strip_idempotent.
Qed.

(** Prose, an object text, prose: stripped, the brace loop keeps the
    object text. *)
Lemma brace_span_strip (pre obj post : string) :
  lacks "{" pre = true -> object_text obj = true ->
  brace_span (strip (pre ++ obj ++ post)) = obj.
Proof.
  intros Hpre Hobj.
  destruct (object_text_shape obj Hobj) as ([r E] & _ & _).
  assert (Hstrip : strip (pre ++ obj ++ post) = lstrip pre ++ obj ++ rstrip post).
  { unfold strip. rewrite E at 1. cbn [append].
    rewrite lstrip_app by reflexivity.
    change (String "{" (r ++ post)) with (String "{" r ++ post).
    rewrite <- E. rewrite rstrip_app, rstrip_app.
    rewrite (rstrip_object obj Hobj).
    destruct (rstrip post) as [|c t].
    - rewrite E. cbn [append]. now rewrite app_empty_r.
    - rewrite E. reflexivity. }
  rewrite Hstrip. apply brace_span_object; [|exact Hobj].
  clear -Hpre. induction pre as [|x pre IH]; [reflexivity|].
  simpl in Hpre |- *. destruct (isspace x); [|exact Hpre].
  apply andb_true_iff in Hpre. now apply IH.
Qed.

(** The same without a fence. *)
Lemma json_text_embedded (pre obj post : string) :
  lacks "`" (pre ++ obj ++ post) = true -> lacks "{" pre = true ->
  object_text obj = true ->
  json_text (pre ++ obj ++ post) = obj.
Proof.
  intros Hl Hpre Hobj. unfold json_text, unfence.
  rewrite search_code_block_none
    by (unfold strip; now apply rstrip_lacks, lstrip_lacks).
  now apply brace_span_strip.
Qed.

End TextFacts.

(* ================================================================== *)
(** * finance.py: the properties *)

Module FinanceFacts.
Import Py Finance.
Local Open Scope Q_scope.

(** ** The comparisons on [Q] *)

Lemma ltb_lt (x y : Q) : ltb x y = true <-> x < y.
Proof.
  simpl. rewrite negb_true_iff. split; intros H.
  - apply Qnot_le_lt. intros Hle. apply Qle_bool_iff in Hle. congruence.
  - destruct (Qle_bool y x) eqn:E; [|reflexivity].
    apply Qle_bool_iff in E. exfalso. exact (Qlt_not_le _ _ H E).
Qed.

Lemma ltb_ge (x y : Q) : ltb x y = false <-> y <= x.
Proof.
  simpl. rewrite negb_false_iff. apply Qle_bool_iff.
Qed.

Lemma eqb_eq (x y : Q) : eqb x y = true <-> x == y.
Proof. apply Qeq_bool_iff. Qed.

Lemma eqb_neq (x y : Q) : eqb x y = false <-> ~ x == y.
Proof.
  simpl. split; intros H.
  - intros E. apply Qeq_bool_iff in E. congruence.
  - destruct (Qeq_bool x y) eqn:E; [|reflexivity].
    apply Qeq_bool_iff in E. contradiction.
Qed.

(** Two facts about the order that cannot hold together. *)
Ltac order_clash :=
  exfalso;
  match goal with
  | [ H : ?x < 0, H' : 0 <= ?x |- _ ] => exact (Qlt_not_le _ _ H H')
  | [ E : ?x == 0, H : 0 < ?x |- _ ] =>
      rewrite E in H; exact (Qlt_irrefl _ H)
  end.

(** ** What each function does, case by case *)

Lemma calculate_runway_positive (cash_balance monthly_burn : Q) :
  0 <= cash_balance -> 0 < monthly_burn ->
  calculate_runway cash_balance monthly_burn = ret (cash_balance / monthly_burn).
Proof.
  intros Hc Hb. unfold calculate_runway.
  change (of_int 0) with 0.
  rewrite (proj2 (ltb_ge cash_balance 0) Hc).
  rewrite (proj2 (ltb_ge monthly_burn 0) (Qlt_le_weak _ _ Hb)).
  rewrite (proj2 (eqb_neq monthly_burn 0)); [reflexivity|].
  intros E. rewrite E in Hb. exact (Qlt_irrefl _ Hb).
Qed.

Lemma calculate_runway_zero (cash_balance monthly_burn : Q) :
  0 <= cash_balance -> monthly_burn == 0 ->
  calculate_runway cash_balance monthly_burn = ret 0.
Proof.
  intros Hc Hb. unfold calculate_runway.
  change (of_int 0) with 0.
  rewrite (proj2 (ltb_ge cash_balance 0) Hc).
  rewrite (proj2 (ltb_ge monthly_burn 0)) by (rewrite Hb; apply Qle_refl).
  now rewrite (proj2 (eqb_eq monthly_burn 0) Hb).
Qed.

Lemma calculate_runway_negative (cash_balance monthly_burn : Q) :
  cash_balance < 0 \/ monthly_burn < 0 ->
  exists msg, calculate_runway cash_balance monthly_burn = raise (ValueError msg).
Proof.
  intros H. unfold calculate_runway. change (of_int 0) with 0.
  destruct (ltb cash_balance 0) eqn:Ec; [eauto|].
  destruct (ltb monthly_burn 0) eqn:Eb; [eauto|].
  apply ltb_ge in Ec, Eb. destruct H as [H | H].
  - order_clash.
  - order_clash.
Qed.

(** A call of [calculate_runway] that returns had arguments that are not
    negative, and returned 0 or the quotient. *)
Lemma calculate_runway_returns (cash_balance monthly_burn r : Q) :
  calculate_runway cash_balance monthly_burn = ret r ->
  0 <= cash_balance /\ 0 <= monthly_burn /\
  ((monthly_burn == 0 /\ r = 0) \/
   (0 < monthly_burn /\ r = cash_balance / monthly_burn)).
Proof.
  unfold calculate_runway. change (of_int 0) with 0.
  destruct (ltb cash_balance 0) eqn:Ec; [discriminate|].
  destruct (ltb monthly_burn 0) eqn:Eb; [discriminate|].
  apply ltb_ge in Ec, Eb.
  destruct (eqb monthly_burn 0) eqn:Ez; intros [= <-].
  - apply eqb_eq in Ez. tauto.
  - apply eqb_neq in Ez. repeat split; trivial. right. split; trivial.
    apply Qle_lteq in Eb. destruct Eb as [Hlt | Heq]; [exact Hlt|].
    exfalso. apply Ez. now symmetry.
Qed.

Lemma simulate_downside_returns (monthly_burn increase_percent r : Q) :
  simulate_downside monthly_burn increase_percent = ret r ->
  0 <= monthly_burn /\ 0 <= increase_percent /\
  r = monthly_burn * (1 + increase_percent / 100).
Proof.
  unfold simulate_downside. change (of_int 0) with 0.
  destruct (ltb monthly_burn 0) eqn:Eb; [discriminate|].
  destruct (ltb increase_percent 0) eqn:Ep; [discriminate|].
  apply ltb_ge in Eb, Ep. intros [= <-]. repeat split; trivial.
Qed.

Lemma simulate_downside_nonnegative (monthly_burn increase_percent : Q) :
  0 <= monthly_burn -> 0 <= increase_percent ->
  simulate_downside monthly_burn increase_percent
  = ret (monthly_burn * (1 + increase_percent / 100)).
Proof.
  intros Hb Hp. unfold simulate_downside. change (of_int 0) with 0.
  rewrite (proj2 (ltb_ge monthly_burn 0) Hb).
  now rewrite (proj2 (ltb_ge increase_percent 0) Hp).
Qed.


Lemma quotient_nonnegative (x y : Q) : 0 <= x -> 0 < y -> 0 <= x / y.
Proof.
  intros Hx Hy. apply Qle_shift_div_l; [exact Hy|]. now rewrite Qmult_0_l.
Qed.


(** ** The 20 percent stress *)

Lemma stress_factor : 1 + 20 / 100 == 6 # 5.
Proof. reflexivity. Qed.


Lemma stressed_value (b : Q) : b * (1 + 20 / 100) == b * 1.2.
Proof. field. Qed.

(** ** Frames *)

Lemma getitem_present {F} (df : DataFrame F) (name : string) :
  In name (columns df) ->
  exists cells, getitem df name = ret cells /\ In (name, cells) df.
Proof.
  induction df as [|[n cells] rest IH]; simpl; [tauto|].
  intros H. destruct (String.eqb n name) eqn:E.
  - apply String.eqb_eq in E. subst n. exists cells. auto.
  - destruct H as [H | H].
    + apply String.eqb_neq in E. contradiction.
    + destruct (IH H) as (c & Hc & Hin). exists c. auto.
Qed.

Lemma existsb_present (name : string) (names : list string) :
  In name names -> existsb (String.eqb name) names = true.
Proof.
  intros H. apply existsb_exists. exists name. split; [exact H|].
  apply String.eqb_refl.
Qed.

Lemma existsb_found (name : string) (names : list string) :
  existsb (String.eqb name) names = true -> In name names.
Proof.
  intros H. apply existsb_exists in H. destruct H as (x & Hin & Heq).
  apply String.eqb_eq in Heq. now subst x.
Qed.

Lemma missing_columns_none {F} (df : DataFrame F) :
  has_required_columns df -> missing_columns df = [].
Proof.
  intros H. unfold missing_columns, required. cbn [filter].
  rewrite !existsb_present; [reflexivity | | | ]; apply H; simpl; auto.
Qed.

Lemma missing_columns_complete {F} (df : DataFrame F) :
  missing_columns df = [] -> has_required_columns df.
Proof.
  unfold missing_columns, has_required_columns, required. cbn [filter].
  intros H name Hin.
  destruct (existsb (String.eqb "month") (columns df)) eqn:E1;
    [|discriminate H].
  destruct (existsb (String.eqb "expenses") (columns df)) eqn:E2;
    [|discriminate H].
  destruct (existsb (String.eqb "cash_balance") (columns df)) eqn:E3;
    [|discriminate H].
  destruct Hin as [<- | [<- | [<- | []]]]; now apply existsb_found.
Qed.

Lemma nonempty_frame {F} (df : DataFrame F) :
  (0 < nrows df)%nat -> empty df = false.
Proof.
  destruct df as [|[n cells] rest]; simpl; [lia|].
  intros H. apply Nat.eqb_neq. lia.
Qed.

Lemma nonempty_rows {F} (df : DataFrame F) :
  empty df = false -> (0 < nrows df)%nat.
Proof.
  destruct df as [|[n cells] rest]; simpl; [discriminate|].
  intros H. apply Nat.eqb_neq in H. lia.
Qed.

Lemma empty_no_rows {F} (df : DataFrame F) :
  empty df = true <-> nrows df = 0%nat.
Proof.
  destruct df as [|[n cells] rest]; simpl; [tauto|]. apply Nat.eqb_eq.
Qed.

Lemma iloc_last_returns {F} (cells : list (cell F)) :
  cells <> [] -> exists x, iloc_last cells = ret x.
Proof.
  induction cells as [|x [|y rest] IH]; intros H; [contradiction | now exists x |].
  change (exists z, iloc_last (y :: rest) = ret z). apply IH. discriminate.
Qed.

Lemma iloc_last_cell {F} (cells : list (cell F)) (x : cell F) :
  last_cell cells = Some x -> iloc_last cells = ret x.
Proof.
  unfold last_cell. destruct (iloc_last cells); [discriminate|].
  now intros [= ->].
Qed.

Lemma getitem_column {F} (df : DataFrame F) (name : string) :
  In name (columns df) -> getitem df name = ret (column df name).
Proof.
  intros H. destruct (getitem_present df name H) as (cells & Hget & _).
  unfold column. now rewrite Hget.
Qed.

(** On a rectangular frame with a row, a column that is present has a cell. *)
Lemma column_cells {F} (df : DataFrame F) (name : string) :
  rectangular df -> (0 < nrows df)%nat -> In name (columns df) ->
  getitem df name = ret (column df name) /\ column df name <> [].
Proof.
  intros Hrect Hrows Hin.
  destruct (getitem_present df name Hin) as (cells & Hget & Hmem).
  unfold column. rewrite Hget. unfold ret. split; [reflexivity|].
  intros E. subst cells. apply Hrect in Hmem. simpl in Hmem. lia.
Qed.

(** The three ways through [calculate_burn], and the two through [mean]. *)
Lemma calculate_burn_steps {F} {fl : Floating F}
    (mean_error : list (cell F) -> string) (df : DataFrame F) :
  (empty df = true ->
   calculate_burn mean_error df = raise (ValueError "DataFrame is empty or None"))
  /\ (empty df = false -> missing_columns df <> [] ->
      calculate_burn mean_error df
      = raise (ValueError ("DataFrame missing required columns: "
                           ++ set_repr (missing_columns df))))
  /\ (empty df = false -> missing_columns df = [] ->
      calculate_burn mean_error df = mean mean_error (column df "expenses")).
Proof.
  unfold calculate_burn. split; [|split].
  - now intros ->.
  - intros -> Hm. destruct (missing_columns df); [contradiction | reflexivity].
  - intros -> Hm. rewrite Hm.
    rewrite getitem_column; [reflexivity|].
    apply (missing_columns_complete df Hm). simpl. auto.
Qed.

(** A call that raises, raises a [ValueError]. *)
Lemma calculate_runway_raises {F} {num : Number F} (cash_balance monthly_burn : F)
    (e : exn) :
  calculate_runway cash_balance monthly_burn = raise e ->
  exists msg, e = ValueError msg.
Proof.
  unfold calculate_runway.
  destruct (ltb cash_balance (of_int 0)); [intros [= <-]; eauto|].
  destruct (ltb monthly_burn (of_int 0)); [intros [= <-]; eauto|].
  destruct (eqb monthly_burn (of_int 0)); discriminate.
Qed.

Lemma simulate_downside_raises {F} {num : Number F}
    (monthly_burn increase_percent : F) (e : exn) :
  simulate_downside monthly_burn increase_percent = raise e ->
  exists msg, e = ValueError msg.
Proof.
  unfold simulate_downside.
  destruct (ltb monthly_burn (of_int 0)); [intros [= <-]; eauto|].
  destruct (ltb increase_percent (of_int 0)); [intros [= <-]; eauto|].
  discriminate.
Qed.

(** The analysis of a frame that has the columns and a row, once the burn
    and the last balance are there. *)
Lemma analyze_financials_steps {F} {fl : Floating F}
    (mean_error : list (cell F) -> string)
    (float_of_text : string -> result F)
    (read_csv : string -> read_csv_outcome F) (csv_path : string)
    (df : DataFrame F) :
  read_csv csv_path = ReadFrame df ->
  has_required_columns df -> rectangular df -> (0 < nrows df)%nat ->
  exists last,
    last_cell (column df "cash_balance") = Some last
    /\ analyze_financials mean_error float_of_text read_csv csv_path
       = (burn <- mean mean_error (column df "expenses") ;;
          cash_balance <- to_float float_of_text last ;;
          runway <- calculate_runway cash_balance burn ;;
          downside_burn <- simulate_downside burn (of_int 20) ;;
          runway_at_downside <- calculate_runway cash_balance downside_burn ;;
          ret {| burn := burn;
                 runway := runway;
                 downside_burn := downside_burn;
                 runway_at_downside := runway_at_downside |}).
Proof.
  intros Hread Hcols Hrect Hrows.
  assert (Hbal : In "cash_balance" (columns df)) by (apply Hcols; simpl; auto).
  destruct (column_cells df "cash_balance" Hrect Hrows Hbal) as [Gb Nb].
  destruct (iloc_last_returns _ Nb) as [last Hlast].
  exists last. split; [unfold last_cell; now rewrite Hlast|].
  unfold analyze_financials. rewrite Hread. cbn [bind ret].
  rewrite (nonempty_frame df Hrows), (missing_columns_none df Hcols).
  rewrite (proj2 (proj2 (calculate_burn_steps mean_error df))
             (nonempty_frame df Hrows) (missing_columns_none df Hcols)).
  destruct (mean mean_error (column df "expenses")) as [e | b]; [reflexivity|].
  cbn [bind ret]. rewrite Gb. cbn [bind ret]. rewrite Hlast. reflexivity.
Qed.

(** ** Floats without rounding *)

Lemma sign_of_positive (q : Q) : 0 < q -> sign_of q = Some false.
Proof.
  intros H. unfold sign_of.
  destruct (Qeq_bool q 0) eqn:E.
  - apply Qeq_bool_iff in E. rewrite E in H. now apply Qlt_irrefl in H.
  - now rewrite (proj2 (Qle_bool_iff 0 q) (Qlt_le_weak _ _ H)).
Qed.

Lemma sign_of_zero (q : Q) : q == 0 -> sign_of q = None.
Proof. intros H. unfold sign_of. now rewrite (proj2 (Qeq_bool_iff q 0) H). Qed.

(** A float that is not negative: NaN, the positive infinity, or a
    rational that is not negative. *)
Lemma not_negative (x : xfloat) :
  xltb x (Fin 0) = false <->
  match x with
  | Fin q => 0 <= q
  | Inf s => s = false
  | NaN => True
  end.
Proof.
  destruct x as [q | s | ]; cbn [xltb].
  - rewrite negb_false_iff. apply Qle_bool_iff.
  - tauto.
  - tauto.
Qed.

Lemma is_zero (x : xfloat) :
  xeqb x (Fin 0) = true <-> exists q, x = Fin q /\ q == 0.
Proof.
  destruct x as [q | s | ]; cbn [xeqb].
  - rewrite Qeq_bool_iff. split; [eauto | now intros (q' & [= ->] & H)].
  - split; [discriminate | now intros (q' & [=] & _)].
  - split; [discriminate | now intros (q' & [=] & _)].
Qed.

Lemma xleb_fin (p q : Q) : p <= q -> xleb (Fin p) (Fin q) = true.
Proof.
  intros H. unfold xleb. cbn [xltb xeqb].
  destruct (Qeq_bool p q) eqn:E; [apply orb_true_r|].
  rewrite orb_false_r. apply negb_true_iff.
  destruct (Qle_bool q p) eqn:L; [|reflexivity].
  apply Qle_bool_iff in L. exfalso.
  assert (Heq : p == q) by (apply Qle_antisym; assumption).
  apply Qeq_bool_iff in Heq. congruence.
Qed.

(** The stress of 20 percent is the factor 1.2. *)
Lemma stress_of_20 :
  add (of_int 1) (div (of_int 20) (of_int 100)) = Fin (1 + 20 / 100).
Proof. reflexivity. Qed.

Lemma sign_of_stress : sign_of (1 + 20 / 100) = Some false.
Proof. reflexivity. Qed.

Lemma xfloat_runway (cash_balance monthly_burn : xfloat) :
  xltb cash_balance (Fin 0) = false -> xltb monthly_burn (Fin 0) = false ->
  calculate_runway cash_balance monthly_burn
  = ret (if xeqb monthly_burn (Fin 0) then Fin 0
         else xdiv cash_balance monthly_burn).
Proof.
  intros Hc Hb. unfold calculate_runway.
  change (of_int 0) with (Fin 0). cbn [ltb eqb div xfloat_number].
  rewrite Hc, Hb. now destruct (xeqb monthly_burn (Fin 0)).
Qed.

Lemma xfloat_runway_returns (cash_balance monthly_burn r : xfloat) :
  calculate_runway cash_balance monthly_burn = ret r ->
  xltb cash_balance (Fin 0) = false /\ xltb monthly_burn (Fin 0) = false
  /\ r = (if xeqb monthly_burn (Fin 0) then Fin 0
          else xdiv cash_balance monthly_burn).
Proof.
  unfold calculate_runway.
  change (of_int 0) with (Fin 0). cbn [ltb eqb div xfloat_number].
  destruct (xltb cash_balance (Fin 0)); [discriminate|].
  destruct (xltb monthly_burn (Fin 0)); [discriminate|].
  destruct (xeqb monthly_burn (Fin 0)); intros [= <-]; auto.
Qed.

Lemma xfloat_downside (monthly_burn : xfloat) :
  simulate_downside monthly_burn (of_int 20)
  = if xltb monthly_burn (Fin 0) then
      raise (ValueError "monthly_burn must be non-negative")
    else ret (xmul monthly_burn (Fin (1 + 20 / 100))).
Proof.
  unfold simulate_downside. rewrite stress_of_20.
  change (of_int 0) with (Fin 0). cbn [ltb mul xfloat_number].
  destruct (xltb monthly_burn (Fin 0)); reflexivity.
Qed.

(** The stressed burn is negative, or zero, exactly when the burn is. *)
Lemma stressed_sign (b : xfloat) :
  xltb b (Fin 0) = false ->
  xltb (xmul b (Fin (1 + 20 / 100))) (Fin 0) = false
  /\ xeqb (xmul b (Fin (1 + 20 / 100))) (Fin 0) = xeqb b (Fin 0).
Proof.
  intros H. apply not_negative in H.
  destruct b as [q | s | ]; cbn [xmul].
  - split.
    + apply not_negative. rewrite stress_factor. lra.
    + cbn [xeqb]. destruct (Qeq_bool q 0) eqn:E.
      * apply Qeq_bool_iff in E. apply Qeq_bool_iff. rewrite E. reflexivity.
      * change (Qeq_bool q 0) with (eqb q 0) in E. apply eqb_neq in E.
        apply (proj2 (eqb_neq (q * (1 + 20 / 100)) 0)).
        intros E'. apply E. rewrite stress_factor in E'. lra.
  - subst s. rewrite sign_of_stress. split; reflexivity.
  - split; reflexivity.
Qed.
Lemma same_factor (b : xfloat) :
  same (xmul b (Fin (1 + 20 / 100))) (xmul b (Fin 1.2))
  /\ same (xmul b (Fin (1 + 20 / 100))) (xmul (Fin 1.2) b).
Proof.
  destruct b as [q | s | ]; cbn [xmul same]; [|now destruct s | tauto].
  split; field.
Qed.

(** A quotient by a positive rational. *)
Lemma xdiv_positive (a : xfloat) (q : Q) :
  0 < q ->
  xdiv a (Fin q)
  = match a with
    | Fin p => Fin (p / q)
    | Inf s => Inf s
    | NaN => NaN
    end.
Proof.
  intros H. destruct a as [p | s | ]; cbn [xdiv]; rewrite ?(sign_of_positive q H);
    [reflexivity | now destruct s | reflexivity].
Qed.

Lemma positive_rational (q : Q) : 0 <= q -> Qeq_bool q 0 = false -> 0 < q.
Proof.
  intros Hle E. apply Qle_lteq in Hle. destruct Hle as [H | H]; [exact H|].
  symmetry in H. apply Qeq_bool_iff in H. congruence.
Qed.

(** ** The mean *)

Lemma sum_finite (values : list Q) (start : Q) :
  fold_left xadd (map Fin values) (Fin start) = Fin (fold_left Qplus values start).
Proof.
  revert start. induction values as [|q rest IH]; intros start; [reflexivity|].
  cbn [map fold_left xadd]. apply IH.
Qed.

Lemma fold_left_total (values : list Q) (start : Q) :
  fold_left Qplus values start == start + total values.
Proof.
  revert start. induction values as [|q rest IH]; intros start; cbn [fold_left total fold_right].
  - ring.
  - rewrite IH. fold (total rest). ring.
Qed.

(** The mean of a column of numbers whose cells, the blank ones left out,
    are rationals: their sum over their count. *)
Lemma nanmean_finite (values : list xfloat) (present : list Q) :
  filter (fun x => negb (isnan x)) values = map Fin present ->
  present <> [] ->
  same (nanmean values)
    (Fin (total present / inject_Z (Z.of_nat (List.length present)))).
Proof.
  intros Hf Hne. unfold nanmean. rewrite Hf.
  destruct present as [|q rest]; [contradiction|].
  change (map Fin (q :: rest)) with (Fin q :: map Fin rest).
  cbv beta iota.
  change (Fin q :: map Fin rest) with (map Fin (q :: rest)).
  unfold sum. cbn [add div of_int floating_number xfloat_floating xfloat_number].
  change (Fin (inject_Z 0)) with (Fin 0).
  rewrite sum_finite, length_map.
  rewrite xdiv_positive.
  - cbn [same]. now rewrite fold_left_total, Qplus_0_l.
  - unfold Qlt. cbn [List.length inject_Z Qnum Qden]. lia.
Qed.

(** ** The whole analysis *)

(** An analysis that returns went through the three calls. *)
Lemma analyze_financials_returns
    (mean_error : list (cell xfloat) -> string)
    (float_of_text : string -> result xfloat)
    (read_csv : string -> read_csv_outcome xfloat) (csv_path : string)
    (m : FinancialMetrics xfloat) :
  analyze_financials mean_error float_of_text read_csv csv_path = ret m ->
  exists cash,
    xltb cash (Fin 0) = false /\ xltb (burn m) (Fin 0) = false
    /\ runway m = (if xeqb (burn m) (Fin 0) then Fin 0 else xdiv cash (burn m))
    /\ downside_burn m = xmul (burn m) (Fin (1 + 20 / 100))
    /\ runway_at_downside m
       = (if xeqb (burn m) (Fin 0) then Fin 0
          else xdiv cash (downside_burn m)).
Proof.
  unfold analyze_financials.
  destruct (read_csv csv_path) as [ | | e | df]; try discriminate.
  cbn [bind ret].
  destruct (empty df); [discriminate|].
  destruct (missing_columns df); [|discriminate].
  destruct (calculate_burn mean_error df) as [e | b]; [discriminate|]. cbn [bind].
  destruct (getitem df "cash_balance") as [e | balances]; [discriminate|].
  cbn [bind].
  destruct (iloc_last balances) as [e | last]; [discriminate|]. cbn [bind].
  destruct (to_float float_of_text last) as [e | cash]; [discriminate|].
  cbn [bind].
  destruct (calculate_runway cash b) as [e | r] eqn:Er; [discriminate|].
  cbn [bind]. rewrite xfloat_downside.
  apply xfloat_runway_returns in Er. destruct Er as (Hc & Hb & Hr).
  rewrite Hb. cbn [bind ret].
  destruct (calculate_runway cash (xmul b (Fin (1 + 20 / 100)))) as [e | rd] eqn:Erd;
    [discriminate|].
  apply xfloat_runway_returns in Erd. destruct Erd as (_ & _ & Hrd).
  rewrite (proj2 (stressed_sign b Hb)) in Hrd.
  cbn [bind]. intros [= <-]. exists cash.
  cbn [burn runway downside_burn runway_at_downside]. auto.
Qed.


Lemma sample_frame_shape :
  has_required_columns sample_frame /\ rectangular sample_frame
  /\ (0 < nrows sample_frame)%nat.
Proof.
  split; [|split].
  - intros name [<- | [<- | [<- | []]]]; simpl; auto.
  - intros name cells [[= <- <-] | [[= <- <-] | [[= <- <-] | []]]]; reflexivity.
  - simpl. lia.
Qed.

Lemma blank_expense_frame_shape :
  has_required_columns blank_expense_frame /\ rectangular blank_expense_frame
  /\ (0 < nrows blank_expense_frame)%nat.
Proof.
  split; [|split].
  - intros name [<- | [<- | [<- | []]]]; simpl; auto.
  - intros name cells [[= <- <-] | [[= <- <-] | [[= <- <-] | []]]]; reflexivity.
  - simpl. lia.
Qed.

(** The same three functions on binary64 numbers, at sample values. *)
Example binary64_samples :
  calculate_runway 10000%float 1200%float = ret (10000 / 1200)%float
  /\ calculate_runway 10000%float 0%float = ret 0%float
  /\ calculate_runway (-1)%float 1200%float
     = raise (ValueError "cash_balance must be non-negative")
  /\ simulate_downside 10000%float 0%float = ret 10000%float
  /\ simulate_downside 1000%float 20%float = ret 1200%float
  /\ simulate_downside 1000%float (-20)%float
     = raise (ValueError "increase_percent must be non-negative")
  /\ nanmean [1000; 2000; 3000]%float = 2000%float
  /\ nanmean [1000%float; PrimFloat.nan; 3000%float] = 2000%float.
Proof. repeat split. Qed.

(** C2. [calculate_runway] on exact numbers: the quotient when the balance
    is not negative and the burn is positive, 0 when the burn is 0, and a
    [ValueError] as soon as one of the two is negative. *)
Theorem calculate_runway_spec (cash_balance monthly_burn : Q) :
  (0 <= cash_balance -> 0 < monthly_burn ->
   calculate_runway cash_balance monthly_burn = ret (cash_balance / monthly_burn))
  /\ (0 <= cash_balance -> monthly_burn == 0 ->
      calculate_runway cash_balance monthly_burn = ret 0)
  /\ (cash_balance < 0 \/ monthly_burn < 0 ->
      exists msg,
        calculate_runway cash_balance monthly_burn = raise (ValueError msg)).
Proof.
  split; [|split].
  - apply calculate_runway_positive.
  - apply calculate_runway_zero.
  - apply calculate_runway_negative.
Qed.

Lemma calculate_runway_spec_witness :
  calculate_runway 10000 1200 = ret (10000 / 1200)
  /\ calculate_runway 10000 0 = ret 0
  /\ (exists msg, calculate_runway (-1) 1200 = raise (ValueError msg))
  /\ (exists msg, calculate_runway 10000 (-1) = raise (ValueError msg)).
Proof.
  split; [|split; [|split]].
  - apply (proj1 (calculate_runway_spec 10000 1200)); reflexivity || discriminate.
  - apply (proj1 (proj2 (calculate_runway_spec 10000 0))); reflexivity || discriminate.
  - apply (proj2 (proj2 (calculate_runway_spec (-1) 1200))). left. reflexivity.
  - apply (proj2 (proj2 (calculate_runway_spec 10000 (-1)))). right. reflexivity.
Defined.

(** C8. [simulate_downside] on exact numbers: the burn times
    [1 + increase_percent / 100] when neither argument is negative, hence
    the burn itself at 0 percent and 12000 for 10000 at 20 percent (which
    is also the binary64 result), and a [ValueError] as soon as one of the
    two is negative. *)
Theorem simulate_downside_spec (monthly_burn increase_percent : Q) :
  (0 <= monthly_burn -> 0 <= increase_percent ->
   simulate_downside monthly_burn increase_percent
   = ret (monthly_burn * (1 + increase_percent / 100)))
  /\ (0 <= monthly_burn ->
      exists r, simulate_downside monthly_burn 0 = ret r /\ r == monthly_burn)
  /\ (exists r, simulate_downside 10000 20 = ret r /\ r == 12000)
  /\ simulate_downside 10000%float 20%float = ret 12000%float
  /\ (monthly_burn < 0 \/ increase_percent < 0 ->
      exists msg,
        simulate_downside monthly_burn increase_percent = raise (ValueError msg)).
Proof.
  split; [|split; [|split; [|split]]].
  - apply simulate_downside_nonnegative.
  - intros Hb. eexists. split.
    + apply simulate_downside_nonnegative; [exact Hb | apply Qle_refl].
    + field.
  - eexists. split; [reflexivity|]. reflexivity.
  - reflexivity.
  - intros H. unfold simulate_downside. change (of_int 0) with 0.
    destruct (ltb monthly_burn 0) eqn:Eb; [eauto|].
    destruct (ltb increase_percent 0) eqn:Ep; [eauto|].
    apply ltb_ge in Eb, Ep. destruct H as [H | H]; order_clash.
Qed.

Lemma simulate_downside_spec_witness :
  simulate_downside 2500 20 = ret (2500 * (1 + 20 / 100))
  /\ (exists r, simulate_downside 2500 0 = ret r /\ r == 2500)
  /\ (exists msg, simulate_downside 2500 (-20) = raise (ValueError msg)).
Proof.
  split; [|split].
  - apply (proj1 (simulate_downside_spec 2500 20)); discriminate.
  - apply (proj1 (proj2 (simulate_downside_spec 2500 0))). discriminate.
  - apply (proj2 (proj2 (proj2 (proj2 (simulate_downside_spec 2500 (-20)))))).
    right. reflexivity.
Defined.



(** C1, as amended. On a frame that has the three columns and a row, whose
    expenses are numbers or blank and whose last balance is a number or
    blank, with neither that balance nor the mean expense negative,
    [analyze_financials] returns the four metrics: the burn is the mean of
    the expenses that are not blank; the runway is the last balance over
    the burn, and 0 when the burn is 0; the downside burn is the burn times
    1.2; the runway at downside is the last balance over the downside burn,
    and 0 when the burn is 0. The mean of cells that are rationals, blanks
    apart, is their sum over their count. On the sample frame the metrics
    are 1000, 10, 1200 and 10000/1200, and with the expenses 1000, blank
    and 3000 and a last balance of 300 they are 2000, 0.15, 2400 and
    0.125, without rounding and in binary64 arithmetic. *)
Theorem analyze_financials_metrics :
  (forall (mean_error : list (cell xfloat) -> string)
          (float_of_text : string -> result xfloat)
          (read_csv : string -> read_csv_outcome xfloat) (csv_path : string)
          (df : DataFrame xfloat) (expenses : list xfloat) (cash : xfloat),
      read_csv csv_path = ReadFrame df ->
      has_required_columns df -> rectangular df -> (0 < nrows df)%nat ->
      numbers (column df "expenses") = Some expenses ->
      last_cell (column df "cash_balance") = Some (Num cash) ->
      ltb cash (Fin 0) = false -> ltb (nanmean expenses) (Fin 0) = false ->
      exists m,
        analyze_financials mean_error float_of_text read_csv csv_path = ret m
        /\ burn m = nanmean expenses
        /\ runway m
           = (if eqb (burn m) (Fin 0) then Fin 0 else div cash (burn m))
        /\ same (downside_burn m) (mul (burn m) (Fin 1.2))
        /\ runway_at_downside m
           = (if eqb (burn m) (Fin 0) then Fin 0
              else div cash (downside_burn m)))
  /\ (forall (values : list xfloat) (present : list Q),
        filter (fun x => negb (isnan x)) values = map Fin present ->
        present <> [] ->
        same (nanmean values)
          (Fin (total present / inject_Z (Z.of_nat (List.length present)))))
  /\ (exists m,
        analyze_financials (fun _ => "") no_number
          (fun _ => ReadFrame sample_frame) "financials.csv" = ret m
        /\ same (burn m) (Fin 1000) /\ same (runway m) (Fin 10)
        /\ same (downside_burn m) (Fin 1200)
        /\ same (runway_at_downside m) (Fin (10000 / 1200)))
  /\ analyze_financials (fun _ => "") no_number
       (fun _ => ReadFrame sample_frame_binary64) "financials.csv"
     = ret {| burn := 1000%float;
              runway := 10%float;
              downside_burn := 1200%float;
              runway_at_downside := (10000 / 1200)%float |}
  /\ (exists m,
        analyze_financials (fun _ => "") no_number
          (fun _ => ReadFrame blank_expense_frame) "financials.csv" = ret m
        /\ same (burn m) (Fin 2000) /\ same (runway m) (Fin 0.15)
        /\ same (downside_burn m) (Fin 2400)
        /\ same (runway_at_downside m) (Fin 0.125))
  /\ analyze_financials (fun _ => "") no_number
       (fun _ => ReadFrame blank_expense_frame_binary64) "financials.csv"
     = ret {| burn := 2000%float;
              runway := (300 / 2000)%float;
              downside_burn := 2400%float;
              runway_at_downside := 0.125%float |}.
Proof.
  split; [|split; [|split; [|split; [|split]]]].
  - intros mean_error float_of_text read_csv csv_path df expenses cash
      Hread Hcols Hrect Hrows Hexp Hlast Hcash Hmean.
    destruct (analyze_financials_steps mean_error float_of_text read_csv
                csv_path df Hread Hcols Hrect Hrows) as (last & Hlast' & ->).
    rewrite Hlast in Hlast'. injection Hlast' as <-.
    unfold mean. rewrite Hexp. cbn [bind ret to_float].
    cbn [ltb eqb div mul floating_number xfloat_floating xfloat_number] in *.
    rewrite (xfloat_runway cash (nanmean expenses) Hcash Hmean). cbn [bind ret].
    rewrite xfloat_downside, Hmean. cbn [bind ret].
    destruct (stressed_sign (nanmean expenses) Hmean) as [Hd Hz].
    rewrite (xfloat_runway cash _ Hcash Hd), Hz. cbn [bind ret].
    eexists. split; [reflexivity|].
    cbn [burn runway downside_burn runway_at_downside].
    repeat split. apply same_factor.
  - apply nanmean_finite.
  - eexists. split; [reflexivity|]. cbn. repeat split; reflexivity.
  - reflexivity.
  - eexists. split; [reflexivity|]. cbn. repeat split; reflexivity.
  - reflexivity.
Qed.

Lemma analyze_financials_metrics_witness :
  exists m,
    analyze_financials (fun _ => "") no_number
      (fun _ => ReadFrame blank_expense_frame) "financials.csv" = ret m
    /\ burn m = nanmean [Fin 1000; NaN; Fin 3000]
    /\ runway m
       = (if eqb (burn m) (Fin 0) then Fin 0 else div (Fin 300) (burn m))
    /\ same (downside_burn m) (mul (burn m) (Fin 1.2))
    /\ runway_at_downside m
       = (if eqb (burn m) (Fin 0) then Fin 0
          else div (Fin 300) (downside_burn m)).
Proof.
  apply (proj1 analyze_financials_metrics (fun _ => "") no_number
           (fun _ => ReadFrame blank_expense_frame) "financials.csv"
           blank_expense_frame).
  - reflexivity.
  - apply blank_expense_frame_shape.
  - apply blank_expense_frame_shape.
  - apply blank_expense_frame_shape.
  - reflexivity.
  - reflexivity.
  - reflexivity.
  - reflexivity.
Defined.

(** C1, as stated, fails on a frame that has the three columns and a row:
    with an overdrawn last balance the analysis raises. *)
Lemma analyze_financials_overdrawn :
  missing_columns overdrawn_frame = []
  /\ nrows overdrawn_frame = 1%nat
  /\ analyze_financials (fun _ => "") no_number
       (fun _ => ReadFrame overdrawn_frame) "financials.csv"
     = raise (ValueError "cash_balance must be non-negative").
Proof. repeat split. Qed.




End FinanceFacts.

(* ================================================================== *)
(** * company.py: the properties *)

Module CompanyFacts.
Import Py PyFacts TextFacts Company.

Lemma only_whitespace_strip (s : string) :
  only_whitespace s = true -> strip s = "".
Proof.
  unfold strip. induction s as [|c r IH]; simpl; [reflexivity|].
  intros H. apply andb_true_iff in H. destruct H as [Hc Hr].
  rewrite Hc. exact (IH Hr).
Qed.

(** C9. On a text made of blanks only (the empty text included), the
    extractor returns the profile with every field at its default and
    leaves the trace as it found it: it calls nothing, whatever the model
    and the decoder are. *)
Theorem extract_company_profile_blank
    (json_loads : string -> result json) (w : World)
    (startup_description : string) (trace : list call) :
  only_whitespace startup_description = true ->
  extract_company_profile json_loads w startup_description trace
  = (trace, ret empty_profile).
Proof.
  intros H. unfold extract_company_profile.
  rewrite (only_whitespace_strip startup_description H). simpl.
  rewrite orb_true_r. reflexivity.
Qed.

Lemma extract_company_profile_blank_witness :
  extract_company_profile Json.json_loads
    (world_of (raise (RuntimeError "MiniMax API request failed"))
              (raise (RequestException "unreachable")))
    "   " []
  = ([], ret empty_profile).
Proof.
  apply (extract_company_profile_blank Json.json_loads). reflexivity.
Defined.

(** ** The string forms of values *)

Lemma str_of_uint_head (d : Decimal.uint) :
  exists c r, NilZero.string_of_uint d = String c r /\ isspace c = false.
Proof.
  destruct d; simpl; eexists; eexists; split; reflexivity.
Qed.

Lemma str_of_int_text (n : Z) : nonempty (strip (str_of_int n)) = true.
Proof.
  unfold str_of_int. destruct (Z.to_int n) as [d | d]; simpl.
  - destruct (str_of_uint_head d) as (c & r & -> & Hc).
    now apply strip_nonempty.
  - now apply strip_nonempty.
Qed.

(** The string form of a truthy value has a character that is not a
    blank, unless the value is a string of blanks. *)
Lemma truthy_text (v : json) :
  truthy v = true -> no_blank_text v = true -> nonempty (strip (str v)) = true.
Proof.
  destruct v as [ | [|] | n | r | s | items | members]; simpl;
    try discriminate; intros Ht Hb.
  - reflexivity.
  - apply str_of_int_text.
  - exact Hb.
  - rewrite Ht in Hb. exact Hb.
  - now apply strip_nonempty.
  - now apply strip_nonempty.
Qed.

(** C3, as amended. [None] becomes the empty list. A scalar becomes the
    one-element list of its stripped string form, which is empty when the
    scalar is a string of blanks. A list none of whose elements is a
    string of blanks becomes the stripped string forms of its truthy
    elements (the falsy ones, [None], [False], 0 and the empty string,
    list and dict, are dropped), none of them empty. Every element of
    every result is stripped. The scalar [Acme] gives the list of [Acme],
    and the list of [Acme], the empty string and [Globex] gives the list
    of [Acme] and [Globex]. *)
Theorem ensure_competitors_list_spec (value : json) :
  (value = JNull -> _ensure_competitors_list value = [])
  /\ ((forall items, value <> JArr items) -> value <> JNull ->
      _ensure_competitors_list value = [strip (str value)])
  /\ (forall items, value = JArr items ->
      Forall (fun item => no_blank_text item = true) items ->
      _ensure_competitors_list value
      = map (fun item => strip (str item)) (filter truthy items)
      /\ Forall (fun name => nonempty name = true)
                (_ensure_competitors_list value))
  /\ Forall (fun name => strip name = name) (_ensure_competitors_list value)
  /\ _ensure_competitors_list (JStr "Acme") = ["Acme"]
  /\ _ensure_competitors_list (JArr [JStr "Acme"; JStr ""; JStr "Globex"])
     = ["Acme"; "Globex"].
Proof.
  split; [|split; [|split; [|split; [|split]]]]; try reflexivity.
  - now intros ->.
  - intros Hl Hn. destruct value; try reflexivity.
    + contradiction.
    + now destruct (Hl items).
  - intros items -> Hb. split; [reflexivity|].
    simpl. apply Forall_map.
    induction items as [|item rest IH]; simpl; [constructor|].
    inversion Hb as [|? ? Hitem Hrest]; subst.
    destruct (truthy item) eqn:Ht; [|now apply IH].
    constructor; [now apply truthy_text | now apply IH].
  - destruct value; simpl; repeat constructor; try apply strip_idempotent.
    apply Forall_map. apply Forall_forall. intros item _.
    apply strip_idempotent.
Qed.

Lemma ensure_competitors_list_spec_witness :
  _ensure_competitors_list JNull = []
  /\ _ensure_competitors_list (JStr "Acme") = [strip "Acme"]
  /\ (_ensure_competitors_list (JArr [JStr "Acme"; JStr ""; JStr " Globex "])
      = map (fun item => strip (str item))
            (filter truthy [JStr "Acme"; JStr ""; JStr " Globex "])
      /\ Forall (fun name => nonempty name = true)
           (_ensure_competitors_list (JArr [JStr "Acme"; JStr ""; JStr " Globex "]))).
Proof.
  split; [|split].
  - apply (proj1 (ensure_competitors_list_spec JNull)). reflexivity.
  - apply (proj1 (proj2 (ensure_competitors_list_spec (JStr "Acme"))));
      discriminate.
  - apply (proj1 (proj2 (proj2 (ensure_competitors_list_spec
             (JArr [JStr "Acme"; JStr ""; JStr " Globex "]))))
             [JStr "Acme"; JStr ""; JStr " Globex "]).
    + reflexivity.
    + repeat constructor.
Defined.

(** C3, as stated, fails: a string of blanks inside a list, and an empty
    scalar string, each leave an empty string in the result. *)
Lemma ensure_competitors_list_keeps_blank :
  _ensure_competitors_list (JArr [JStr "Acme"; JStr "  "]) = ["Acme"; ""]
  /\ _ensure_competitors_list (JStr "") = [""]
  /\ forallb nonempty (_ensure_competitors_list (JArr [JStr "Acme"; JStr "  "]))
     = false.
Proof. repeat split. Qed.

(** ** The competitor lookup *)

Lemma firstn_full {A} (n : nat) (l more : list A) :
  (n <= List.length l)%nat -> firstn n (l ++ more)%list = firstn n l.
Proof.
  intros H. rewrite firstn_app.
  replace (n - List.length l)%nat with 0%nat by lia.
  simpl. apply app_nil_r.
Qed.

Lemma Forall_firstn {A} (P : A -> Prop) (n : nat) (l : list A) :
  Forall P l -> Forall P (firstn n l).
Proof.
  revert l. induction n as [|n IH]; intros l H; simpl; [constructor|].
  destruct l as [|x rest]; [constructor|].
  inversion H; subst. constructor; auto.
Qed.

(** The loop collects the accepted names, in order, and what it returns
    agrees with them on the first ten. *)
Lemma collect_names_accepted (companies : list json) (names : list string) :
  (List.length names < 10)%nat ->
  firstn 10 (collect_names companies names)
  = firstn 10 (names ++ accepted_names companies)%list.
Proof.
  revert names. induction companies as [|item rest IH]; intros names Hlen.
  - simpl. now rewrite app_nil_r.
  - cbn [collect_names accepted_names]. unfold accepted_name.
    destruct item as [ | b | n | r | s | items | members]; try (now apply IH).
    destruct (dict_get members "company")
      as [ | b | n | r | s | items | fields]; try (now apply IH).
    destruct (negb (is_none (dict_get fields "name"))
              && nonempty (strip (str (dict_get fields "name")))) eqn:Hok.
    + set (name := strip (str (dict_get fields "name"))).
      destruct (10 <=? List.length (names ++ [name])%list)%nat eqn:Hfull.
      * apply Nat.leb_le in Hfull.
        change (name :: accepted_names rest)
          with ([name] ++ accepted_names rest)%list.
        rewrite app_assoc. symmetry. now apply firstn_full.
      * apply Nat.leb_gt in Hfull. rewrite (IH _ Hfull).
        now rewrite <- app_assoc.
    + destruct (10 <=? List.length names)%nat eqn:Hfull.
      * apply Nat.leb_le in Hfull. lia.
      * now apply IH.
Qed.

Lemma accepted_names_text (companies : list json) :
  Forall (fun name => nonempty name = true /\ strip name = name)
         (accepted_names companies).
Proof.
  induction companies as [|item rest IH]; simpl; [constructor|].
  destruct (accepted_name item) as [name|] eqn:Ha; [|exact IH].
  constructor; [|exact IH].
  unfold accepted_name in Ha.
  destruct item as [ | b | n | r | s | items | members]; try discriminate.
  destruct (dict_get members "company")
    as [ | b | n | r | s | items | fields]; try discriminate.
  destruct (negb (is_none (dict_get fields "name"))
            && nonempty (strip (str (dict_get fields "name")))) eqn:Hok;
    [|discriminate].
  injection Ha as <-. apply andb_true_iff in Hok. destruct Hok as [_ Hne].
  split; [exact Hne | apply strip_idempotent].
Qed.

Lemma strip_text_nonempty (s : string) :
  nonempty (strip s) = true -> nonempty s = true.
Proof. now destruct s. Qed.

Lemma raise_for_status_passes (r : Response) :
  (status_code r < 400 \/ 600 <= status_code r)%Z ->
  raise_for_status r = ret tt.
Proof.
  intros H. unfold raise_for_status.
  replace ((400 <=? status_code r) && (status_code r <? 500))%Z with false
    by (symmetry; apply andb_false_iff; lia).
  replace ((500 <=? status_code r) && (status_code r <? 600))%Z with false
    by (symmetry; apply andb_false_iff; lia).
  reflexivity.
Qed.

Lemma raise_for_status_rejects (r : Response) :
  (400 <= status_code r < 600)%Z ->
  exists msg, raise_for_status r = raise (RequestException msg).
Proof.
  intros H. unfold raise_for_status.
  destruct ((400 <=? status_code r) && (status_code r <? 500))%Z eqn:E4;
    [eauto|].
  destruct ((500 <=? status_code r) && (status_code r <? 600))%Z eqn:E5;
    [eauto|].
  apply andb_false_iff in E4, E5. lia.
Qed.

Lemma find_competitors_blank (w : World) (business_model keywords : string)
    (trace : list call) :
  nonempty (strip keywords) = false ->
  find_competitors w business_model keywords trace = (trace, ret []).
Proof.
  intros H. unfold find_competitors. rewrite H. simpl.
  now rewrite orb_true_r.
Qed.

(** The lookup with the plumbing of the trace taken out. *)
Lemma find_competitors_steps (w : World) (business_model keywords : string)
    (trace : list call) :
  nonempty (strip keywords) = true ->
  find_competitors w business_model keywords trace
  = ((trace ++ [registry_call keywords])%list,
     match requests_get_answer w registry_url [("q", strip keywords)] 10 with
     | inl (RequestException _) => ret []
     | inl other => raise other
     | inr r =>
         match raise_for_status r with
         | inl (RequestException _) => ret []
         | inl other => raise other
         | inr _ =>
             match json_body r with
             | inl (JSONDecodeError _) => ret []
             | inl other => raise other
             | inr data =>
                 results <- get data "results" ;;
                 found <- get (py_or results (JObj [])) "companies" ;;
                 companies <- iterate (py_or found (JArr [])) ;;
                 ret (firstn 10 (collect_names companies []))
             end
         end
     end).
Proof.
  intros Hk. unfold find_competitors.
  rewrite Hk, (strip_text_nonempty keywords Hk). cbn [negb orb].
  unfold io_bind, attempt, requests_get, lift, io_ret, registry_call.
  cbv zeta.
  destruct (requests_get_answer w registry_url [("q", strip keywords)] 10)
    as [[] | r]; try reflexivity.
  cbv beta iota.
  destruct (raise_for_status r) as [[] | []]; try reflexivity.
  cbv beta iota. unfold ret at 1 2. cbv beta iota.
  destruct (json_body r) as [[] | data]; try reflexivity.
  destruct (get data "results") as [e | results]; [reflexivity|].
  cbn [bind].
  destruct (get (py_or results (JObj [])) "companies") as [e | found];
    [reflexivity|].
  cbn [bind].
  destruct (iterate (py_or found (JArr []))); reflexivity.
Qed.

(** C4, as amended. When the registry answers, with a status that
    [raise_for_status] lets through, a body of the documented shape (an
    object whose [results] is an object whose [companies] is a list, each
    of the two possibly absent or falsy and then read as empty), the lookup
    returns at most 10 names, in the order of the response and not
    necessarily distinct: the stripped names of the leading entries whose
    [company] is an object with a [name] that is not null and not empty
    once stripped, the other entries being skipped, up to the tenth such
    name. *)
Theorem find_competitors_names
    (w : World) (business_model keywords : string) (trace : list call)
    (r : Response) (members results : list (string * json))
    (companies : list json) :
  nonempty (strip keywords) = true ->
  requests_get_answer w registry_url [("q", strip keywords)] 10 = ret r ->
  (status_code r < 400 \/ 600 <= status_code r)%Z ->
  json_body r = ret (JObj members) ->
  members_of (dict_get members "results") = Some results ->
  items_of (dict_get results "companies") = Some companies ->
  exists names,
    snd (find_competitors w business_model keywords trace) = ret names
    /\ names = firstn 10 (accepted_names companies)
    /\ (List.length names <= 10)%nat
    /\ Forall (fun name => nonempty name = true /\ strip name = name) names.
Proof.
  intros Hk Hget Hstatus Hbody Hresults Hcompanies.
  exists (firstn 10 (accepted_names companies)).
  split; [|split; [reflexivity|split]].
  - rewrite (find_competitors_steps w business_model keywords trace Hk).
    cbn [snd]. rewrite Hget. cbn [ret].
    rewrite (raise_for_status_passes r Hstatus), Hbody.
    cbn [ret snd get bind].
    unfold members_of in Hresults.
    destruct (py_or (dict_get members "results") (JObj []));
      try discriminate Hresults.
    injection Hresults as ->. cbn [get bind ret].
    unfold items_of in Hcompanies.
    destruct (py_or (dict_get results "companies") (JArr []));
      try discriminate Hcompanies.
    injection Hcompanies as ->. cbn [iterate bind ret].
    f_equal. apply (collect_names_accepted companies []). simpl. lia.
  - apply firstn_le_length.
  - apply Forall_firstn, accepted_names_text.
Qed.

Lemma find_competitors_names_witness :
  exists names,
    snd (find_competitors
           (world_of (raise (RuntimeError "unused"))
                     (ret (registry_response 200 "OK"
                             (ret (registry_body sample_companies)))))
           "SaaS" " SaaS " [])
    = ret names
    /\ names = firstn 10 (accepted_names sample_companies)
    /\ (List.length names <= 10)%nat
    /\ Forall (fun name => nonempty name = true /\ strip name = name) names.
Proof.
  apply (find_competitors_names
           (world_of (raise (RuntimeError "unused"))
                     (ret (registry_response 200 "OK"
                             (ret (registry_body sample_companies)))))
           "SaaS" " SaaS " []
           (registry_response 200 "OK" (ret (registry_body sample_companies)))
           [("results", JObj [("companies", JArr sample_companies)])]
           [("companies", JArr sample_companies)]
           sample_companies).
  - reflexivity.
  - reflexivity.
  - left. reflexivity.
  - reflexivity.
  - reflexivity.
  - reflexivity.
Defined.

(** C4, as stated, fails: the registry lists two companies of the same
    name, and the lookup returns the name twice. *)
Lemma find_competitors_repeats :
  snd (find_competitors
         (world_of (raise (RuntimeError "unused"))
                   (ret (registry_response 200 "OK"
                           (ret (registry_body
                                   [registry_entry (JStr "Acme Ltd");
                                    registry_entry (JStr "Acme Ltd")])))))
         "SaaS" "SaaS" [])
  = ret ["Acme Ltd"; "Acme Ltd"]
  /\ ~ NoDup ["Acme Ltd"; "Acme Ltd"].
Proof.
  split; [reflexivity|].
  intros H. inversion H as [|? ? Hnotin _]. apply Hnotin. now left.
Qed.

(** C7, as amended. The lookup returns the empty list, and raises nothing,
    when [requests.get] raises a [RequestException] (no connection, a
    timeout, ...), when the response has a status from 400 to 599, and
    when [response.json()] raises a [json.JSONDecodeError]. An exception
    of [response.json()] of another class, as the decoding error of
    requests is when simplejson is installed, is not caught: the lookup
    raises it. A status outside 200..299 that is not in 400..599 is not an
    error for [raise_for_status], and the body is read as usual. *)
Theorem find_competitors_degrades
    (w : World) (business_model keywords : string) (trace : list call) :
  (forall msg,
      requests_get_answer w registry_url [("q", strip keywords)] 10
      = raise (RequestException msg) ->
      snd (find_competitors w business_model keywords trace) = ret [])
  /\ (forall r,
      requests_get_answer w registry_url [("q", strip keywords)] 10 = ret r ->
      (400 <= status_code r < 600)%Z ->
      snd (find_competitors w business_model keywords trace) = ret [])
  /\ (forall r msg,
      requests_get_answer w registry_url [("q", strip keywords)] 10 = ret r ->
      json_body r = raise (JSONDecodeError msg) ->
      snd (find_competitors w business_model keywords trace) = ret [])
  /\ (forall r e,
      nonempty (strip keywords) = true ->
      requests_get_answer w registry_url [("q", strip keywords)] 10 = ret r ->
      (status_code r < 400 \/ 600 <= status_code r)%Z ->
      json_body r = raise e ->
      (forall msg, e <> JSONDecodeError msg) ->
      snd (find_competitors w business_model keywords trace) = raise e).
Proof.
  destruct (nonempty (strip keywords)) eqn:Hk.
  - rewrite (find_competitors_steps w business_model keywords trace Hk).
    cbn [snd]. split; [|split; [|split]].
    + intros msg ->. reflexivity.
    + intros r -> Hstatus. cbn [ret].
      destruct (raise_for_status_rejects r Hstatus) as [msg ->]. reflexivity.
    + intros r msg -> Hbody. cbn [ret]. rewrite Hbody.
      destruct (raise_for_status r) as [[] | []] eqn:Hs; try reflexivity;
        unfold raise_for_status in Hs;
        destruct ((400 <=? status_code r) && (status_code r <? 500))%Z;
        try discriminate;
        destruct ((500 <=? status_code r) && (status_code r <? 600))%Z;
        discriminate.
    + intros r e _ -> Hstatus Hbody Hother. cbn [ret].
      rewrite (raise_for_status_passes r Hstatus), Hbody. cbn [ret raise].
      destruct e; try reflexivity. now destruct (Hother msg).
  - rewrite (find_competitors_blank w business_model keywords trace Hk).
    repeat split. discriminate.
Qed.

Lemma find_competitors_degrades_witness :
  snd (find_competitors
         (world_of (raise (RuntimeError "unused"))
                   (raise (RequestException "Read timed out. (read timeout=10)")))
         "SaaS" "SaaS" []) = ret []
  /\ snd (find_competitors
            (world_of (raise (RuntimeError "unused"))
                      (ret (registry_response 500 "Internal Server Error"
                              (ret (registry_body sample_companies)))))
            "SaaS" "SaaS" []) = ret []
  /\ snd (find_competitors
            (world_of (raise (RuntimeError "unused"))
                      (ret (registry_response 200 "OK"
                              (raise (JSONDecodeError
                                 "Expecting value: line 1 column 1 (char 0)")))))
            "SaaS" "SaaS" []) = ret []
  /\ snd (find_competitors
            (world_of (raise (RuntimeError "unused"))
                      (ret (registry_response 200 "OK"
                              (raise (RequestException
                                 "Expecting value: line 1 column 1 (char 0)")))))
            "SaaS" "SaaS" [])
     = raise (RequestException "Expecting value: line 1 column 1 (char 0)").
Proof.
  split; [|split; [|split]].
  - apply (proj1 (find_competitors_degrades
             (world_of (raise (RuntimeError "unused"))
                (raise (RequestException "Read timed out. (read timeout=10)")))
             "SaaS" "SaaS" [])
             "Read timed out. (read timeout=10)").
    reflexivity.
  - apply (proj1 (proj2 (find_competitors_degrades
             (world_of (raise (RuntimeError "unused"))
                (ret (registry_response 500 "Internal Server Error"
                        (ret (registry_body sample_companies)))))
             "SaaS" "SaaS" []))
             (registry_response 500 "Internal Server Error"
                (ret (registry_body sample_companies)))).
    + reflexivity.
    + simpl. lia.
  - apply (proj1 (proj2 (proj2 (find_competitors_degrades
             (world_of (raise (RuntimeError "unused"))
                (ret (registry_response 200 "OK"
                        (raise (JSONDecodeError
                           "Expecting value: line 1 column 1 (char 0)")))))
             "SaaS" "SaaS" [])))
             (registry_response 200 "OK"
                (raise (JSONDecodeError
                   "Expecting value: line 1 column 1 (char 0)")))
             "Expecting value: line 1 column 1 (char 0)").
    + reflexivity.
    + reflexivity.
  - apply (proj2 (proj2 (proj2 (find_competitors_degrades
             (world_of (raise (RuntimeError "unused"))
                (ret (registry_response 200 "OK"
                        (raise (RequestException
                           "Expecting value: line 1 column 1 (char 0)")))))
             "SaaS" "SaaS" [])))
             (registry_response 200 "OK"
                (raise (RequestException
                   "Expecting value: line 1 column 1 (char 0)")))
             (RequestException "Expecting value: line 1 column 1 (char 0)")).
    + reflexivity.
    + reflexivity.
    + left. simpl. lia.
    + reflexivity.
    + discriminate.
Defined.

(** C7, as stated, fails: a response with status 300, which is not a 2xx
    status, and a body that lists a company, gives that company. *)
Lemma find_competitors_reads_300 :
  ((300 <? 200) || (299 <? 300))%Z = true
  /\ snd (find_competitors
            (world_of (raise (RuntimeError "unused"))
                      (ret (registry_response 300 "Multiple Choices"
                              (ret (registry_body
                                      [registry_entry (JStr "Acme Ltd")])))))
            "SaaS" "SaaS" [])
     = ret ["Acme Ltd"].
Proof. split; reflexivity. Qed.

(** ** The parser *)

(** What the parser does with each outcome of the decoder. *)
Lemma parse_profile_json_undecodable
    (json_loads : string -> result json) (response e : string) :
  json_loads (json_text response) = raise (JSONDecodeError e) ->
  _parse_profile_json json_loads response
  = raise (ValueError ("Failed to parse MiniMax response as JSON: " ++ e
                       ++ ". Raw response: " ++ take 500 response)).
Proof. intros H. unfold _parse_profile_json. now rewrite H. Qed.

Lemma parse_profile_json_object
    (json_loads : string -> result json) (response : string)
    (members : list (string * json)) :
  json_loads (json_text response) = ret (JObj members) ->
  _parse_profile_json json_loads response = ret (profile_of members).
Proof. intros H. unfold _parse_profile_json. now rewrite H. Qed.

Lemma parse_profile_json_other
    (json_loads : string -> result json) (response : string) (v : json) :
  json_loads (json_text response) = ret v ->
  (forall members, v <> JObj members) ->
  _parse_profile_json json_loads response
  = raise (ValueError ("MiniMax response was not a JSON object: "
                       ++ type_name v)).
Proof.
  intros H Hv. unfold _parse_profile_json. rewrite H.
  destruct v; try reflexivity. now destruct (Hv members).
Qed.

(** A parse that returns decoded an object and built the profile from it. *)
Lemma parse_profile_json_returns
    (json_loads : string -> result json) (response : string)
    (p : CompanyProfile) :
  _parse_profile_json json_loads response = ret p ->
  exists members,
    json_loads (json_text response) = ret (JObj members)
    /\ p = profile_of members.
Proof.
  unfold _parse_profile_json.
  destruct (json_loads (json_text response)) as [[] | v]; try discriminate.
  cbn [bind ret]. destruct v; try discriminate.
  intros [= <-]. now exists members.
Qed.

(** C6, as amended. The parser strips the response, takes the stripped
    contents of the first fenced block if there is one, and then, fenced or
    not, keeps the span from the first opening brace to the brace that
    closes it by depth counting; it hands that text to the decoder. If the
    decoder refuses it, the parser raises an error whose message ends with
    the first 500 characters of the raw response; if the decoder returns a
    value that is not an object, it raises an error that names the type of
    the value and not the response; on an object it returns the profile.
    A response of leading prose and a fenced block, tagged [json] or not,
    hands to the decoder exactly the object text its contents hold, and
    so does a response without a fence that holds an object text. *)
Theorem parse_profile_json_spec
    (json_loads : string -> result json) (response : string) :
  (forall e,
      json_loads (json_text response) = raise (JSONDecodeError e) ->
      _parse_profile_json json_loads response
      = raise (ValueError ("Failed to parse MiniMax response as JSON: " ++ e
                           ++ ". Raw response: " ++ take 500 response)))
  /\ (forall members,
      json_loads (json_text response) = ret (JObj members) ->
      _parse_profile_json json_loads response = ret (profile_of members))
  /\ (forall v,
      json_loads (json_text response) = ret v ->
      (forall members, v <> JObj members) ->
      _parse_profile_json json_loads response
      = raise (ValueError ("MiniMax response was not a JSON object: "
                           ++ type_name v)))
  /\ (forall prose tag pre obj post,
      response = prose ++ nl ++ fence ++ tag ++ nl
                 ++ (pre ++ obj ++ post) ++ nl ++ fence ++ nl ->
      tag = "json" \/ tag = "" ->
      lacks "`" prose = true -> lacks "`" (pre ++ obj ++ post) = true ->
      lacks "{" pre = true -> object_text obj = true ->
      json_text response = obj)
  /\ (forall pre obj post,
      response = pre ++ obj ++ post ->
      lacks "`" response = true -> lacks "{" pre = true ->
      object_text obj = true ->
      json_text response = obj).
Proof.
  split; [|split; [|split; [|split]]].
  - apply parse_profile_json_undecodable.
  - apply parse_profile_json_object.
  - apply parse_profile_json_other.
  - intros prose tag pre obj post -> Htag Hp Hl Hpre Hobj.
    rewrite (json_text_fenced prose tag (pre ++ obj ++ post) Htag Hp Hl).
    now apply brace_span_strip.
  - intros pre obj post ->. apply json_text_embedded.
Qed.

Lemma parse_profile_json_spec_witness :
  _parse_profile_json Json.json_loads "Sorry, I cannot help."
  = raise (ValueError ("Failed to parse MiniMax response as JSON: "
                       ++ "Expecting value: line 1 column 1 (char 0)"
                       ++ ". Raw response: " ++ take 500 "Sorry, I cannot help."))
  /\ _parse_profile_json Json.json_loads sample_object
     = ret (profile_of [("business_model", JStr "SaaS");
                        ("customer_type", JStr "B2B");
                        ("stage", JStr "seed");
                        ("milestone", JNull);
                        ("mentioned_competitors",
                         JArr [JStr "Acme"; JStr ""; JStr "Globex"])])
  /\ _parse_profile_json Json.json_loads "42"
     = raise (ValueError ("MiniMax response was not a JSON object: "
                          ++ type_name (JInt 42)))
  /\ json_text sample_fenced = sample_object
  /\ json_text ("Done." ++ nl ++ fence ++ "" ++ nl
                ++ ("Profile: " ++ sample_object ++ " as requested")
                ++ nl ++ fence ++ nl)
     = sample_object
  /\ json_text sample_embedded = sample_object.
Proof.
  split; [|split; [|split; [|split; [|split]]]].
  - apply (proj1 (parse_profile_json_spec Json.json_loads
                    "Sorry, I cannot help.")).
    reflexivity.
  - apply (proj1 (proj2 (parse_profile_json_spec Json.json_loads
                           sample_object))).
    reflexivity.
  - apply (proj1 (proj2 (proj2 (parse_profile_json_spec Json.json_loads
                                  "42")))).
    + reflexivity.
    + discriminate.
  - apply (proj1 (proj2 (proj2 (proj2 (parse_profile_json_spec
             Json.json_loads sample_fenced))))
             "Here you go:" "json" "" sample_object "");
      try reflexivity.
    now left.
  - apply (proj1 (proj2 (proj2 (proj2 (parse_profile_json_spec
             Json.json_loads
             ("Done." ++ nl ++ fence ++ "" ++ nl
              ++ ("Profile: " ++ sample_object ++ " as requested")
              ++ nl ++ fence ++ nl)))))
             "Done." "" "Profile: " sample_object " as requested");
      try reflexivity.
    now right.
  - apply (proj2 (proj2 (proj2 (proj2 (parse_profile_json_spec
             Json.json_loads sample_embedded))))
             "Sure! " sample_object " Hope this helps."); reflexivity.
Defined.

(** C6, as stated, fails twice. A response that decodes to a list is
    refused with a message that does not hold the raw response. And a
    fenced block with a remark behind the object is parsed, because the
    brace loop runs on the contents of the block too; had it run only on
    responses without a block, the decoder would have refused the text. *)
Lemma parse_profile_json_departs :
  _parse_profile_json Json.json_loads "[1, 2]"
  = raise (ValueError "MiniMax response was not a JSON object: list")
  /\ contains (take 500 "[1, 2]") "MiniMax response was not a JSON object: list"
     = false
  /\ _parse_profile_json Json.json_loads sample_fenced_remark
     = ret (profile_of [("stage", JStr "seed")])
  /\ Json.json_loads (json_text_as_specified sample_fenced_remark)
     = raise (JSONDecodeError "Extra data").
Proof. repeat split. Qed.

(** ** The extractor *)

(** C5, as amended. The extractor does not check [customer_type] and
    [stage]: on the short circuit both are null, and otherwise both are
    exactly what the object decoded from the answer of the model holds
    under the key (null when the key is absent). So each is one of the
    declared values exactly when the answer of the model has it so. *)
Theorem extract_company_profile_fields
    (json_loads : string -> result json) (w : World)
    (startup_description : string) (trace : list call) (p : CompanyProfile) :
  snd (extract_company_profile json_loads w startup_description trace) = ret p ->
  (strip startup_description = "" /\ p = empty_profile)
  \/ (exists response members,
        chat_completion_answer w SYSTEM_PROMPT (strip startup_description)
        = ret response
        /\ json_loads (json_text response) = ret (JObj members)
        /\ customer_type p = dict_get members "customer_type"
        /\ stage p = dict_get members "stage"
        /\ customer_type_declared (customer_type p)
           = customer_type_declared (dict_get members "customer_type")
        /\ stage_declared (stage p) = stage_declared (dict_get members "stage")).
Proof.
  unfold extract_company_profile.
  destruct (nonempty (strip startup_description)) eqn:Hs.
  - rewrite (strip_text_nonempty startup_description Hs). cbn [negb orb].
    unfold io_bind, chat_completion, lift. cbn [snd].
    destruct (chat_completion_answer w SYSTEM_PROMPT (strip startup_description))
      as [e | response] eqn:Hanswer; [discriminate|].
    cbn [snd]. intros Hparse. right.
    destruct (parse_profile_json_returns json_loads response p Hparse)
      as (members & Hloads & ->).
    exists response, members. repeat split; assumption.
  - rewrite orb_true_r. cbn [io_ret snd]. intros [= <-]. left.
    split; [|reflexivity]. now destruct (strip startup_description).
Qed.

Lemma extract_company_profile_fields_witness :
  exists response members,
    chat_completion_answer
      (world_of (ret sample_fenced) (raise (RequestException "unused")))
      SYSTEM_PROMPT (strip "We sell payroll software to small firms.")
    = ret response
    /\ Json.json_loads (json_text response) = ret (JObj members)
    /\ JStr "B2B" = dict_get members "customer_type"
    /\ JStr "seed" = dict_get members "stage"
    /\ customer_type_declared (JStr "B2B")
       = customer_type_declared (dict_get members "customer_type")
    /\ stage_declared (JStr "seed") = stage_declared (dict_get members "stage").
Proof.
  destruct (extract_company_profile_fields Json.json_loads
              (world_of (ret sample_fenced) (raise (RequestException "unused")))
              "We sell payroll software to small firms." []
              (profile_of [("business_model", JStr "SaaS");
                           ("customer_type", JStr "B2B");
                           ("stage", JStr "seed");
                           ("milestone", JNull);
                           ("mentioned_competitors",
                            JArr [JStr "Acme"; JStr ""; JStr "Globex"])])
              eq_refl) as [[Hblank _] | Hfields].
  - discriminate Hblank.
  - exact Hfields.
Defined.

(** C5, as stated, fails: the model answers with values outside the two
    enumerations, and the profile carries them. *)
Lemma extract_company_profile_undeclared :
  snd (extract_company_profile Json.json_loads
         (world_of (ret sample_undeclared) (raise (RequestException "unused")))
         "We sell software to city governments." [])
  = ret {| business_model := JStr "GovTech";
           customer_type := JStr "B2G";
           stage := JStr "series-a";
           milestone := JNull;
           mentioned_competitors := [] |}
  /\ customer_type_declared (JStr "B2G") = false
  /\ stage_declared (JStr "series-a") = false.
Proof. repeat split. Qed.

End CompanyFacts.

(* ================================================================== *)
(** * More about the financial metrics *)

Module FinanceMore.
Import Py Finance FinanceFacts.
Local Open Scope Q_scope.

(** ** The burn *)

(** X1. [calculate_burn] returns the mean of the expenses that are not
    blank on a frame that has a row and the three columns and no text
    among the expenses; with a text among them it raises the [TypeError]
    of [Series.mean]; on every other frame it raises a [ValueError]. *)
Theorem calculate_burn_outcome {F} {fl : Floating F}
    (mean_error : list (cell F) -> string) (df : DataFrame F) :
  ((0 < nrows df)%nat /\ has_required_columns df
   /\ exists values,
        numbers (column df "expenses") = Some values
        /\ calculate_burn mean_error df = ret (nanmean values))
  \/ ((0 < nrows df)%nat /\ has_required_columns df
      /\ numbers (column df "expenses") = None
      /\ calculate_burn mean_error df
         = raise (TypeError (mean_error (column df "expenses"))))
  \/ ((nrows df = 0%nat \/ ~ has_required_columns df)
      /\ exists msg, calculate_burn mean_error df = raise (ValueError msg)).
Proof.
  destruct (calculate_burn_steps mean_error df) as (Hempty & Hmissing & Hmean).
  destruct (empty df) eqn:E.
  - right. right. split; [left; now apply empty_no_rows | eauto].
  - destruct (missing_columns df) as [|c rest] eqn:Hm.
    + pose proof (nonempty_rows df E) as Hrows.
      pose proof (missing_columns_complete df Hm) as Hcols.
      rewrite (Hmean eq_refl eq_refl). unfold mean.
      destruct (numbers (column df "expenses")) as [values|] eqn:Hn.
      * left. split; [exact Hrows|]. split; [exact Hcols|]. now exists values.
      * right. left. auto.
    + right. right. split.
      * right. intros Hcols.
        rewrite (missing_columns_none df Hcols) in Hm. discriminate.
      * eexists. apply Hmissing; [reflexivity | discriminate].
Qed.

(** ** What can go wrong in the analysis *)

(** X2. On a frame of equal columns, and with a [float] that raises
    nothing but [ValueError], an analysis that fails raises
    [FileNotFoundError] when the file is not there, the [TypeError] of
    [Series.mean] when an expense is a text, and [ValueError] in every
    other case: never a [KeyError] or an [IndexError]. *)
Theorem analyze_financials_failures {F} {fl : Floating F}
    (mean_error : list (cell F) -> string)
    (float_of_text : string -> result F)
    (read_csv : string -> read_csv_outcome F) (csv_path : string) (e : exn) :
  (forall df, read_csv csv_path = ReadFrame df -> rectangular df) ->
  (forall s e', float_of_text s = raise e' -> exists msg, e' = ValueError msg) ->
  analyze_financials mean_error float_of_text read_csv csv_path = raise e ->
  (read_csv csv_path = ReadFileNotFound
   /\ e = FileNotFoundError ("CSV file not found: " ++ csv_path))
  \/ (read_csv csv_path <> ReadFileNotFound /\ exists msg, e = ValueError msg)
  \/ (exists df,
         read_csv csv_path = ReadFrame df
         /\ numbers (column df "expenses") = None
         /\ e = TypeError (mean_error (column df "expenses"))).
Proof.
  intros Hrect Hfloat.
  destruct (read_csv csv_path) as [ | | msg | df] eqn:Hread.
  - unfold analyze_financials. rewrite Hread. intros [= <-]. now left.
  - unfold analyze_financials. rewrite Hread. intros [= <-].
    right. left. split; [discriminate | eauto].
  - unfold analyze_financials. rewrite Hread. intros [= <-].
    right. left. split; [discriminate | eauto].
  - specialize (Hrect df eq_refl).
    destruct (empty df) eqn:Hempty.
    { unfold analyze_financials. rewrite Hread. cbn [bind ret]. rewrite Hempty.
      intros [= <-]. right. left. split; [discriminate | eauto]. }
    destruct (missing_columns df) as [|c missing] eqn:Hmiss.
    2:{ unfold analyze_financials. rewrite Hread. cbn [bind ret].
        rewrite Hempty, Hmiss. intros [= <-].
        right. left. split; [discriminate | eauto]. }
    destruct (analyze_financials_steps mean_error float_of_text read_csv
                csv_path df Hread (missing_columns_complete df Hmiss) Hrect
                (nonempty_rows df Hempty)) as (last & _ & ->).
    unfold mean.
    destruct (numbers (column df "expenses")) as [values|] eqn:Hn.
    2:{ intros [= <-]. right. right. now exists df. }
    cbn [bind ret]. intros H. right. left. split; [discriminate|]. revert H.
    destruct (to_float float_of_text last) as [e1 | cash] eqn:Hcash.
    { cbn [bind]. intros [= <-]. destruct last as [x | s]; [discriminate|].
      exact (Hfloat s e1 Hcash). }
    cbn [bind].
    destruct (calculate_runway cash (nanmean values)) as [e1 | r] eqn:Hr.
    { cbn [bind]. intros [= <-]. exact (calculate_runway_raises _ _ _ Hr). }
    cbn [bind].
    destruct (simulate_downside (nanmean values) (of_int 20)) as [e2 | d] eqn:Hd.
    { cbn [bind]. intros [= <-]. exact (simulate_downside_raises _ _ _ Hd). }
    cbn [bind].
    destruct (calculate_runway cash d) as [e3 | rd] eqn:Hrd.
    { cbn [bind]. intros [= <-]. exact (calculate_runway_raises _ _ _ Hrd). }
    discriminate.
Qed.

Lemma analyze_financials_failures_witness :
  analyze_financials
    (fun _ => "Could not convert string '1000n/a' to numeric") no_number
    (fun _ => ReadFrame text_expense_frame) "financials.csv"
  = raise (TypeError "Could not convert string '1000n/a' to numeric")
  /\ exists df,
       ReadFrame text_expense_frame = ReadFrame df
       /\ numbers (column df "expenses") = None
       /\ TypeError "Could not convert string '1000n/a' to numeric"
          = TypeError "Could not convert string '1000n/a' to numeric".
Proof.
  split; [reflexivity|].
  destruct (analyze_financials_failures
              (fun _ => "Could not convert string '1000n/a' to numeric")
              no_number
              (fun _ : string => ReadFrame text_expense_frame) "financials.csv"
              (TypeError "Could not convert string '1000n/a' to numeric"))
    as [[H _] | [[_ [msg H]] | H]].
  - intros df [= <-] name cells [[= <- <-] | [[= <- <-] | [[= <- <-] | []]]];
      reflexivity.
  - intros s e'. unfold no_number. intros [= <-]. eauto.
  - reflexivity.
  - discriminate H.
  - discriminate H.
  - exact H.
Defined.

(** ** The metrics of an analysis that returns *)

Lemma quotient_not_negative (cash b : xfloat) :
  xltb cash (Fin 0) = false -> xltb b (Fin 0) = false ->
  xltb (if xeqb b (Fin 0) then Fin 0 else xdiv cash b) (Fin 0) = false.
Proof.
  intros Hc Hb. apply not_negative in Hc, Hb.
  destruct b as [q | s | ].
  - cbn [xeqb]. destruct (Qeq_bool q 0) eqn:Ez; [reflexivity|].
    pose proof (positive_rational q Hb Ez) as Hq.
    rewrite (xdiv_positive cash q Hq).
    destruct cash as [c | s | ]; [|now subst s | reflexivity].
    apply not_negative. now apply quotient_nonnegative.
  - subst s. destruct cash as [c | s | ]; reflexivity.
  - destruct cash; reflexivity.
Qed.

Lemma stressed_at_least (b : xfloat) :
  xltb b (Fin 0) = false -> isnan b = false ->
  xleb b (xmul b (Fin (1 + 20 / 100))) = true.
Proof.
  intros Hb Hn. apply not_negative in Hb.
  destruct b as [q | s | ]; [| |discriminate].
  - cbn [xmul]. apply xleb_fin. rewrite stress_factor. lra.
  - subst s. reflexivity.
Qed.

(** X3. No metric of an analysis that returns is negative: each is a
    number that is not negative, or NaN; and a burn that is a number is at
    most the downside burn. *)
Theorem analyze_financials_nonnegative
    (mean_error : list (cell xfloat) -> string)
    (float_of_text : string -> result xfloat)
    (read_csv : string -> read_csv_outcome xfloat) (csv_path : string)
    (m : FinancialMetrics xfloat) :
  analyze_financials mean_error float_of_text read_csv csv_path = ret m ->
  ltb (burn m) (Fin 0) = false /\ ltb (runway m) (Fin 0) = false
  /\ ltb (downside_burn m) (Fin 0) = false
  /\ ltb (runway_at_downside m) (Fin 0) = false
  /\ (isnan (burn m) = false -> xleb (burn m) (downside_burn m) = true).
Proof.
  intros H.
  destruct (analyze_financials_returns mean_error float_of_text read_csv
              csv_path m H) as (cash & Hc & Hb & Hr & Hd & Hrd).
  destruct (stressed_sign (burn m) Hb) as [Hdn Hdz].
  cbn [ltb floating_number xfloat_floating xfloat_number].
  split; [exact Hb|]. split; [|split; [|split]].
  - rewrite Hr. now apply quotient_not_negative.
  - now rewrite Hd.
  - rewrite Hrd, <- Hdz, <- Hd. apply quotient_not_negative; [exact Hc|].
    now rewrite Hd.
  - intros Hn. rewrite Hd. now apply stressed_at_least.
Qed.

Lemma analyze_financials_nonnegative_witness :
  exists m,
    analyze_financials (fun _ => "") no_number
      (fun _ => ReadFrame blank_balance_frame) "financials.csv" = ret m
    /\ ltb (burn m) (Fin 0) = false /\ ltb (runway m) (Fin 0) = false
    /\ ltb (downside_burn m) (Fin 0) = false
    /\ ltb (runway_at_downside m) (Fin 0) = false
    /\ (isnan (burn m) = false -> xleb (burn m) (downside_burn m) = true).
Proof.
  eexists. split; [reflexivity|].
  apply (analyze_financials_nonnegative (fun _ => "") no_number
           (fun _ => ReadFrame blank_balance_frame) "financials.csv").
  reflexivity.
Defined.

(** ** When the analysis returns *)





(** ** Runway and stress as functions of their arguments *)

Lemma percent_factor (p : Q) : 0 <= p -> 1 <= 1 + p / 100.
Proof.
  intros Hp. setoid_replace (p / 100) with (p * (1 # 100)) by field. lra.
Qed.

(** X5. In exact rational arithmetic, that is with the rounding of
    binary64 left aside: for a positive burn the runway times the burn
    gives the balance back, and the runway grows with the balance and
    shrinks as the burn grows. *)
Theorem calculate_runway_monotone (c1 c2 b1 b2 r1 r2 : Q) :
  calculate_runway c1 b1 = ret r1 ->
  calculate_runway c2 b2 = ret r2 ->
  0 < b2 -> b2 <= b1 -> c1 <= c2 ->
  r1 * b1 == c1 /\ r2 * b2 == c2 /\ r1 <= r2.
Proof.
  intros H1 H2 Hb2 Hb Hc.
  apply calculate_runway_returns in H1, H2.
  destruct H1 as (Hc1 & _ & [[Hz _] | [Hb1 ->]]).
  { exfalso. rewrite Hz in Hb. exact (Qlt_not_le _ _ Hb2 Hb). }
  destruct H2 as (Hc2 & _ & [[Hz _] | [_ ->]]); [order_clash|].
  assert (N1 : ~ b1 == 0) by (intros E; rewrite E in Hb1; exact (Qlt_irrefl _ Hb1)).
  assert (N2 : ~ b2 == 0) by (intros E; rewrite E in Hb2; exact (Qlt_irrefl _ Hb2)).
  split; [now field|]. split; [now field|].
  apply Qle_shift_div_l; [exact Hb2|].
  setoid_replace (c1 / b1 * b2) with (b2 / b1 * c1) by (now field).
  apply Qle_trans with (y := c1); [|exact Hc].
  rewrite <- (Qmult_1_l c1) at 2.
  apply Qmult_le_compat_r; [|exact Hc1].
  apply Qle_shift_div_r; [exact Hb1|]. now rewrite Qmult_1_l.
Qed.

Lemma calculate_runway_monotone_witness :
  (10000 / 2000) * 2000 == 10000 /\ (12000 / 1000) * 1000 == 12000
  /\ 10000 / 2000 <= 12000 / 1000.
Proof.
  apply (calculate_runway_monotone 10000 12000 2000 1000);
    reflexivity || discriminate.
Defined.

(** X6. In exact rational arithmetic, that is with the rounding of
    binary64 left aside: a stress never lowers the burn, a larger burn or
    a larger percentage gives a larger stressed burn, and two stresses in
    a row give the same burn in either order. *)
Theorem simulate_downside_monotone (b1 b2 p1 p2 d1 d2 : Q) :
  simulate_downside b1 p1 = ret d1 ->
  simulate_downside b2 p2 = ret d2 ->
  b1 <= b2 -> p1 <= p2 ->
  b1 <= d1 /\ d1 <= d2
  /\ exists d12 d21,
       simulate_downside d1 p2 = ret d12
       /\ (x <- simulate_downside b1 p2 ;; simulate_downside x p1) = ret d21
       /\ d12 == d21.
Proof.
  intros H1 H2 Hb Hp.
  apply simulate_downside_returns in H1, H2.
  destruct H1 as (Hb1 & Hp1 & ->). destruct H2 as (Hb2 & Hp2 & ->).
  pose proof (percent_factor p1 Hp1) as Hf1.
  pose proof (percent_factor p2 Hp2) as Hf2.
  assert (Hf : 1 + p1 / 100 <= 1 + p2 / 100).
  { setoid_replace (p1 / 100) with (p1 * (1 # 100)) by field.
    setoid_replace (p2 / 100) with (p2 * (1 # 100)) by field. lra. }
  split; [|split].
  - rewrite <- (Qmult_1_r b1) at 1.
    rewrite (Qmult_comm b1 1), (Qmult_comm b1 (1 + p1 / 100)).
    now apply Qmult_le_compat_r.
  - apply Qle_trans with (y := b1 * (1 + p2 / 100)).
    + rewrite (Qmult_comm b1 (1 + p1 / 100)), (Qmult_comm b1 (1 + p2 / 100)).
      now apply Qmult_le_compat_r.
    + apply Qmult_le_compat_r; [exact Hb | lra].
  - assert (Hd1 : 0 <= b1 * (1 + p1 / 100))
      by (apply Qmult_le_0_compat; [exact Hb1 | lra]).
    assert (Hd2 : 0 <= b1 * (1 + p2 / 100))
      by (apply Qmult_le_0_compat; [exact Hb1 | lra]).
    exists (b1 * (1 + p1 / 100) * (1 + p2 / 100)),
           (b1 * (1 + p2 / 100) * (1 + p1 / 100)).
    split; [now apply simulate_downside_nonnegative|].
    split.
    + rewrite (simulate_downside_nonnegative b1 p2 Hb1 Hp2). cbn [bind ret].
      now apply simulate_downside_nonnegative.
    + field.
Qed.

Lemma simulate_downside_monotone_witness :
  1000 <= 1000 * (1 + 10 / 100)
  /\ 1000 * (1 + 10 / 100) <= 2000 * (1 + 20 / 100)
  /\ exists d12 d21,
       simulate_downside (1000 * (1 + 10 / 100)) 20 = ret d12
       /\ (x <- simulate_downside 1000 20 ;; simulate_downside x 10) = ret d21
       /\ d12 == d21.
Proof.
  apply (simulate_downside_monotone 1000 2000 10 20);
    reflexivity || discriminate.
Defined.

(** X7. In exact rational arithmetic, that is with the rounding of
    binary64 left aside: for a positive burn, the runway under a stress of
    [p] percent is the runway divided by [1 + p / 100], and so is at most
    the runway, whatever the percentage. *)
Theorem stressed_runway (cash burn p r d rd : Q) :
  0 < burn ->
  calculate_runway cash burn = ret r ->
  simulate_downside burn p = ret d ->
  calculate_runway cash d = ret rd ->
  rd == r / (1 + p / 100) /\ rd <= r.
Proof.
  intros Hpos Hr Hd Hrd.
  apply simulate_downside_returns in Hd. destruct Hd as (_ & Hp & ->).
  pose proof (percent_factor p Hp) as Hf.
  assert (Nf : ~ 1 + p / 100 == 0) by (intros E; rewrite E in Hf; discriminate Hf || lra).
  assert (Hdpos : 0 < burn * (1 + p / 100)).
  { apply Qlt_le_trans with (y := burn * 1); [now rewrite Qmult_1_r|].
    rewrite (Qmult_comm burn 1), (Qmult_comm burn (1 + p / 100)).
    apply Qmult_le_compat_r; [exact Hf | now apply Qlt_le_weak]. }
  apply calculate_runway_returns in Hr, Hrd.
  destruct Hr as (Hcash & _ & [[Hz _] | [_ ->]]); [order_clash|].
  destruct Hrd as (_ & _ & [[Hz _] | [_ ->]]); [order_clash|].
  assert (Nb : ~ burn == 0) by (intros E; order_clash).
  assert (Hrel : cash / (burn * (1 + p / 100)) == cash / burn / (1 + p / 100)).
  { field. split; [exact Nb|]. intros E. lra. }
  split; [exact Hrel|]. rewrite Hrel.
  apply Qle_shift_div_r; [lra|].
  rewrite <- (Qmult_1_r (cash / burn)) at 1.
  rewrite (Qmult_comm (cash / burn) 1), (Qmult_comm (cash / burn) (1 + p / 100)).
  apply Qmult_le_compat_r; [exact Hf | now apply quotient_nonnegative].
Qed.

Lemma stressed_runway_witness :
  10000 / (1000 * (1 + 50 / 100)) == 10000 / 1000 / (1 + 50 / 100)
  /\ 10000 / (1000 * (1 + 50 / 100)) <= 10000 / 1000.
Proof.
  apply (stressed_runway 10000 1000 50 (10000 / 1000) (1000 * (1 + 50 / 100))
           (10000 / (1000 * (1 + 50 / 100)))); reflexivity.
Defined.
End FinanceMore.

(* ================================================================== *)
(** * More about the profile and the competitor lookup *)

Module CompanyMore.
Import Py PyFacts TextFacts Company CompanyFacts.

(** ** The lookup and the outside world *)

(** X8. On keywords made of blanks only (none included) the lookup
    returns the empty list and sends nothing. *)
Theorem find_competitors_no_keywords
    (w : World) (business_model keywords : string) (trace : list call) :
  only_whitespace keywords = true ->
  find_competitors w business_model keywords trace = (trace, ret []).
Proof.
  intros H. apply find_competitors_blank.
  now rewrite (only_whitespace_strip keywords H).
Qed.

Lemma find_competitors_no_keywords_witness :
  find_competitors
    (world_of (raise (RuntimeError "unused"))
              (ret (registry_response 200 "OK" (ret (registry_body sample_companies)))))
    "SaaS" "  " []
  = ([], ret []).
Proof.
  apply find_competitors_no_keywords. reflexivity.
Defined.

(** X9. On keywords with a character that is not a blank, the lookup
    sends exactly one request, whatever comes back: a GET of the registry
    URL with the stripped keywords as [q] and a timeout of 10. It never
    calls the model, and the business model it is given changes nothing. *)
Theorem find_competitors_one_request
    (w : World) (business_model other_model keywords : string)
    (trace : list call) :
  nonempty (strip keywords) = true ->
  fst (find_competitors w business_model keywords trace)
  = (trace ++ [RequestsGet registry_url [("q", strip keywords)] 10])%list
  /\ find_competitors w business_model keywords trace
     = find_competitors w other_model keywords trace.
Proof.
  intros Hk. split; [|reflexivity].
  now rewrite (find_competitors_steps w business_model keywords trace Hk).
Qed.

Lemma find_competitors_one_request_witness :
  fst (find_competitors
         (world_of (raise (RuntimeError "unused"))
                   (raise (RequestException "Read timed out.")))
         "SaaS" " payroll software " [])
  = [RequestsGet registry_url [("q", "payroll software")] 10]
  /\ find_competitors
       (world_of (raise (RuntimeError "unused"))
                 (raise (RequestException "Read timed out.")))
       "SaaS" " payroll software " []
     = find_competitors
         (world_of (raise (RuntimeError "unused"))
                   (raise (RequestException "Read timed out.")))
         "marketplace" " payroll software " [].
Proof.
  apply (find_competitors_one_request
           (world_of (raise (RuntimeError "unused"))
                     (raise (RequestException "Read timed out.")))
           "SaaS" "marketplace" " payroll software " []).
  reflexivity.
Defined.

(** X10. A body that is JSON but not an object is not caught: with a
    status that [raise_for_status] lets through, the lookup raises the
    [AttributeError] of the missing [get]. *)
Theorem find_competitors_not_an_object
    (w : World) (business_model keywords : string) (trace : list call)
    (r : Response) (data : json) :
  nonempty (strip keywords) = true ->
  requests_get_answer w registry_url [("q", strip keywords)] 10 = ret r ->
  (status_code r < 400 \/ 600 <= status_code r)%Z ->
  json_body r = ret data ->
  (forall members, data <> JObj members) ->
  snd (find_competitors w business_model keywords trace)
  = raise (AttributeError ("'" ++ type_name data
                           ++ "' object has no attribute 'get'")).
Proof.
  intros Hk Hget Hstatus Hbody Hdata.
  rewrite (find_competitors_steps w business_model keywords trace Hk).
  cbn [snd]. rewrite Hget. cbn [ret].
  rewrite (raise_for_status_passes r Hstatus), Hbody. cbn [ret].
  destruct data; try reflexivity. now destruct (Hdata members).
Qed.

Lemma find_competitors_not_an_object_witness :
  snd (find_competitors
         (world_of (raise (RuntimeError "unused"))
                   (ret (registry_response 200 "OK" (ret (JArr [])))))
         "SaaS" "SaaS" [])
  = raise (AttributeError ("'" ++ type_name (JArr [])
                           ++ "' object has no attribute 'get'")).
Proof.
  apply (find_competitors_not_an_object
           (world_of (raise (RuntimeError "unused"))
                     (ret (registry_response 200 "OK" (ret (JArr [])))))
           "SaaS" "SaaS" [] (registry_response 200 "OK" (ret (JArr [])))).
  - reflexivity.
  - reflexivity.
  - left. reflexivity.
  - reflexivity.
  - discriminate.
Defined.

(** ** The extractor and the parser *)

(** X11. The extractor sees its text stripped: a description and the same
    description with blanks around it give the same call and the same
    result. *)
Theorem extract_company_profile_stripped
    (json_loads : string -> result json) (w : World)
    (startup_description : string) (trace : list call) :
  extract_company_profile json_loads w (strip startup_description) trace
  = extract_company_profile json_loads w startup_description trace.
Proof.
  unfold extract_company_profile. rewrite strip_idempotent.
  destruct (nonempty (strip startup_description)) eqn:Hs.
  - now rewrite (strip_text_nonempty startup_description Hs).
  - cbn [negb]. now rewrite !orb_true_r.
Qed.

(** X12. If the decoder raises nothing but [JSONDecodeError], the parser
    raises nothing but [ValueError]; and then the extractor raises
    nothing but [ValueError] and what the model call raises. *)
Theorem parse_profile_json_failures
    (json_loads : string -> result json) (w : World)
    (response startup_description : string) (trace : list call) (e : exn) :
  (forall text e', json_loads text = raise e' -> exists msg, e' = JSONDecodeError msg) ->
  (_parse_profile_json json_loads response = raise e ->
   exists msg, e = ValueError msg)
  /\ (snd (extract_company_profile json_loads w startup_description trace)
      = raise e ->
      (exists msg, e = ValueError msg)
      \/ chat_completion_answer w SYSTEM_PROMPT (strip startup_description)
         = raise e).
Proof.
  intros Hloads.
  assert (Hparse : forall r e0,
            _parse_profile_json json_loads r = raise e0 ->
            exists msg, e0 = ValueError msg).
  { intros r e0. unfold _parse_profile_json.
    destruct (json_loads (json_text r)) as [e' | data] eqn:Hl.
    - destruct (Hloads _ _ Hl) as [msg ->]. cbn [bind raise].
      intros [= <-]. eauto.
    - cbn [bind ret]. destruct data; try discriminate; intros [= <-]; eauto. }
  split; [apply Hparse|].
  unfold extract_company_profile.
  destruct (negb (nonempty startup_description)
            || negb (nonempty (strip startup_description))); [discriminate|].
  unfold io_bind, chat_completion, lift. cbn [snd].
  destruct (chat_completion_answer w SYSTEM_PROMPT (strip startup_description))
    as [e' | response'].
  - cbn [snd]. intros [= <-]. now right.
  - cbn [snd]. intros H. left. exact (Hparse _ _ H).
Qed.

(** Python's decoder fails with [JSONDecodeError] only; so does the one
    that decodes the examples. *)
Lemma json_loads_raises (text : string) (e : exn) :
  Json.json_loads text = raise e -> exists msg, e = JSONDecodeError msg.
Proof.
  unfold Json.json_loads.
  destruct (Json.parse_value _ _) as [[v rest]|].
  - destruct (Json.skip_blanks rest); [discriminate|]. intros [= <-]. eauto.
  - destruct text as [|c r]; [intros [= <-]; eauto|].
    destruct (_ || _); intros [= <-]; eauto.
Qed.

Lemma parse_profile_json_failures_witness :
  exists msg,
    _parse_profile_json Json.json_loads "Sorry, I cannot help."
    = raise (ValueError msg).
Proof.
  destruct (_parse_profile_json Json.json_loads "Sorry, I cannot help.")
    as [e | profile] eqn:H; [|discriminate H].
  destruct (proj1 (parse_profile_json_failures Json.json_loads
                     (world_of (ret sample_object) (raise (RequestException "")))
                     "Sorry, I cannot help." "" [] e json_loads_raises) H)
    as [msg ->].
  now exists msg.
Defined.

End CompanyMore.

(* ================================================================== *)
(** * Facts about the MiniMax helper *)

Module MinimaxFacts.
Import Py PyFacts Minimax.

(** ** The path to the content *)

Lemma content_path_found (body content : json) :
  content_of body = Some content -> content_path body = ret content.
Proof.
  unfold content_of, content_path.
  destruct body as [ | | | | | |members]; try discriminate.
  cbn [subscript_key].
  destruct (lookup "choices" members) as [[ | | | | |items| ]|]; try discriminate.
  destruct items as [|[ | | | | | |first] rest]; try discriminate.
  cbn [bind ret subscript_first subscript_key].
  destruct (lookup "message" first) as [[ | | | | | |message]|]; try discriminate.
  cbn [bind ret subscript_key]. now intros ->.
Qed.

Lemma content_path_missing (body : json) :
  content_of body = None ->
  exists e, content_path body = raise e /\ structure_error e = true.
Proof.
  unfold content_of, content_path.
  destruct body as [ | | | | | |members];
    try (intros _; eexists; split; reflexivity).
  cbn [subscript_key].
  destruct (lookup "choices" members) as [choices|];
    [|intros _; eexists; split; reflexivity].
  cbn [bind ret].
  destruct choices as [ | | | |s|items| ];
    try (intros _; eexists; split; reflexivity).
  - intros _. destruct s as [|c r]; eexists; split; reflexivity.
  - destruct items as [|first rest];
      [intros _; eexists; split; reflexivity|].
    cbn [bind ret subscript_first].
    destruct first as [ | | | | | |fields];
      try (intros _; eexists; split; reflexivity).
    cbn [subscript_key].
    destruct (lookup "message" fields) as [message|];
      [|intros _; eexists; split; reflexivity].
    cbn [bind ret].
    destruct message as [ | | | | | |inner];
      try (intros _; eexists; split; reflexivity).
    cbn [subscript_key]. intros ->. eexists; split; reflexivity.
Qed.

(** ** The steps of a call *)

Lemma unset_value (v : option string) :
  unset v = false -> exists s, v = Some s /\ nonempty s = true.
Proof.
  destruct v as [s|]; [|discriminate]. cbn [unset].
  destruct (nonempty s) eqn:Hs; [eauto | discriminate].
Qed.

Lemma chat_completion_steps (env : Env) (requests_post : Post -> post_outcome)
    (api_key group_id system_prompt user_prompt : string)
    (model : option string) (sent : list Post) :
  env "MINIMAX_API_KEY" = Some api_key -> nonempty api_key = true ->
  env "MINIMAX_GROUP_ID" = Some group_id -> nonempty group_id = true ->
  chat_completion env requests_post system_prompt user_prompt model sent
  = ((sent ++ [request_for api_key group_id system_prompt user_prompt model])%list,
     outcome_of (requests_post
                   (request_for api_key group_id system_prompt user_prompt model))).
Proof.
  intros Hkey Hk Hgroup Hg. unfold chat_completion, _build_api_url.
  rewrite Hkey, Hk, Hgroup, Hg. cbn [negb].
  unfold net_bind, net_lift, net_ret, ret. cbv zeta.
  fold (request_for api_key group_id system_prompt user_prompt model).
  set (request := request_for api_key group_id system_prompt user_prompt model).
  f_equal.
  destruct (requests_post request) as [r | shown attached]; cbn [outcome_of].
  - destruct (http_error r) as [shown|]; [reflexivity|].
    destruct (json_body r) as [e | body]; [reflexivity|].
    destruct (content_of body) as [content|] eqn:Hc.
    + rewrite (content_path_found body content Hc).
      now destruct content.
    + destruct (content_path_missing body Hc) as (e & -> & He).
      now destruct e.
  - now destruct attached.
Qed.

Lemma http_error_none (r : Reply) :
  http_error r = None <-> (status_code r < 400 \/ 600 <= status_code r)%Z.
Proof.
  unfold http_error.
  destruct (400 <=? status_code r)%Z eqn:H4; destruct (status_code r <? 500)%Z eqn:H5;
    destruct (500 <=? status_code r)%Z eqn:H6; destruct (status_code r <? 600)%Z eqn:H7;
    cbn [andb]; split; intros H; try discriminate; try reflexivity; lia.
Qed.

Lemma http_error_some (r : Reply) :
  (400 <= status_code r < 600)%Z -> exists shown, http_error r = Some shown.
Proof.
  intros H. destruct (http_error r) as [shown|] eqn:E; [eauto|].
  apply http_error_none in E. lia.
Qed.

Lemma outcome_of_returns (o : post_outcome) (answer : string) :
  outcome_of o = ret answer ->
  exists r body content,
    o = Replied r /\ http_error r = None /\ json_body r = ret body
    /\ content_of body = Some (JStr content) /\ answer = strip content.
Proof.
  destruct o as [r | shown [attached|]]; try discriminate. cbn [outcome_of].
  destruct (http_error r) as [shown|] eqn:Hh; [discriminate|].
  destruct (json_body r) as [e | body] eqn:Hb; [discriminate|].
  destruct (content_of body) as [[ | | | |s| | ]|] eqn:Hc; try discriminate.
  intros [= <-]. now exists r, body, s.
Qed.

(** ** Credentials *)

Lemma credentials_checked
    (env : Env) (requests_post : Post -> post_outcome)
    (system_prompt user_prompt : string) (model : option string)
    (sent : list Post) :
  unset (env "MINIMAX_API_KEY") = true \/ unset (env "MINIMAX_GROUP_ID") = true ->
  chat_completion env requests_post system_prompt user_prompt model sent
  = (sent,
     raise (ValueError
              ((if unset (env "MINIMAX_API_KEY") then "MINIMAX_API_KEY"
                else "MINIMAX_GROUP_ID")
               ++ " is not set. Add it to your .env file."))).
Proof.
  intros H. unfold chat_completion, _build_api_url.
  destruct (env "MINIMAX_API_KEY") as [api_key|]; [|reflexivity].
  cbn [unset] in *. destruct (nonempty api_key); [|reflexivity].
  cbn [negb] in *. destruct H as [H | H]; [discriminate|].
  destruct (env "MINIMAX_GROUP_ID") as [group_id|]; [|reflexivity].
  cbn [unset] in H. destruct (nonempty group_id); [discriminate | reflexivity].
Qed.

(** X13. Without an API key, or with a key but without a group id (unset
    or empty), a call sends nothing and raises a [ValueError] that names
    the variable: the key when it is missing, the group id only when the key
    is there. *)
Theorem chat_completion_credentials
    (env : Env) (requests_post : Post -> post_outcome)
    (system_prompt user_prompt : string) (model : option string)
    (sent : list Post) :
  unset (env "MINIMAX_API_KEY") = true \/ unset (env "MINIMAX_GROUP_ID") = true ->
  exists variable,
    chat_completion env requests_post system_prompt user_prompt model sent
    = (sent, raise (ValueError (variable ++ " is not set. Add it to your .env file.")))
    /\ unset (env variable) = true
    /\ (variable = "MINIMAX_API_KEY"
        \/ (variable = "MINIMAX_GROUP_ID" /\ unset (env "MINIMAX_API_KEY") = false)).
Proof.
  intros H.
  rewrite (credentials_checked env requests_post system_prompt user_prompt
             model sent H).
  destruct (unset (env "MINIMAX_API_KEY")) eqn:Uk.
  - exists "MINIMAX_API_KEY". split; [reflexivity|]. split; [exact Uk | now left].
  - destruct H as [H | H]; [discriminate|].
    exists "MINIMAX_GROUP_ID". split; [reflexivity|]. split; [exact H | now right].
Qed.

Lemma chat_completion_credentials_witness :
  exists variable,
    chat_completion (env_of (Some "secret") (Some ""))
      (fun _ => Failed "unreachable" None) "system" "user" None []
    = ([], raise (ValueError (variable ++ " is not set. Add it to your .env file.")))
    /\ unset (env_of (Some "secret") (Some "") variable) = true
    /\ (variable = "MINIMAX_API_KEY"
        \/ (variable = "MINIMAX_GROUP_ID"
            /\ unset (env_of (Some "secret") (Some "") "MINIMAX_API_KEY") = false)).
Proof.
  apply (chat_completion_credentials (env_of (Some "secret") (Some ""))
           (fun _ => Failed "unreachable" None) "system" "user" None []).
  right. reflexivity.
Defined.

(** ** The request *)

(** X14. With both credentials a call sends one request, whatever comes
    back: to the base URL with the stripped group id, with the stripped key
    as bearer token, a timeout of 60, and the default model when none or an
    empty one is given. *)
Theorem chat_completion_one_post
    (env : Env) (requests_post : Post -> post_outcome)
    (api_key group_id system_prompt user_prompt : string)
    (model : option string) (sent : list Post) :
  env "MINIMAX_API_KEY" = Some api_key -> nonempty api_key = true ->
  env "MINIMAX_GROUP_ID" = Some group_id -> nonempty group_id = true ->
  exists request,
    fst (chat_completion env requests_post system_prompt user_prompt model sent)
    = (sent ++ [request])%list
    /\ post_url request = MINIMAX_BASE_URL ++ "?GroupId=" ++ strip group_id
    /\ headers request = [("Authorization", "Bearer " ++ strip api_key);
                           ("Content-Type", "application/json")]
    /\ timeout request = 60%Z
    /\ get (payload request) "model"
       = ret (JStr (match model with
                    | Some name => if nonempty name then name else "MiniMax-M2"
                    | None => "MiniMax-M2"
                    end))
    /\ get (payload request) "messages"
       = ret (JArr [JObj [("role", JStr "system"); ("content", JStr system_prompt)];
                    JObj [("role", JStr "user"); ("content", JStr user_prompt)]]).
Proof.
  intros Hkey Hk Hgroup Hg.
  rewrite (chat_completion_steps env requests_post api_key group_id
             system_prompt user_prompt model sent Hkey Hk Hgroup Hg).
  eexists. split; [reflexivity|].
  repeat split.
Qed.

Lemma chat_completion_one_post_witness :
  exists request,
    fst (chat_completion (env_of (Some " secret ") (Some " g1 "))
           (fun _ => Failed "timed out" None) "system" "user" (Some "") [])
    = [request]
    /\ post_url request = MINIMAX_BASE_URL ++ "?GroupId=" ++ "g1"
    /\ headers request = [("Authorization", "Bearer " ++ "secret");
                           ("Content-Type", "application/json")]
    /\ timeout request = 60%Z
    /\ get (payload request) "model" = ret (JStr "MiniMax-M2")
    /\ get (payload request) "messages"
       = ret (JArr [JObj [("role", JStr "system"); ("content", JStr "system")];
                    JObj [("role", JStr "user"); ("content", JStr "user")]]).
Proof.
  apply (chat_completion_one_post (env_of (Some " secret ") (Some " g1 "))
           (fun _ => Failed "timed out" None) " secret " " g1 "
           "system" "user" (Some "") []); reflexivity.
Defined.

(** X15. A key or a group id made of blanks only is not empty, so it
    passes for set: the request goes out, with nothing after [GroupId=] or
    with nothing after [Bearer]. *)
Theorem chat_completion_blank_credentials
    (env : Env) (requests_post : Post -> post_outcome)
    (api_key group_id system_prompt user_prompt : string)
    (model : option string) (sent : list Post) :
  env "MINIMAX_API_KEY" = Some api_key -> nonempty api_key = true ->
  env "MINIMAX_GROUP_ID" = Some group_id -> nonempty group_id = true ->
  exists request,
    fst (chat_completion env requests_post system_prompt user_prompt model sent)
    = (sent ++ [request])%list
    /\ (Company.only_whitespace group_id = true ->
        post_url request = MINIMAX_BASE_URL ++ "?GroupId=")
    /\ (Company.only_whitespace api_key = true ->
        headers request = [("Authorization", "Bearer ");
                           ("Content-Type", "application/json")]).
Proof.
  intros Hkey Hk Hgroup Hg.
  rewrite (chat_completion_steps env requests_post api_key group_id
             system_prompt user_prompt model sent Hkey Hk Hgroup Hg).
  eexists. split; [reflexivity|].
  cbn [request_for post_url headers]. split; intros H.
  - now rewrite (CompanyFacts.only_whitespace_strip group_id H).
  - now rewrite (CompanyFacts.only_whitespace_strip api_key H).
Qed.

Lemma chat_completion_blank_credentials_witness :
  exists request,
    fst (chat_completion (env_of (Some "  ") (Some " "))
           (fun _ => Failed "timed out" None) "system" "user" None [])
    = [request]
    /\ post_url request = MINIMAX_BASE_URL ++ "?GroupId="
    /\ headers request = [("Authorization", "Bearer ");
                          ("Content-Type", "application/json")].
Proof.
  destruct (chat_completion_blank_credentials (env_of (Some "  ") (Some " "))
              (fun _ => Failed "timed out" None) "  " " "
              "system" "user" None [] eq_refl eq_refl eq_refl eq_refl)
    as (request & Hsent & Hurl & Hheaders).
  exists request. split; [exact Hsent|].
  split; [apply Hurl | apply Hheaders]; reflexivity.
Defined.

(** ** Answers *)

(** X16. A call returns an answer exactly when both credentials are set,
    the endpoint replies with a status outside 400..599, the body decodes,
    and the body holds a string at [choices[0].message.content]; the answer
    is that string stripped, and stripping it again changes nothing. *)
Theorem chat_completion_returns
    (env : Env) (requests_post : Post -> post_outcome)
    (system_prompt user_prompt : string) (model : option string)
    (sent sent' : list Post) (answer : string) :
  (chat_completion env requests_post system_prompt user_prompt model sent
   = (sent', ret answer)
   <-> exists api_key group_id r body content,
         env "MINIMAX_API_KEY" = Some api_key /\ nonempty api_key = true
         /\ env "MINIMAX_GROUP_ID" = Some group_id /\ nonempty group_id = true
         /\ sent' = (sent ++ [request_for api_key group_id system_prompt
                                user_prompt model])%list
         /\ requests_post (request_for api_key group_id system_prompt
                             user_prompt model) = Replied r
         /\ (status_code r < 400 \/ 600 <= status_code r)%Z
         /\ json_body r = ret body
         /\ content_of body = Some (JStr content)
         /\ answer = strip content)
  /\ (chat_completion env requests_post system_prompt user_prompt model sent
      = (sent', ret answer) -> strip answer = answer).
Proof.
  assert (Honly : chat_completion env requests_post system_prompt user_prompt
                    model sent = (sent', ret answer) ->
                  exists api_key group_id r body content,
                    env "MINIMAX_API_KEY" = Some api_key /\ nonempty api_key = true
                    /\ env "MINIMAX_GROUP_ID" = Some group_id
                    /\ nonempty group_id = true
                    /\ sent' = (sent ++ [request_for api_key group_id system_prompt
                                           user_prompt model])%list
                    /\ requests_post (request_for api_key group_id system_prompt
                                        user_prompt model) = Replied r
                    /\ (status_code r < 400 \/ 600 <= status_code r)%Z
                    /\ json_body r = ret body
                    /\ content_of body = Some (JStr content)
                    /\ answer = strip content).
  { intros H.
    destruct (unset (env "MINIMAX_API_KEY")) eqn:Uk.
    { rewrite (credentials_checked env requests_post system_prompt
                 user_prompt model sent (or_introl Uk)) in H. discriminate H. }
    destruct (unset (env "MINIMAX_GROUP_ID")) eqn:Ug.
    { rewrite (credentials_checked env requests_post system_prompt
                 user_prompt model sent (or_intror Ug)) in H. discriminate H. }
    destruct (unset_value _ Uk) as (api_key & Hkey & Hk).
    destruct (unset_value _ Ug) as (group_id & Hgroup & Hg).
    rewrite (chat_completion_steps env requests_post api_key group_id
               system_prompt user_prompt model sent Hkey Hk Hgroup Hg) in H.
    injection H as Hsent Hout.
    destruct (outcome_of_returns _ _ Hout) as (r & body & content & Hr & Hh & Hb & Hc & Ha).
    exists api_key, group_id, r, body, content.
    repeat (split; [assumption || (symmetry; assumption) || idtac|]);
      [now apply http_error_none | assumption]. }
  split; [split; [exact Honly|] |].
  - intros (api_key & group_id & r & body & content
            & Hkey & Hk & Hgroup & Hg & -> & Hr & Hs & Hb & Hc & ->).
    rewrite (chat_completion_steps env requests_post api_key group_id
               system_prompt user_prompt model sent Hkey Hk Hgroup Hg).
    rewrite Hr. cbn [outcome_of].
    rewrite (proj2 (http_error_none r) Hs), Hb. unfold ret at 1.
    now rewrite Hc.
  - intros H. destruct (Honly H) as (k & g & r & body & content & H').
    destruct H' as (_ & _ & _ & _ & _ & _ & _ & _ & _ & ->).
    apply strip_idempotent.
Qed.


Lemma chat_completion_returns_witness :
  chat_completion (env_of (Some "secret") (Some "g1"))
    (fun _ => Replied (reply_of 200 "OK" "" (ret (completion_body (JStr " Hello. ")))))
    "system" "user" None []
  = ([request_for "secret" "g1" "system" "user" None], ret "Hello.")
  /\ strip "Hello." = "Hello.".
Proof.
  split; [reflexivity|].
  apply (proj2 (chat_completion_returns (env_of (Some "secret") (Some "g1"))
                  (fun _ => Replied (reply_of 200 "OK" ""
                                       (ret (completion_body (JStr " Hello. ")))))
                  "system" "user" None []
                  [request_for "secret" "g1" "system" "user" None] "Hello.")).
  reflexivity.
Defined.

(** ** Bodies of another shape *)

(** X17. With both credentials, a reply of a status outside 400..599 and a
    body that decodes: a body without [choices[0].message.content] raises
    the [RuntimeError] of the unexpected structure, a content that is
    [null] the one of the missing content, and a content that is neither
    [null] nor a string escapes as the [AttributeError] of [strip]. *)
Theorem chat_completion_structure
    (env : Env) (requests_post : Post -> post_outcome)
    (api_key group_id system_prompt user_prompt : string)
    (model : option string) (sent : list Post) (r : Reply) (body : json) :
  env "MINIMAX_API_KEY" = Some api_key -> nonempty api_key = true ->
  env "MINIMAX_GROUP_ID" = Some group_id -> nonempty group_id = true ->
  requests_post (request_for api_key group_id system_prompt user_prompt model)
  = Replied r ->
  (status_code r < 400 \/ 600 <= status_code r)%Z ->
  json_body r = ret body ->
  snd (chat_completion env requests_post system_prompt user_prompt model sent)
  = match content_of body with
    | None =>
        raise (RuntimeError "MiniMax API returned unexpected response structure.")
    | Some content =>
        match content with
        | JNull => raise (RuntimeError "MiniMax API response missing message content.")
        | JStr s => ret (strip s)
        | _ => raise (AttributeError ("'" ++ type_name content
                                      ++ "' object has no attribute 'strip'"))
        end
    end.
Proof.
  intros Hkey Hk Hgroup Hg Hr Hs Hb.
  rewrite (chat_completion_steps env requests_post api_key group_id
             system_prompt user_prompt model sent Hkey Hk Hgroup Hg).
  cbn [snd]. rewrite Hr. cbn [outcome_of].
  rewrite (proj2 (http_error_none r) Hs), Hb. unfold ret at 1.
  destruct (content_of body) as [[ | | | | | | ]|]; reflexivity.
Qed.

Lemma chat_completion_structure_witness :
  snd (chat_completion (env_of (Some "secret") (Some "g1"))
         (fun _ => Replied (reply_of 200 "OK" "" (ret (JObj [("choices", JArr [])]))))
         "system" "user" None [])
  = raise (RuntimeError "MiniMax API returned unexpected response structure.").
Proof.
  apply (chat_completion_structure (env_of (Some "secret") (Some "g1"))
           (fun _ => Replied (reply_of 200 "OK" "" (ret (JObj [("choices", JArr [])]))))
           "secret" "g1" "system" "user" None []
           (reply_of 200 "OK" "" (ret (JObj [("choices", JArr [])])))
           (JObj [("choices", JArr [])]));
    try reflexivity.
  left. reflexivity.
Defined.

(** ** Requests that fail *)

Lemma error_message_cases (r : Reply) (shown : string) :
  (forall members fields v,
      json_body r = ret (JObj members) ->
      lookup "error" members = Some (JObj fields) ->
      lookup "message" fields = Some v ->
      error_message r shown = str v)
  /\ (forall members,
         json_body r = ret (JObj members) ->
         lookup "error" members = None \/
         (exists fields, lookup "error" members = Some (JObj fields)
                         /\ lookup "message" fields = None) ->
         error_message r shown = shown)
  /\ (forall e, json_body r = raise e ->
                error_message r shown
                = if nonempty (text r) then text r else shown).
Proof.
  unfold error_message. split; [|split].
  - intros members fields v ->. cbn [bind ret get_default].
    intros ->. cbn [bind ret get_default]. now intros ->.
  - intros members ->. cbn [bind ret get_default].
    intros [-> | (fields & -> & Hm)]; cbn [bind ret get_default lookup].
    + reflexivity.
    + now rewrite Hm.
  - now intros e ->.
Qed.

(** X18. With both credentials, when the endpoint replies with a status
    from 400 to 599 the call raises [RuntimeError] with the text
    [MiniMax API error: ] and then: the [message] of the [error] object of
    the body when there is one; the status line of the HTTP error when the
    body is an object without [error], or with an [error] object without
    [message]; and when the body does not decode, the text of the
    response, or the status line when the text is empty. When the request
    fails without any response, the [RuntimeError] says
    [MiniMax API request failed: ] and the failure. *)
Theorem chat_completion_request_failure
    (env : Env) (requests_post : Post -> post_outcome)
    (api_key group_id system_prompt user_prompt : string)
    (model : option string) (sent : list Post) :
  env "MINIMAX_API_KEY" = Some api_key -> nonempty api_key = true ->
  env "MINIMAX_GROUP_ID" = Some group_id -> nonempty group_id = true ->
  let request := request_for api_key group_id system_prompt user_prompt model in
  let outcome :=
    snd (chat_completion env requests_post system_prompt user_prompt model sent) in
  (forall shown, requests_post request = Failed shown None ->
                 outcome = raise (RuntimeError ("MiniMax API request failed: " ++ shown)))
  /\ (forall r, requests_post request = Replied r ->
        (400 <= status_code r < 600)%Z ->
        exists shown,
          http_error r = Some shown
          /\ outcome = raise (RuntimeError ("MiniMax API error: "
                                            ++ error_message r shown))
          /\ (forall members fields v,
                 json_body r = ret (JObj members) ->
                 lookup "error" members = Some (JObj fields) ->
                 lookup "message" fields = Some v ->
                 error_message r shown = str v)
          /\ (forall members,
                 json_body r = ret (JObj members) ->
                 lookup "error" members = None \/
                 (exists fields, lookup "error" members = Some (JObj fields)
                                 /\ lookup "message" fields = None) ->
                 error_message r shown = shown)
          /\ (forall e, json_body r = raise e ->
                        error_message r shown
                        = if nonempty (text r) then text r else shown)).
Proof.
  intros Hkey Hk Hgroup Hg request outcome. subst request outcome.
  rewrite (chat_completion_steps env requests_post api_key group_id
             system_prompt user_prompt model sent Hkey Hk Hgroup Hg).
  cbn [snd]. split.
  - now intros shown ->.
  - intros r -> Hs. destruct (http_error_some r Hs) as [shown Hh].
    exists shown. split; [exact Hh|]. cbn [outcome_of]. rewrite Hh.
    split; [reflexivity | apply error_message_cases].
Qed.

Lemma chat_completion_request_failure_witness :
  snd (chat_completion (env_of (Some "secret") (Some "g1"))
         (fun _ => Failed "Connection refused" None) "system" "user" None [])
  = raise (RuntimeError "MiniMax API request failed: Connection refused").
Proof.
  apply (proj1 (chat_completion_request_failure
                  (env_of (Some "secret") (Some "g1"))
                  (fun _ => Failed "Connection refused" None)
                  "secret" "g1" "system" "user" None []
                  eq_refl eq_refl eq_refl eq_refl) "Connection refused").
  reflexivity.
Defined.

(** ** What a call can raise *)

(** X19. A call that fails raises a [ValueError] for a credential that is
    not set, a [RuntimeError], the exception of [response.json()] on a
    reply that passed the status check, or the [AttributeError] of [strip]
    on a content that is no string. *)
Theorem chat_completion_raises
    (env : Env) (requests_post : Post -> post_outcome)
    (system_prompt user_prompt : string) (model : option string)
    (sent : list Post) (e : exn) :
  snd (chat_completion env requests_post system_prompt user_prompt model sent)
  = raise e ->
  ((unset (env "MINIMAX_API_KEY") = true \/ unset (env "MINIMAX_GROUP_ID") = true)
   /\ exists msg, e = ValueError msg)
  \/ (exists msg, e = RuntimeError msg)
  \/ (exists request r,
         requests_post request = Replied r /\ http_error r = None
         /\ json_body r = raise e)
  \/ (exists request r body content,
         requests_post request = Replied r /\ json_body r = ret body
         /\ content_of body = Some content
         /\ e = AttributeError ("'" ++ type_name content
                                ++ "' object has no attribute 'strip'")).
Proof.
  destruct (unset (env "MINIMAX_API_KEY")) eqn:Uk.
  { rewrite (credentials_checked env requests_post system_prompt
               user_prompt model sent (or_introl Uk)).
    intros [= <-]. left. split; [now left | eauto]. }
  destruct (unset (env "MINIMAX_GROUP_ID")) eqn:Ug.
  { rewrite (credentials_checked env requests_post system_prompt
               user_prompt model sent (or_intror Ug)).
    intros [= <-]. left. split; [now right | eauto]. }
  destruct (unset_value _ Uk) as (api_key & Hkey & Hk).
  destruct (unset_value _ Ug) as (group_id & Hgroup & Hg).
  rewrite (chat_completion_steps env requests_post api_key group_id
             system_prompt user_prompt model sent Hkey Hk Hgroup Hg).
  cbn [snd].
  destruct (requests_post _) as [r | shown attached] eqn:Hr; cbn [outcome_of].
  - destruct (http_error r) as [shown|] eqn:Hh.
    { intros [= <-]. right. left. eauto. }
    destruct (json_body r) as [e' | body] eqn:Hb.
    { intros [= <-]. right. right. left. eauto. }
    destruct (content_of body) as [content|] eqn:Hc.
    + destruct content; try discriminate; intros [= <-];
        try (right; left; eauto; fail);
        right; right; right; eexists _, r, body, _;
        (split; [exact Hr|]); (split; [exact Hb|]); (split; [exact Hc|]);
        reflexivity.
    + intros [= <-]. right. left. eauto.
  - destruct attached; intros [= <-]; right; left; eauto.
Qed.

Lemma chat_completion_raises_witness :
  exists (request : Post) r body content,
    (fun _ : Post =>
       Replied (reply_of 200 "OK" "" (ret (completion_body (JInt 3)))))
      request = Replied r
    /\ json_body r = ret body
    /\ content_of body = Some content
    /\ AttributeError "'int' object has no attribute 'strip'"
       = AttributeError ("'" ++ type_name content
                         ++ "' object has no attribute 'strip'").
Proof.
  destruct (chat_completion_raises (env_of (Some "secret") (Some "g1"))
              (fun _ => Replied (reply_of 200 "OK" ""
                                   (ret (completion_body (JInt 3)))))
              "system" "user" None []
              (AttributeError "'int' object has no attribute 'strip'") eq_refl)
    as [[Hu [msg H]] | [[msg H] | [(request & r & Hr & Hh & H) | H]]].
  - discriminate H.
  - discriminate H.
  - cbv beta in Hr. injection Hr as <-. discriminate H.
  - exact H.
Defined.

(** ** The profile extractor on this endpoint *)

(** X20. With the company module on this endpoint and no API key, the
    extractor raises the [ValueError] of the missing key on a description
    that has a character which is not a blank, and still returns the empty
    profile on any other description: that one needs no key. *)
Theorem extract_company_profile_credentials
    (json_loads : string -> result json)
    (env : Env) (requests_post : Post -> post_outcome)
    (requests_get : string -> list (string * string) -> Z
                    -> result Company.Response)
    (startup_description : string) (trace : list Company.call) :
  unset (env "MINIMAX_API_KEY") = true ->
  snd (Company.extract_company_profile json_loads
         (minimax_world env requests_post requests_get)
         startup_description trace)
  = if nonempty (strip startup_description)
    then raise (ValueError "MINIMAX_API_KEY is not set. Add it to your .env file.")
    else ret Company.empty_profile.
Proof.
  intros Uk. unfold Company.extract_company_profile.
  destruct (nonempty (strip startup_description)) eqn:Hs.
  - rewrite (CompanyFacts.strip_text_nonempty startup_description Hs).
    cbn [negb orb].
    unfold Company.io_bind, Company.chat_completion, Company.lift, minimax_world.
    cbn [Company.chat_completion_answer].
    rewrite (credentials_checked env requests_post Company.SYSTEM_PROMPT
               (strip startup_description) None [] (or_introl Uk)).
    rewrite Uk. reflexivity.
  - cbn [negb]. rewrite orb_true_r. reflexivity.
Qed.

Lemma extract_company_profile_credentials_witness :
  snd (Company.extract_company_profile Json.json_loads
         (minimax_world (env_of None (Some "g1"))
            (fun _ => Failed "unreachable" None)
            (fun _ _ _ => raise (RequestException "unreachable")))
         "We sell shoes." [])
  = raise (ValueError "MINIMAX_API_KEY is not set. Add it to your .env file.").
Proof.
  apply (extract_company_profile_credentials Json.json_loads
           (env_of None (Some "g1")) (fun _ => Failed "unreachable" None)
           (fun _ _ _ => raise (RequestException "unreachable"))
           "We sell shoes." []).
  reflexivity.
Defined.

End MinimaxFacts.

(* ================================================================== *)
(** * Facts about the memo *)

Module MemoFacts.
Import Py PyFacts Minimax MinimaxFacts Memo.

(** ** The lines of the prompt *)

Lemma append_benchmarks_map (items : dict) (lines : list string) :
  append_benchmarks items lines = (lines ++ map benchmark_line items)%list.
Proof.
  revert lines. induction items as [|[key values] rest IH]; intros lines.
  - cbn [append_benchmarks map]. now rewrite app_nil_r.
  - cbn [append_benchmarks map].
    destruct (is_dict values); rewrite IH, <- app_assoc; reflexivity.
Qed.

Lemma get_or_lookup (d1 d2 : dict) (key : string) (default : json) :
  lookup key d1 = lookup key d2 -> get_or d1 key default = get_or d2 key default.
Proof. unfold get_or. now intros ->. Qed.

(** X21. The prompt is made of the fourteen opening lines, which depend
    on the profile and the metrics only, then one line per benchmark, in
    the order of the items and of the same form whether the value is a dict
    or not, then the nine closing lines, which depend on nothing. *)
Theorem format_user_prompt_lines (en_dash : string)
    (company_profile financial_metrics benchmark_data : dict) :
  prompt_lines en_dash company_profile financial_metrics benchmark_data
  = (firstn 14 (prompt_lines en_dash company_profile financial_metrics [])
     ++ map benchmark_line benchmark_data
     ++ skipn 14 (prompt_lines en_dash [] [] []))%list
  /\ List.length (prompt_lines en_dash company_profile financial_metrics
                    benchmark_data)
     = (23 + List.length benchmark_data)%nat.
Proof.
  unfold prompt_lines. cbv zeta. rewrite append_benchmarks_map.
  split.
  - cbn [append_benchmarks firstn skipn List.app]. reflexivity.
  - rewrite !length_app, length_map. cbn [List.length]. lia.
Qed.

(** X22. The prompt reads the profile and the metrics through nine keys
    only: profiles and metrics that agree on them give the same prompt.
    A list of competitors that is missing, [None] or empty is shown as
    [None]. *)
Theorem format_user_prompt_keys (en_dash : string)
    (profile1 profile2 metrics1 metrics2 benchmark_data : dict) :
  (forall key, In key profile_keys -> lookup key profile1 = lookup key profile2) ->
  (forall key, In key metric_keys -> lookup key metrics1 = lookup key metrics2) ->
  _format_user_prompt en_dash profile1 metrics1 benchmark_data
  = _format_user_prompt en_dash profile2 metrics2 benchmark_data
  /\ (truthy (get_or profile1 "mentioned_competitors" (JArr [])) = false ->
      nth 5 (prompt_lines en_dash profile1 metrics1 benchmark_data) ""
      = "- Mentioned competitors: None").
Proof.
  intros Hp Hm. split.
  - unfold _format_user_prompt, prompt_lines. cbv zeta.
    rewrite !(get_or_lookup profile1 profile2), !(get_or_lookup metrics1 metrics2);
      try reflexivity;
      first [apply Hp | apply Hm]; cbn; tauto.
  - intros Hc. unfold prompt_lines. cbv zeta. rewrite append_benchmarks_map.
    cbn [List.app nth]. unfold py_or. now rewrite Hc.
Qed.

Lemma format_user_prompt_keys_witness :
  _format_user_prompt "-" sample_profile sample_metrics sample_benchmarks
  = _format_user_prompt "-" (("founded", JInt 2024) :: sample_profile)
      (rev sample_metrics) sample_benchmarks
  /\ nth 5 (prompt_lines "-" sample_profile sample_metrics sample_benchmarks) ""
     = "- Mentioned competitors: None".
Proof.
  destruct (format_user_prompt_keys "-" sample_profile
              (("founded", JInt 2024) :: sample_profile)
              sample_metrics (rev sample_metrics) sample_benchmarks)
    as [Hsame Hnone].
  - intros key [<- | [<- | [<- | [<- | [<- | []]]]]]; reflexivity.
  - intros key [<- | [<- | [<- | [<- | []]]]]; reflexivity.
  - split; [exact Hsame | apply Hnone; reflexivity].
Defined.

(** ** The memo file *)

(** X23. A memo that is returned is the answer of the model to the system
    prompt and the formatted prompt, and the file [diligence_memo.md] then
    holds exactly it. When the model call raises or the file cannot be
    opened, no file has changed; when the writing fails after the file
    was opened, the file has lost what it held and holds what reached it.
    No other file changes in any case, and at most one request is sent. *)
Theorem generate_memo_outcome (en_dash : string)
    (env : Env) (requests_post : Post -> post_outcome)
    (open_file : string -> string -> result unit)
    (write_file : string -> string -> write_outcome)
    (company_profile financial_metrics benchmark_data : dict)
    (sent sent' : list Post) (files files' : Files) (outcome : result string) :
  generate_memo en_dash env requests_post open_file write_file
    company_profile financial_metrics benchmark_data sent files
  = (sent', files', outcome) ->
  let answer :=
    chat_completion env requests_post SYSTEM_PROMPT
      (_format_user_prompt en_dash company_profile financial_metrics
         benchmark_data) None sent in
  fst answer = sent'
  /\ (sent' = sent \/ exists request, sent' = (sent ++ [request])%list)
  /\ (forall name, name <> "diligence_memo.md" -> files' name = files name)
  /\ match outcome with
     | inr memo =>
         snd answer = ret memo
         /\ open_file "diligence_memo.md" "w" = ret tt
         /\ write_file "diligence_memo.md" memo = Written
         /\ files' "diligence_memo.md" = Some memo
     | inl e =>
         (snd answer = raise e /\ files' = files)
         \/ (exists memo,
                snd answer = ret memo
                /\ open_file "diligence_memo.md" "w" = raise e
                /\ files' = files)
         \/ (exists memo remains,
                snd answer = ret memo
                /\ open_file "diligence_memo.md" "w" = ret tt
                /\ write_file "diligence_memo.md" memo = WriteFailed e remains
                /\ files' "diligence_memo.md" = Some remains)
     end.
Proof.
  unfold generate_memo, call_minimax. cbv zeta.
  set (user_prompt := _format_user_prompt en_dash company_profile
                        financial_metrics benchmark_data).
  assert (Hsent : fst (chat_completion env requests_post SYSTEM_PROMPT
                         user_prompt None sent) = sent
                  \/ exists request,
                       fst (chat_completion env requests_post SYSTEM_PROMPT
                              user_prompt None sent) = (sent ++ [request])%list).
  { destruct (unset (env "MINIMAX_API_KEY")) eqn:Uk.
    { left. now rewrite (credentials_checked env requests_post SYSTEM_PROMPT
                           user_prompt None sent (or_introl Uk)). }
    destruct (unset (env "MINIMAX_GROUP_ID")) eqn:Ug.
    { left. now rewrite (credentials_checked env requests_post SYSTEM_PROMPT
                           user_prompt None sent (or_intror Ug)). }
    destruct (unset_value _ Uk) as (api_key & Hkey & Hk).
    destruct (unset_value _ Ug) as (group_id & Hgroup & Hg).
    right. eexists.
    now rewrite (chat_completion_steps env requests_post api_key group_id
                   SYSTEM_PROMPT user_prompt None sent Hkey Hk Hgroup Hg). }
  assert (Hother : forall content name,
             name <> "diligence_memo.md" ->
             written (written files "diligence_memo.md" "") "diligence_memo.md"
               content name = files name).
  { intros content name Hname. unfold written.
    now rewrite (proj2 (String.eqb_neq _ _) Hname). }
  assert (Hfile : forall content,
             written (written files "diligence_memo.md" "") "diligence_memo.md"
               content "diligence_memo.md" = Some content).
  { intros content. unfold written. now rewrite String.eqb_refl. }
  destruct (chat_completion env requests_post SYSTEM_PROMPT user_prompt None sent)
    as [sent1 [e | memo]] eqn:Hcall; cbn [fst snd] in *.
  - intros [= <- <- <-]. split; [reflexivity|]. split; [exact Hsent|].
    split; [reflexivity|]. now left.
  - destruct (open_file "diligence_memo.md" "w") as [e | []] eqn:Hopen.
    + intros [= <- <- <-]. split; [reflexivity|]. split; [exact Hsent|].
      split; [reflexivity|]. right. left. now exists memo.
    + destruct (write_file "diligence_memo.md" memo) as [ | e remains] eqn:Hwrite;
        intros [= <- <- <-]; (split; [reflexivity|]); (split; [exact Hsent|]);
        (split; [apply Hother|]).
      * split; [reflexivity|]. split; [reflexivity|].
        split; [exact Hwrite | apply Hfile].
      * right. right. exists memo, remains.
        split; [reflexivity|]. split; [reflexivity|].
        split; [exact Hwrite | apply Hfile].
Qed.

Lemma generate_memo_outcome_witness :
  fst (chat_completion (env_of (Some "secret") (Some "g1"))
         (fun _ => Replied (reply_of 200 "OK" ""
                              (ret (completion_body (JStr "# Memo")))))
         SYSTEM_PROMPT
         (_format_user_prompt "-" sample_profile sample_metrics sample_benchmarks)
         None [])
  = [request_for "secret" "g1" SYSTEM_PROMPT
       (_format_user_prompt "-" sample_profile sample_metrics sample_benchmarks)
       None]
  /\ written (fun _ => Some "# Old memo") "diligence_memo.md" ""
       "diligence_memo.md" = Some "".
Proof.
  pose proof (generate_memo_outcome "-" (env_of (Some "secret") (Some "g1"))
                (fun _ => Replied (reply_of 200 "OK" ""
                                     (ret (completion_body (JStr "# Memo")))))
                (fun _ _ => ret tt)
                (fun _ _ => WriteFailed (ValueError "surrogates not allowed") "")
                sample_profile sample_metrics sample_benchmarks
                []
                [request_for "secret" "g1" SYSTEM_PROMPT
                   (_format_user_prompt "-" sample_profile sample_metrics
                      sample_benchmarks) None]
                (fun _ => Some "# Old memo")
                (written (written (fun _ => Some "# Old memo")
                            "diligence_memo.md" "") "diligence_memo.md" "")
                (inl (ValueError "surrogates not allowed")) eq_refl) as H.
  cbv beta iota zeta in H.
  destruct H as (Hsent & _ & _ & [[H _] | [(memo & _ & H & _) | H]]).
  - discriminate H.
  - discriminate H.
  - split; [exact Hsent | reflexivity].
Defined.

End MemoFacts.

(* ================================================================== *)
(** * Facts about reading the description *)

Module MainFacts.
Import Py PyFacts TextFacts Main.

(** ** Stripped lines, joined *)

Lemma stripped_head (t : string) :
  nonempty t = true -> strip t = t ->
  exists c r, t = String c r /\ isspace c = false /\ rstrip t = t.
Proof.
  intros Hn Hs. unfold strip in Hs.
  destruct (lstrip_head t) as [E | (c & r & E & Hc)].
  - rewrite E in Hs. cbn in Hs. rewrite <- Hs in Hn. discriminate.
  - rewrite E in Hs. destruct (rstrip_head c r Hc) as [r' Hr].
    exists c, r'. rewrite Hr in Hs. split; [now symmetry|]. split; [exact Hc|].
    rewrite <- Hs at 1. rewrite <- Hr. rewrite rstrip_idempotent.
    now rewrite Hr.
Qed.

Lemma join_stripped (t : string) (lines : list string) :
  Forall (fun l => nonempty l = true /\ strip l = l) (t :: lines) ->
  nonempty (join nl (t :: lines)) = true
  /\ strip (join nl (t :: lines)) = join nl (t :: lines).
Proof.
  revert t. induction lines as [|t2 rest IH]; intros t H.
  - inversion H as [|? ? [Hn Hs] _]. now split.
  - inversion H as [|? ? [Hn Hs] Hrest]; subst.
    destruct (IH t2 Hrest) as [Hjn Hjs].
    change (join nl (t :: t2 :: rest)) with (t ++ nl ++ join nl (t2 :: rest)).
    set (J := join nl (t2 :: rest)) in *.
    destruct (stripped_head t Hn Hs) as (c & r & -> & Hc & _).
    destruct (stripped_head J Hjn Hjs) as (cj & rj & EJ & _ & HrJ).
    split; [reflexivity|].
    unfold strip.
    change (String c r ++ nl ++ J) with (String c (r ++ nl ++ J)).
    rewrite (lstrip_keeps c _ Hc).
    change (String c (r ++ nl ++ J)) with (String c r ++ nl ++ J).
    rewrite <- app_assoc_string, rstrip_app, HrJ, EJ. reflexivity.
Qed.

Lemma strip_lines (raws : list string) :
  Forall (fun raw => written_line raw = true) raws ->
  Forall (fun l => nonempty l = true /\ strip l = l) (map strip raws).
Proof.
  induction 1 as [|raw raws Hr _ IH]; cbn [map]; constructor; [|exact IH].
  split; [exact Hr | apply strip_idempotent].
Qed.

(** ** The loop *)

Lemma further_lines_blank (more : list string) (blank : string)
    (rest lines : list string) :
  Forall (fun raw => written_line raw = true) more ->
  written_line blank = false ->
  further_lines (more ++ blank :: rest) lines
  = (rest, inr (lines ++ map strip more)%list).
Proof.
  intros Hmore Hblank. revert lines.
  induction Hmore as [|raw more Hr _ IH]; intros lines; cbn [List.app further_lines map].
  - unfold written_line in Hblank. rewrite Hblank. cbn [negb].
    now rewrite app_nil_r.
  - unfold written_line in Hr. rewrite Hr. cbn [negb].
    rewrite IH, <- app_assoc. reflexivity.
Qed.

Lemma further_lines_eof (pending lines : list string) :
  Forall (fun raw => written_line raw = true) pending ->
  further_lines pending lines = ([], inl EOFError).
Proof.
  intros H. revert lines.
  induction H as [|raw more Hr _ IH]; intros lines; cbn [further_lines].
  - reflexivity.
  - unfold written_line in Hr. rewrite Hr. cbn [negb]. apply IH.
Qed.

(** ** Up to the first line *)

Lemma banner_printed (out : string) :
  ((((out ++ (nl ++ "Enter startup description:") ++ nl)
     ++ "  - Type your description and press Enter twice to finish" ++ nl)
    ++ "  - Or enter a file path (e.g. description.txt) to load from file" ++ nl)
   ++ "" ++ nl) ++ "Description or file path: "
  = out ++ banner.
Proof.
  unfold banner. rewrite !app_assoc_string. reflexivity.
Qed.

Lemma load_startup_description_steps (disk : Disk) (c : Console) :
  load_startup_description disk c
  = match stdin c with
    | [] => ({| stdin := []; stdout := stdout c ++ banner |}, inl EOFError)
    | raw :: pending =>
        let after := {| stdin := pending; stdout := stdout c ++ banner |} in
        if negb (nonempty (strip raw)) then
          (after, inl (Exn (ValueError "No description or file path provided.")))
        else
          match path_exists disk (strip raw) with
          | inl e => (after, inl e)
          | inr there =>
              match (if there then is_file disk (strip raw) else inr false) with
              | inl e => (after, inl e)
              | inr true =>
                  (after,
                   match read_text disk (strip raw) with
                   | inl e => inl e
                   | inr text => inr (strip text)
                   end)
              | inr false =>
                  ({| stdin := fst (further_lines pending [strip raw]);
                      stdout := stdout c ++ banner |},
                   match snd (further_lines pending [strip raw]) with
                   | inl e => inl e
                   | inr lines => inr (strip (join nl lines))
                   end)
              end
          end
    end.
Proof.
  unfold load_startup_description, run_bind, print, input, run_raise, run_ret,
    run_of.
  cbn [stdin stdout]. rewrite banner_printed.
  destruct (stdin c) as [|raw pending]; [reflexivity|].
  cbv zeta.
  destruct (negb (nonempty (strip raw))); [reflexivity|].
  destruct (path_exists disk (strip raw)) as [e | there]; [reflexivity|].
  destruct there.
  - destruct (is_file disk (strip raw)) as [e | []]; [reflexivity | |].
    + now destruct (read_text disk (strip raw)).
    + cbn [stdin stdout].
      destruct (further_lines pending [strip raw]) as [rest [e | lines]];
        reflexivity.
  - cbn [stdin stdout].
    destruct (further_lines pending [strip raw]) as [rest [e | lines]];
      reflexivity.
Qed.

(** On a path that is no file the lines are read. *)
Lemma no_file_steps (disk : Disk) (path : string) :
  names_no_file disk path ->
  exists there,
    path_exists disk path = inr there
    /\ (if there then is_file disk path else inr false) = inr false.
Proof.
  intros [H | [H H']].
  - exists false. now rewrite H.
  - exists true. now rewrite H, H'.
Qed.

(** ** A description that is typed *)

(** X24. When the first line has a character that is not a blank, the
    file system answers that it names no file, and the lines after it are
    followed by a blank one, the description is the stripped lines up to
    the blank one, joined by newlines; it is not empty, has no blank at
    either end, and the input after the blank line is left unread. *)
Theorem load_startup_description_typed (disk : Disk) (c : Console)
    (raw : string) (more : list string) (blank : string) (rest : list string) :
  stdin c = (raw :: more ++ blank :: rest)%list ->
  written_line raw = true ->
  names_no_file disk (strip raw) ->
  Forall (fun line => written_line line = true) more ->
  written_line blank = false ->
  load_startup_description disk c
  = ({| stdin := rest; stdout := stdout c ++ banner |},
     inr (join nl (map strip (raw :: more))))
  /\ nonempty (join nl (map strip (raw :: more))) = true
  /\ strip (join nl (map strip (raw :: more))) = join nl (map strip (raw :: more)).
Proof.
  intros Hin Hraw Hfile Hmore Hblank.
  assert (Hlines : Forall (fun l => nonempty l = true /\ strip l = l)
                     (map strip (raw :: more))).
  { apply strip_lines. now constructor. }
  destruct (join_stripped (strip raw) (map strip more) Hlines) as [Hn Hs].
  split; [|split; [exact Hn | exact Hs]].
  rewrite load_startup_description_steps, Hin. cbv zeta.
  unfold written_line in Hraw. rewrite Hraw. cbn [negb].
  destruct (no_file_steps disk (strip raw) Hfile) as (there & -> & ->).
  rewrite (further_lines_blank more blank rest [strip raw] Hmore Hblank).
  cbn [fst snd List.app]. cbn [map] in Hs. now rewrite Hs.
Qed.

Lemma load_startup_description_typed_witness :
  load_startup_description (disk_of "description.txt" "We sell shoes.")
    {| stdin := [" We sell "; "shoes. "; "  "; "financials.csv"]; stdout := "" |}
  = ({| stdin := ["financials.csv"]; stdout := "" ++ banner |},
     inr (join nl (map strip [" We sell "; "shoes. "])))
  /\ nonempty (join nl (map strip [" We sell "; "shoes. "])) = true
  /\ strip (join nl (map strip [" We sell "; "shoes. "]))
     = join nl (map strip [" We sell "; "shoes. "]).
Proof.
  apply (load_startup_description_typed
           (disk_of "description.txt" "We sell shoes.")
           {| stdin := [" We sell "; "shoes. "; "  "; "financials.csv"];
              stdout := "" |}
           " We sell " ["shoes. "] "  " ["financials.csv"]);
    try reflexivity.
  - left. reflexivity.
  - repeat constructor.
Defined.

(** X25. When no line of the input is blank and the file system answers
    that the first one names no file, the function raises [EOFError] after
    reading all of the input: a description that is not followed by an
    empty line is not returned. *)
Theorem load_startup_description_unterminated (disk : Disk) (c : Console) :
  Forall (fun line => written_line line = true) (stdin c) ->
  (forall raw pending, stdin c = raw :: pending ->
     names_no_file disk (strip raw)) ->
  load_startup_description disk c
  = ({| stdin := []; stdout := stdout c ++ banner |}, inl EOFError).
Proof.
  intros Hall Hfile. rewrite load_startup_description_steps.
  destruct (stdin c) as [|raw pending] eqn:Hin; [reflexivity|].
  inversion Hall as [|? ? Hraw Hpending]; subst. cbv zeta.
  unfold written_line in Hraw. rewrite Hraw. cbn [negb].
  destruct (no_file_steps disk (strip raw) (Hfile raw pending eq_refl))
    as (there & -> & ->).
  now rewrite (further_lines_eof pending [strip raw] Hpending).
Qed.

Lemma load_startup_description_unterminated_witness :
  load_startup_description (disk_of "description.txt" "We sell shoes.")
    {| stdin := ["We sell"; "shoes."]; stdout := "" |}
  = ({| stdin := []; stdout := "" ++ banner |}, inl EOFError).
Proof.
  apply (load_startup_description_unterminated
           (disk_of "description.txt" "We sell shoes.")
           {| stdin := ["We sell"; "shoes."]; stdout := "" |}).
  - repeat constructor.
  - intros raw pending [= <- <-]. left. reflexivity.
Defined.

(** ** The first line *)

(** X26. Exactly one line is read when the first line is blank, which
    raises the [ValueError] of the missing description, and when it names a
    file, which gives the text of the file stripped (the empty string for
    a file of blanks) or the exception of reading it. *)
Theorem load_startup_description_first_line (disk : Disk) (c : Console)
    (raw : string) (pending : list string) :
  stdin c = raw :: pending ->
  (written_line raw = false ->
   load_startup_description disk c
   = ({| stdin := pending; stdout := stdout c ++ banner |},
      inl (Exn (ValueError "No description or file path provided."))))
  /\ (written_line raw = true ->
      path_exists disk (strip raw) = inr true ->
      is_file disk (strip raw) = inr true ->
      (forall text, read_text disk (strip raw) = inr text ->
         load_startup_description disk c
         = ({| stdin := pending; stdout := stdout c ++ banner |},
            inr (strip text))
         /\ (Company.only_whitespace text = true -> strip text = ""))
      /\ (forall e, read_text disk (strip raw) = inl e ->
            load_startup_description disk c
            = ({| stdin := pending; stdout := stdout c ++ banner |},
               inl e))).
Proof.
  intros Hin. rewrite load_startup_description_steps, Hin. cbv zeta.
  unfold written_line. split.
  - now intros ->.
  - intros -> -> ->. cbn [negb]. split.
    + intros text ->. split; [reflexivity|].
      apply CompanyFacts.only_whitespace_strip.
    + now intros e ->.
Qed.

Lemma load_startup_description_first_line_witness :
  load_startup_description (disk_of "description.txt" "  ")
    {| stdin := [" description.txt "; "financials.csv"]; stdout := "" |}
  = ({| stdin := ["financials.csv"]; stdout := "" ++ banner |}, inr (strip "  "))
  /\ strip "  " = "".
Proof.
  destruct (load_startup_description_first_line
              (disk_of "description.txt" "  ")
              {| stdin := [" description.txt "; "financials.csv"]; stdout := "" |}
              " description.txt " ["financials.csv"] eq_refl) as [_ H].
  destruct (H eq_refl eq_refl eq_refl) as [Hfile _].
  destruct (Hfile "  " eq_refl) as [Hload Hblank].
  split; [exact Hload | apply Hblank; reflexivity].
Defined.

(** X27. When the first line is not blank and [Path.exists] or
    [Path.is_file] raises on it, as on a line longer than a file name may
    be, the exception is raised after that one line is read: no
    description is returned, whatever follows in the input. *)
Theorem load_startup_description_refused (disk : Disk) (c : Console)
    (raw : string) (pending : list string) (e : raised) :
  stdin c = raw :: pending ->
  written_line raw = true ->
  path_exists disk (strip raw) = inl e
  \/ (path_exists disk (strip raw) = inr true
      /\ is_file disk (strip raw) = inl e) ->
  load_startup_description disk c
  = ({| stdin := pending; stdout := stdout c ++ banner |}, inl e).
Proof.
  intros Hin Hraw H. rewrite load_startup_description_steps, Hin. cbv zeta.
  unfold written_line in Hraw. rewrite Hraw. cbn [negb].
  destruct H as [-> | [-> ->]]; reflexivity.
Qed.

Lemma load_startup_description_refused_witness :
  load_startup_description refusing_disk
    {| stdin := ["We sell shoes."; ""]; stdout := "" |}
  = ({| stdin := [""]; stdout := "" ++ banner |},
     inl (OSError "[Errno 36] File name too long")).
Proof.
  apply (load_startup_description_refused refusing_disk
           {| stdin := ["We sell shoes."; ""]; stdout := "" |}
           "We sell shoes." [""]).
  - reflexivity.
  - reflexivity.
  - left. reflexivity.
Defined.

End MainFacts.
